(** * Gym Ticker: snapshot collector and query layer

    A shallow embedding of [scripts/collectGymHistory.js] (the periodic
    collector) and of [src/server/gymData.ts] (the read side), together with
    the properties of the specification that concern them.

    Conventions of the embedding:
    - SQL integers and JavaScript integral numbers are [Z]; a nullable column
      or a [number | null] value is an [option].  A JavaScript number that need
      not be integral (the retention in days, a combat power and what is
      computed from them) is a binary64 value.
    - The database is a record of tables, each table a list of rows in
      insertion order (the AUTO_INCREMENT [id] of a row is its position and is
      not stored).  A query without ORDER BY returns rows in table order.
    - A statement sent to the database can fail; which ones do is given by the
      [faulty] oracle of the run.  [UNIX_TIMESTAMP()] is read per statement.
    - [async] functions are computations in a state-and-exception monad over
      the world (committed store, open transaction, console). *)

From stdpp Require Import base gmap strings list sorting pretty.
From Stdlib Require Import ZArith QArith Qround Lia.
From Stdlib Require Import Floats.SpecFloat.

Local Open Scope Z_scope.

(** ** Tables *)

(** A row of the scanner's [gym] table, restricted to the columns the
    program reads.  Coordinates are opaque to the program (they are only
    handed to [ST_CONTAINS]) and are kept as fixed-point integers. *)
Module GymRow.
Record t := mk {
  id : string;
  name : string;
  team_id : option Z;
  lat : Z;
  lon : Z;
  url : string;
  description : option string;
  available_slots : option Z;
  availble_slots : option Z;
  guarding_pokemon_id : option Z;
  updated : Z;
  enabled : Z;
  defenders : option string;
  total_cp : option Z
}.
End GymRow.

(** [gym_history (id, timestamp, team_mystic, team_valor, team_instinct,
    total_gyms)]. *)
Record HistorySample := mkHistorySample {
  timestamp : Z;
  team_mystic : Z;
  team_valor : Z;
  team_instinct : Z;
  total_gyms : Z
}.

(** [gym_team_changes (id, gym_id, old_team_id, new_team_id, changed_at)]. *)
Record TeamChange := mkTeamChange {
  gym_id : string;
  old_team_id : option Z;
  new_team_id : option Z;
  changed_at : Z
}.

Global Instance TeamChange_eq_dec : EqDecision TeamChange.
Proof. solve_decision. Defined.

Global Instance HistorySample_eq_dec : EqDecision HistorySample.
Proof. solve_decision. Defined.

Record Store := mkStore {
  gym : list GymRow.t;
  gym_history : list HistorySample;
  gym_team_changes : list TeamChange
}.

(** ** Statements, errors, console *)

Inductive Stmt :=
  | GetConnection | BeginTransaction | Commit | Rollback | PoolEnd
  | CollectorCounts | CollectorInsertHistory
  | CollectorCurrent | CollectorLastState | CollectorInsertChange (k : nat)
  | CollectorSweepHistory | CollectorSweepChanges
  | SnapshotSelect
  | HistoryBuckets | HistoryLatest | HistoryContested | HistoryRecent
  | StatsSelect.

Global Instance Stmt_eq_dec : EqDecision Stmt.
Proof. solve_decision. Defined.

Inductive Error :=
  | ConfigError (msg : string)
  | StoreError (st : Stmt)
  | TypeError (msg : string).

Inductive Result (A : Type) :=
  | Ok (a : A)
  | Throw (e : Error).
Arguments Ok {A} a.
Arguments Throw {A} e.

Inductive LogLine :=
  | ConsoleLog (msg : string)
  | ConsoleWarn (msg : string)
  | ConsoleError (msg : string).

(** ** JavaScript numbers

    A number is an IEEE 754 binary64 value: a signed zero, a signed infinity,
    NaN, or [(-1)^s * m * 2^e].  Sums, products and quotients round to the
    nearest number, ties to even. *)
Module Num.
Definition t : Set := spec_float.

(** The number an integer literal or an integral count denotes. *)
Definition of_Z (z : Z) : t := binary_normalize 53 1024 z 0 false.

Definition add : t -> t -> t := SFadd 53 1024.
Definition mul : t -> t -> t := SFmul 53 1024.
Definition div : t -> t -> t := SFdiv 53 1024.

(** [Number.isFinite]. *)
Definition isFinite (x : t) : bool :=
  match x with
  | S754_zero _ | S754_finite _ _ _ => true
  | S754_infinity _ | S754_nan => false
  end.

(** The integer [Math.floor] gives on the finite number
    [(-1)^s * m * 2^e]. *)
Definition floor_finite (s : bool) (m : positive) (e : Z) : Z :=
  Z.shiftl (if s then Z.neg m else Z.pos m) e.

(** [Math.round]: the nearest integer, halves towards plus infinity.  A
    number without fraction, an infinity and NaN are returned as they are;
    a zero result has the sign of the argument. *)
Definition round (x : t) : t :=
  match x with
  | S754_finite s m e =>
      if 0 <=? e then x
      else
        let n :=
          Z.shiftl (2 * (if s then Z.neg m else Z.pos m) + Z.shiftl 1 (- e))
            (e - 1) in
        if n =? 0 then S754_zero s else of_Z n
  | _ => x
  end.
End Num.

(** The [Defender] interface, restricted to the fields the program reads.
    [cp_when_deployed] is a number, a string, or anything else ([None]). *)
Record Defender := mkDefender {
  pokemon_id : option Z;
  form : option Z;
  costume : option Z;
  cp_when_deployed : option (Num.t + string)
}.

(** A parsed payload is an array or something else.  An array element is a
    [Defender] as the interface declares it ([None] is the element [null],
    on which a property access raises a TypeError); an object that is not an
    array is kept as its source text. *)
Inductive JsonScalar :=
  | JNull | JBool (b : bool) | JNumber (n : Z) | JString (s : string)
  | JObject (raw : string).

Inductive JsonValue :=
  | JArray (items : list (option Defender))
  | JOther (v : JsonScalar).

(** ** The runtime a call executes in

    Everything the program obtains from outside its own code: the failures
    and the clock of the database, the JavaScript clock, the geofence
    predicate, and the built-ins and imported tables whose code is not part
    of the repository sources. *)
Record Runtime := mkRuntime {
  faulty : Stmt -> bool;
  UNIX_TIMESTAMP : Stmt -> Z;
  Date_now : Z;
  ST_CONTAINS : string -> Z -> Z -> bool;
  JSON_parse : string -> option JsonValue;
  Number_of_string : string -> Num.t;
  parseInt : string -> option Z;
  getPokemonName : Z -> string;
  TEAM_NAMES : Z -> option string;
  module_loaded_at : Z
}.

(** ** The world and the monad of asynchronous code *)

Record World := mkWorld {
  committed : Store;
  working : option Store;
  console : list LogLine
}.

Definition M (A : Type) : Type := World -> Result A * World.

Definition ret {A} (a : A) : M A := fun w => (Ok a, w).

Definition throw {A} (e : Error) : M A := fun w => (Throw e, w).

Definition bind {A B} (m : M A) (k : A -> M B) : M B :=
  fun w =>
    match m w with
    | (Ok a, w') => k a w'
    | (Throw e, w') => (Throw e, w')
    end.

Notation "x <- m ;; k" := (bind m (fun x => k))
  (at level 100, m at next level, right associativity).
Notation "m ;;; k" := (bind m (fun _ => k))
  (at level 100, right associativity).

Definition lift {A} (r : Result A) : M A := fun w => (r, w).

Definition try_catch {A} (body : M A) (handler : Error -> M A) : M A :=
  fun w =>
    match body w with
    | (Ok a, w') => (Ok a, w')
    | (Throw e, w') => handler e w'
    end.

Definition try_finally {A} (body : M A) (finalizer : M unit) : M A :=
  fun w =>
    match body w with
    | (r, w') =>
        match finalizer w' with
        | (Ok _, w'') => (r, w'')
        | (Throw e, w'') => (Throw e, w'')
        end
    end.

Definition emit (l : LogLine) : M unit :=
  fun w => (Ok tt, mkWorld (committed w) (working w) (console w ++ [l])).

Definition Env := string -> option string.

(** ** SQL building blocks *)

(** [GROUP BY key]: one group per distinct key, holding the rows of that key
    in table order. *)
Definition sql_group_by {A K : Type} `{EqDecision K} (key : A -> K)
    (rows : list A) : list (K * list A) :=
  (fun k => (k, List.filter (fun r => bool_decide (key r = k)) rows))
    <$> remove_dups (key <$> rows).

(** [MAX] over a group; NULL on the empty group. *)
Definition sql_max (l : list Z) : option Z :=
  match l with
  | [] => None
  | x :: l' => Some (foldr Z.max x l')
  end.

(** [SUM] over a group; NULL on the empty group. *)
Definition sql_sum (l : list Z) : option Z :=
  match l with
  | [] => None
  | _ => Some (foldr Z.add 0 l)
  end.

(** [AVG] over a group of integers, as an exact rational; NULL on the empty
    group.  (MySQL returns the average to four decimals, which rounds to the
    same integer for every group of fewer than 10000 rows.) *)
Definition sql_avg (l : list Z) : option Q :=
  match l with
  | [] => None
  | _ => Some (Qdiv (inject_Z (foldr Z.add 0 l)) (inject_Z (Z.of_nat (length l))))
  end.

(** [Math.round]: the nearest integer, halves towards plus infinity. *)
Definition Math_round (q : Q) : Z := Qfloor (q + (1 # 2))%Q.

(** [enabled = 1 AND ST_CONTAINS(<geofence>, POINT(lon, lat))]. *)
Definition in_region (rt : Runtime) (geofenceId : string) (g : GymRow.t) : bool :=
  (GymRow.enabled g =? 1) && ST_CONTAINS rt geofenceId (GymRow.lon g) (GymRow.lat g).

(** ** The connection *)

Section Connection.
Context (rt : Runtime).

(** The store a statement of the collector's connection sees. *)
Definition view (w : World) : Store :=
  match working w with
  | Some s => s
  | None => committed w
  end.

Definition getConnection : M unit :=
  fun w => if faulty rt GetConnection then (Throw (StoreError GetConnection), w)
           else (Ok tt, w).

Definition beginTransaction : M unit :=
  fun w => if faulty rt BeginTransaction then (Throw (StoreError BeginTransaction), w)
           else (Ok tt, mkWorld (view w) (Some (view w)) (console w)).

Definition commit : M unit :=
  fun w => if faulty rt Commit then (Throw (StoreError Commit), w)
           else (Ok tt, mkWorld (view w) None (console w)).

Definition rollback : M unit :=
  fun w => if faulty rt Rollback then (Throw (StoreError Rollback), w)
           else (Ok tt, mkWorld (committed w) None (console w)).

(** [connection.release(); await pool.end()]: the connection is closed and
    the server discards whatever transaction was still open on it, also
    when closing the pool reports an error. *)
Definition release_and_end : M unit :=
  fun w =>
    (if faulty rt PoolEnd then Throw (StoreError PoolEnd) else Ok tt,
     mkWorld (committed w) None (console w)).

(** A read on the collector's connection. *)
Definition query {A} (st : Stmt) (q : Store -> A) : M A :=
  fun w => if faulty rt st then (Throw (StoreError st), w)
           else (Ok (q (view w)), w).

(** A write on the collector's connection: inside the open transaction if
    there is one, committed at once otherwise. *)
Definition execute (st : Stmt) (upd : Store -> Store) : M unit :=
  fun w => if faulty rt st then (Throw (StoreError st), w)
           else match working w with
                | Some s => (Ok tt, mkWorld (committed w) (Some (upd s)) (console w))
                | None => (Ok tt, mkWorld (upd (committed w)) None (console w))
                end.

(** A read through the dashboard's pool: it sees committed data only. *)
Definition pool_execute {A} (st : Stmt) (q : Store -> A) : M A :=
  fun w => if faulty rt st then (Throw (StoreError st), w)
           else (Ok (q (committed w)), w).
End Connection.

(** ** scripts/collectGymHistory.js *)

Module Collector.

Definition ensure (value : option string) (name : string) : Result string :=
  match value with
  | Some v => if decide (v = "") then Throw (ConfigError (name +:+ " is not configured"))
              else Ok v
  | None => Throw (ConfigError (name +:+ " is not configured"))
  end.

(** The class [\w] of a regular expression without the unicode flag. *)
Definition is_word_char (c : Ascii.ascii) : bool :=
  let n := Ascii.N_of_ascii c in
  ((48 <=? n) && (n <=? 57) || (65 <=? n) && (n <=? 90)
   || (97 <=? n) && (n <=? 122) || (n =? 95))%N.

(** [/^\w+$/.test(s)]. *)
Definition matches_word (s : string) : bool :=
  negb (bool_decide (s = "")) && forallb is_word_char (String.list_ascii_of_string s).

Definition ensureIdentifier (value : option string) (name : string) : Result string :=
  match ensure value name with
  | Ok identifier =>
      if matches_word identifier then Ok identifier
      else Throw (ConfigError (name +:+ " contains unsupported characters"))
  | Throw e => Throw e
  end.

Definition insert_history (h : HistorySample) (s : Store) : Store :=
  mkStore (gym s) (gym_history s ++ [h]) (gym_team_changes s).

Definition insert_change (c : TeamChange) (s : Store) : Store :=
  mkStore (gym s) (gym_history s) (gym_team_changes s ++ [c]).

(** [DELETE FROM gym_history WHERE timestamp < cutoff]. *)
Definition delete_history_before (cutoff : Z) (s : Store) : Store :=
  mkStore (gym s)
          (List.filter (fun h => negb (timestamp h <? cutoff)) (gym_history s))
          (gym_team_changes s).

(** [DELETE FROM gym_team_changes WHERE changed_at < cutoff]. *)
Definition delete_changes_before (cutoff : Z) (s : Store) : Store :=
  mkStore (gym s) (gym_history s)
          (List.filter (fun c => negb (changed_at c <? cutoff)) (gym_team_changes s)).

Section Run.
Context (rt : Runtime).

(** [SELECT id, team_id FROM gym WHERE enabled = 1 AND ST_CONTAINS(...)]. *)
Definition select_current (geofenceId : string) (s : Store)
    : list (string * option Z) :=
  (fun g => (GymRow.id g, GymRow.team_id g))
    <$> List.filter (in_region rt geofenceId) (gym s).

(** The derived table [latest]:
    [SELECT gym_id, MAX(changed_at) AS last_changed FROM gym_team_changes
     GROUP BY gym_id]. *)
Definition select_latest (s : Store) : list (string * option Z) :=
  (fun grp => (grp.1, sql_max (changed_at <$> grp.2)))
    <$> sql_group_by gym_id (gym_team_changes s).

(** [SELECT gtc.gym_id, gtc.new_team_id FROM gym_team_changes gtc
     JOIN latest ON latest.gym_id = gtc.gym_id
                AND latest.last_changed = gtc.changed_at]. *)
Definition select_last_state (s : Store) : list (string * option Z) :=
  gtc ← gym_team_changes s;
  latest ← select_latest s;
  if bool_decide (latest.1 = gym_id gtc /\ latest.2 = Some (changed_at gtc))
  then [(gym_id gtc, new_team_id gtc)] else [].

(** [for (const row of lastStateRows) lastStateMap.set(...)]. *)
Definition build_lastStateMap (rows : list (string * option Z))
    : gmap string (option Z) :=
  fold_left (fun m row => <[row.1 := row.2]> m) rows ∅.

(** The loop over [currentRows]; [k] numbers the iterations. *)
Fixpoint diff_loop (timestamp : Z) (k : nat) (currentRows : list (string * option Z))
    (lastStateMap : gmap string (option Z)) : M unit :=
  match currentRows with
  | [] => ret tt
  | row :: rest =>
      let currentTeam := row.2 in
      match lastStateMap !! row.1 with
      | None =>
          execute rt (CollectorInsertChange k)
            (insert_change (mkTeamChange row.1 None currentTeam timestamp)) ;;;
          diff_loop timestamp (S k) rest (<[row.1 := currentTeam]> lastStateMap)
      | Some lastTeam =>
          if decide (lastTeam = currentTeam)
          then diff_loop timestamp (S k) rest lastStateMap
          else
            execute rt (CollectorInsertChange k)
              (insert_change (mkTeamChange row.1 lastTeam currentTeam timestamp)) ;;;
            diff_loop timestamp (S k) rest (<[row.1 := currentTeam]> lastStateMap)
      end
  end.

Definition trackTeamChanges (geofenceId : string) : M unit :=
  currentRows <- query rt CollectorCurrent (select_current geofenceId) ;;
  lastStateRows <- query rt CollectorLastState select_last_state ;;
  let lastStateMap := build_lastStateMap lastStateRows in
  let timestamp := Date_now rt `div` 1000 in
  diff_loop timestamp 0 currentRows lastStateMap.

(** The aggregate row of the counting query: three [SUM(CASE ...)] and a
    [COUNT(star)]. *)
Definition select_counts (geofenceId : string) (s : Store)
    : option Z * option Z * option Z * Z :=
  let rows := List.filter (in_region rt geofenceId) (gym s) in
  let flag (team : Z) (g : GymRow.t) : Z :=
    if bool_decide (GymRow.team_id g = Some team) then 1 else 0 in
  (sql_sum (flag 1 <$> rows), sql_sum (flag 2 <$> rows),
   sql_sum (flag 3 <$> rows), Z.of_nat (length rows)).

(** [Number(process.env.GYM_HISTORY_RETENTION_DAYS || 7)], then
    [Math.max(Math.floor(retentionDays * 24 * 60 * 60), 1)]: the integer
    this number is, and [None] when it is Infinity or NaN. *)
Definition retentionSeconds (env : Env) : option Z :=
  let retentionDays :=
    match env "GYM_HISTORY_RETENTION_DAYS" with
    | Some v => if decide (v = "") then Num.of_Z 7 else Number_of_string rt v
    | None => Num.of_Z 7
    end in
  match Num.mul (Num.mul (Num.mul retentionDays (Num.of_Z 24)) (Num.of_Z 60))
          (Num.of_Z 60) with
  | S754_finite s m e => Some (Z.max (Num.floor_finite s m e) 1)
  | S754_zero _ | S754_infinity true => Some 1
  | S754_infinity false | S754_nan => None
  end.

(** [WHERE col < UNIX_TIMESTAMP() - ?]: with a parameter that is not a
    finite number the comparison is never true. *)
Definition sweep_cutoff (st : Stmt) (retention : option Z) : option Z :=
  (fun r => UNIX_TIMESTAMP rt st - r) <$> retention.

Definition sweep_history (cutoff : option Z) (s : Store) : Store :=
  from_option (fun c => delete_history_before c s) s cutoff.

Definition sweep_changes (cutoff : option Z) (s : Store) : Store :=
  from_option (fun c => delete_changes_before c s) s cutoff.

(** The body of the [try] block of [collectGymHistory]. *)
Definition transaction (geofenceId : string) (retention : option Z) : M unit :=
  beginTransaction rt ;;;
  countsRow <- query rt CollectorCounts (select_counts geofenceId) ;;
  let '(mystic, valor, instinct, total) := countsRow in
  let mysticCount := default 0 mystic in
  let valorCount := default 0 valor in
  let instinctCount := default 0 instinct in
  let totalCount := total in
  execute rt CollectorInsertHistory
    (insert_history
       (mkHistorySample (UNIX_TIMESTAMP rt CollectorInsertHistory)
          mysticCount valorCount instinctCount totalCount)) ;;;
  trackTeamChanges geofenceId ;;;
  execute rt CollectorSweepHistory
    (sweep_history (sweep_cutoff CollectorSweepHistory retention)) ;;;
  execute rt CollectorSweepChanges
    (sweep_changes (sweep_cutoff CollectorSweepChanges retention)) ;;;
  commit rt ;;;
  emit (ConsoleLog "Gym history collected successfully").

Definition collectGymHistory (env : Env) : M unit :=
  dbHost <- lift (ensure (env "DB_HOST") "DB_HOST") ;;
  dbUser <- lift (ensure (env "DB_USER") "DB_USER") ;;
  dbPass <- lift (ensure (env "DB_PASS") "DB_PASS") ;;
  dbName <- lift (ensureIdentifier (env "DB_NAME") "DB_NAME") ;;
  geofenceDbName <-
    lift (ensureIdentifier (env "GEOFENCE_DB_NAME") "GEOFENCE_DB_NAME") ;;
  geofenceId <- lift (ensure (env "GEOFENCE_ID") "GEOFENCE_ID") ;;
  let retention := retentionSeconds env in
  getConnection rt ;;;
  try_finally
    (try_catch
       (transaction geofenceId retention)
       (fun error =>
          rollback rt ;;;
          emit (ConsoleError "Error collecting gym history:") ;;;
          throw error))
    (release_and_end rt).

(** [collectGymHistory().then(() => process.exit(0))
                        .catch(() => process.exit(1))]. *)
Definition main (env : Env) (w : World) : Z * World :=
  match collectGymHistory env w with
  | (Ok _, w') => (0, w')
  | (Throw _, w') => (1, w')
  end.
End Run.
End Collector.

(** ** src/server/gymData.ts: the data it exchanges *)

Module Gym.
(** [{...gymRow, defenders, slots, last_updated}]: the columns of the row
    ([row]), with its [defenders] column replaced by the parsed value. *)
Record t := mk {
  row : GymRow.t;
  defenders : JsonValue;
  slots : option Z;
  last_updated : string
}.
Definition team_id (g : t) : option Z := GymRow.team_id (row g).
Definition id (g : t) : string := GymRow.id (row g).
End Gym.

Module Counts.
Record t := mk { mystic : Z; valor : Z; instinct : Z }.
End Counts.

Module GymApiResult.
Record t := mk {
  mystic : list Gym.t;
  valor : list Gym.t;
  instinct : list Gym.t;
  counts : Counts.t
}.
End GymApiResult.

Module ChartDataPoint.
Record t := mk { time : Z; mystic : Z; valor : Z; instinct : Z; total : Z }.
End ChartDataPoint.

Module ContestedGymChange.
Record t := mk { from : option Z; to : option Z; timestamp : Z }.
End ContestedGymChange.

Module ContestedGym.
Record t := mk {
  gym_id : string;
  name : string;
  lat : Z;
  lon : Z;
  url : string;
  current_team : Z;
  change_count : Z;
  last_changed : Z;
  recent_changes : list ContestedGymChange.t
}.
End ContestedGym.

Module CurrentCounts.
Record t := mk { mystic : Z; valor : Z; instinct : Z; total : Z }.
End CurrentCounts.

Module GymHistoryResponse.
(** [lastUpdated] is the instant, in milliseconds since the epoch, whose
    ISO-8601 text the response carries. *)
Record t := mk {
  period : string;
  chartData : list ChartDataPoint.t;
  contestedGyms : list ContestedGym.t;
  currentCounts : CurrentCounts.t;
  lastUpdated : Z
}.
End GymHistoryResponse.

Module DefenderStats.
Record t := mk {
  pokemon_id : Z;
  form : option Z;
  count : Z;
  total_cp : Num.t;
  avg_cp : Num.t;
  name : string
}.
End DefenderStats.

Module TeamStats.
Record t := mk {
  team_name : string;
  team_id : Z;
  total_defenders : Z;
  unique_species : Z;
  top_defenders : list DefenderStats.t;
  total_cp : Num.t;
  avg_cp_per_defender : Num.t
}.
End TeamStats.

Module StatsData.
(** [timestamp] is an instant in milliseconds, as for [lastUpdated]. *)
Record t := mk {
  teams : list TeamStats.t;
  total_defenders_all_teams : Z;
  timestamp : Z
}.
End StatsData.

Module HistoryRow.
Record t := mk {
  bucket : Z;
  mystic : option Q;
  valor : option Q;
  instinct : option Q;
  total : option Q
}.
End HistoryRow.

Module ContestedRow.
Record t := mk {
  gym_id : string;
  name : string;
  lat : Z;
  lon : Z;
  url : string;
  current_team : option Z;
  change_count : Z;
  last_changed : option Z
}.
End ContestedRow.

Module TeamAggregation.
(** [defenders] is a [Map]: its entries are kept in insertion order. *)
Record t := mk {
  defenders : list (string * DefenderStats.t);
  totalDefenders : Z;
  totalCp : Num.t
}.
End TeamAggregation.

Inductive PeriodKey := P6h | P12h | P24h | P48h | P7d.

Module PeriodConfig.
Record t := mk { duration : Z; bucket : Z }.
End PeriodConfig.

(** ** src/server/gymData.ts *)

Module GymData.

Definition PERIOD_CONFIG (key : PeriodKey) : PeriodConfig.t :=
  match key with
  | P6h => PeriodConfig.mk (6 * 60 * 60) (5 * 60)
  | P12h => PeriodConfig.mk (12 * 60 * 60) (5 * 60)
  | P24h => PeriodConfig.mk (24 * 60 * 60) (5 * 60)
  | P48h => PeriodConfig.mk (48 * 60 * 60) (15 * 60)
  | P7d => PeriodConfig.mk (7 * 24 * 60 * 60) (60 * 60)
  end.

Definition period_name (key : PeriodKey) : string :=
  match key with
  | P6h => "6h" | P12h => "12h" | P24h => "24h" | P48h => "48h" | P7d => "7d"
  end.

(** [Object.keys(PERIOD_CONFIG).includes(period) ? period : "24h"]. *)
Definition resolve_key (period : string) : PeriodKey :=
  default P24h
    (List.find (fun k => bool_decide (period_name k = period))
               [P6h; P12h; P24h; P48h; P7d]).

Definition ensureIdentifier (value : option string) (label : string) : Result string :=
  match value with
  | None => Throw (ConfigError ("Missing configuration for " +:+ label))
  | Some v =>
      if decide (v = "") then Throw (ConfigError ("Missing configuration for " +:+ label))
      else if Collector.matches_word v then Ok v
      else Throw (ConfigError ("Invalid " +:+ label +:+ " provided"))
  end.

Definition normalizeTeamId (teamId : option Z) : option Z :=
  match teamId with
  | None => None
  | Some t => if decide (t = 0) then None else Some t
  end.

Definition buildChartData (rows : list HistoryRow.t) : list ChartDataPoint.t :=
  (fun row =>
     let mystic := Math_round (default 0%Q (HistoryRow.mystic row)) in
     let valor := Math_round (default 0%Q (HistoryRow.valor row)) in
     let instinct := Math_round (default 0%Q (HistoryRow.instinct row)) in
     let recordedTotal := Math_round (default 0%Q (HistoryRow.total row)) in
     let controlledSum := mystic + valor + instinct in
     let total := Z.max recordedTotal controlledSum in
     ChartDataPoint.mk (HistoryRow.bucket row * 1000) mystic valor instinct total)
    <$> rows.

Definition mapRecentChanges (rows : list TeamChange)
    : gmap string (list ContestedGymChange.t) :=
  fold_left
    (fun grouped row =>
       let fromTeam := normalizeTeamId (old_team_id row) in
       let toTeam := normalizeTeamId (new_team_id row) in
       if decide (fromTeam = toTeam) then grouped
       else
         let entries := default [] (grouped !! gym_id row) in
         let entries' :=
           if (List.length entries <? 5)%nat
           then entries
                  ++ [ContestedGymChange.mk fromTeam toTeam (changed_at row * 1000)]
           else entries in
         <[gym_id row := entries']> grouped)
    rows ∅.

Definition DEFAULT_GYM_RESULT : GymApiResult.t :=
  GymApiResult.mk [] [] [] (Counts.mk 0 0 0).

Definition empty_history (key : PeriodKey) : GymHistoryResponse.t :=
  GymHistoryResponse.mk (period_name key) [] [] (CurrentCounts.mk 0 0 0 0) 0.

(** Orders used by the ORDER BY clauses. *)
Definition updated_desc (a b : GymRow.t) : Prop :=
  GymRow.updated b <= GymRow.updated a.
Definition bucket_asc (a b : HistoryRow.t) : Prop :=
  HistoryRow.bucket a <= HistoryRow.bucket b.
Definition timestamp_desc (a b : HistorySample) : Prop :=
  timestamp b <= timestamp a.
Definition changed_at_desc (a b : TeamChange) : Prop :=
  changed_at b <= changed_at a.
(** [ORDER BY change_count DESC, last_changed DESC]. *)
Definition contested_order (a b : ContestedRow.t) : Prop :=
  ContestedRow.change_count b < ContestedRow.change_count a
  \/ (ContestedRow.change_count b = ContestedRow.change_count a
      /\ default 0 (ContestedRow.last_changed b)
         <= default 0 (ContestedRow.last_changed a)).

Global Instance updated_desc_dec a b : Decision (updated_desc a b).
Proof. unfold updated_desc. apply _. Defined.
Global Instance bucket_asc_dec a b : Decision (bucket_asc a b).
Proof. unfold bucket_asc. apply _. Defined.
Global Instance timestamp_desc_dec a b : Decision (timestamp_desc a b).
Proof. unfold timestamp_desc. apply _. Defined.
Global Instance changed_at_desc_dec a b : Decision (changed_at_desc a b).
Proof. unfold changed_at_desc. apply _. Defined.
Global Instance contested_order_dec a b : Decision (contested_order a b).
Proof. unfold contested_order. apply _. Defined.

Section Queries.
Context (rt : Runtime).

Definition DEFAULT_STATS : StatsData.t :=
  StatsData.mk [] 0 (module_loaded_at rt).

Definition toNumber (value : option (Num.t + string)) : Num.t :=
  match value with
  | Some (inl n) => if Num.isFinite n then n else Num.of_Z 0
  | Some (inr s) =>
      let parsed := Number_of_string rt s in
      if Num.isFinite parsed then parsed else Num.of_Z 0
  | None => Num.of_Z 0
  end.

Definition getTimeSinceUpdate (unixTimestamp : Z) : string :=
  let now := Date_now rt `div` 1000 in
  let diff := now - unixTimestamp in
  if diff <? 60 then pretty diff +:+ "s ago"
  else if diff <? 3600 then pretty (diff `div` 60) +:+ "m ago"
  else if diff <? 86400 then pretty (diff `div` 3600) +:+ "h ago"
  else pretty (diff `div` 86400) +:+ "d ago".

(** *** fetchGymSnapshot *)

(** [WHERE g.updated > UNIX_TIMESTAMP() - ? AND g.enabled = 1
     AND ST_CONTAINS(...) ORDER BY g.updated DESC].  With a window that
    is not a number ([None]) the comparison is never true. *)
Definition select_snapshot (timeWindow : option Z) (geofenceId : string)
    (s : Store) : list GymRow.t :=
  merge_sort updated_desc
    (List.filter
       (fun g =>
          match timeWindow with
          | Some window =>
              UNIX_TIMESTAMP rt SnapshotSelect - window <? GymRow.updated g
          | None => false
          end && in_region rt geofenceId g)
       (gym s)).

(** The [try { JSON.parse } catch { warn }] of the snapshot loop. *)
Definition snapshot_defenders (gymRow : GymRow.t) : M JsonValue :=
  match GymRow.defenders gymRow with
  | None => ret (JArray [])
  | Some text =>
      if decide (text = "") then ret (JArray [])
      else match JSON_parse rt text with
           | Some parsed => ret parsed
           | None =>
               emit (ConsoleWarn ("Failed to parse defenders for gym "
                                  +:+ GymRow.id gymRow +:+ ":")) ;;;
               ret (JArray [])
           end
  end.

Definition snapshot_push (gym : Gym.t) (result : GymApiResult.t) : GymApiResult.t :=
  let counts := GymApiResult.counts result in
  if decide (Gym.team_id gym = Some 1) then
    GymApiResult.mk (GymApiResult.mystic result ++ [gym])
      (GymApiResult.valor result) (GymApiResult.instinct result)
      (Counts.mk (Counts.mystic counts + 1) (Counts.valor counts)
                 (Counts.instinct counts))
  else if decide (Gym.team_id gym = Some 2) then
    GymApiResult.mk (GymApiResult.mystic result)
      (GymApiResult.valor result ++ [gym]) (GymApiResult.instinct result)
      (Counts.mk (Counts.mystic counts) (Counts.valor counts + 1)
                 (Counts.instinct counts))
  else if decide (Gym.team_id gym = Some 3) then
    GymApiResult.mk (GymApiResult.mystic result)
      (GymApiResult.valor result) (GymApiResult.instinct result ++ [gym])
      (Counts.mk (Counts.mystic counts) (Counts.valor counts)
                 (Counts.instinct counts + 1))
  else result.

Fixpoint snapshot_loop (gymRows : list GymRow.t) (result : GymApiResult.t)
    : M GymApiResult.t :=
  match gymRows with
  | [] => ret result
  | gymRow :: rest =>
      defenders <- snapshot_defenders gymRow ;;
      let slots :=
        match GymRow.available_slots gymRow with
        | Some n => Some n
        | None => GymRow.availble_slots gymRow
        end in
      let gym := Gym.mk gymRow defenders slots
                        (getTimeSinceUpdate (GymRow.updated gymRow)) in
      snapshot_loop rest (snapshot_push gym result)
  end.

Definition fetchGymSnapshot (env : Env) : M GymApiResult.t :=
  match ensureIdentifier (env "GEOFENCE_ID") "GEOFENCE_ID",
        ensureIdentifier (env "DB_NAME") "DB_NAME",
        ensureIdentifier (env "GEOFENCE_DB_NAME") "GEOFENCE_DB_NAME" with
  | Ok geofenceId, Ok dbName, Ok geofenceDbName =>
      let timeWindow := parseInt rt (default "3600" (env "GYM_TIME_WINDOW")) in
      try_catch
        (gymRows <- pool_execute rt SnapshotSelect
                      (select_snapshot timeWindow geofenceId) ;;
         snapshot_loop gymRows (GymApiResult.mk [] [] [] (Counts.mk 0 0 0)))
        (fun error =>
           emit (ConsoleError "Error fetching gym snapshot:") ;;;
           ret DEFAULT_GYM_RESULT)
  | _, _, _ =>
      emit (ConsoleError "Gym snapshot configuration error:") ;;;
      ret DEFAULT_GYM_RESULT
  end.

(** *** fetchGymHistory *)

(** [SELECT (FLOOR(timestamp / ?) * ?) AS bucket, AVG(...) ...
     FROM gym_history WHERE timestamp >= UNIX_TIMESTAMP() - ?
     GROUP BY bucket ORDER BY bucket ASC]. *)
Definition select_history_buckets (duration bucket : Z) (s : Store)
    : list HistoryRow.t :=
  let selected :=
    List.filter
      (fun h => UNIX_TIMESTAMP rt HistoryBuckets - duration <=? timestamp h)
      (gym_history s) in
  merge_sort bucket_asc
    ((fun grp =>
        HistoryRow.mk grp.1
          (sql_avg (team_mystic <$> grp.2))
          (sql_avg (team_valor <$> grp.2))
          (sql_avg (team_instinct <$> grp.2))
          (sql_avg (total_gyms <$> grp.2)))
       <$> sql_group_by (fun h => timestamp h `div` bucket * bucket) selected).

(** [SELECT ... FROM gym_history ORDER BY timestamp DESC LIMIT 1]. *)
Definition select_latest_sample (s : Store) : list HistorySample :=
  take 1 (merge_sort timestamp_desc (gym_history s)).

(** The grouping columns of the contested query. *)
Definition contested_key (j : TeamChange * GymRow.t)
    : string * string * Z * Z * string * option Z :=
  (gym_id j.1, GymRow.name j.2, GymRow.lat j.2, GymRow.lon j.2,
   GymRow.url j.2, GymRow.team_id j.2).

(** [SELECT gtc.gym_id, g.name, ..., COUNT(gtc.id), MAX(gtc.changed_at)
     FROM gym_team_changes gtc JOIN gym g ON gtc.gym_id = g.id
     WHERE gtc.changed_at >= UNIX_TIMESTAMP() - ? AND ST_CONTAINS(...)
     GROUP BY gtc.gym_id, g.name, g.lat, g.lon, g.url, g.team_id
     ORDER BY change_count DESC, last_changed DESC LIMIT 20]. *)
Definition select_contested (duration : Z) (geofenceId : string) (s : Store)
    : list ContestedRow.t :=
  let joined : list (TeamChange * GymRow.t) :=
    gtc ← gym_team_changes s;
    g ← gym s;
    if bool_decide (gym_id gtc = GymRow.id g) then [(gtc, g)] else [] in
  let kept :=
    List.filter
      (fun j => (UNIX_TIMESTAMP rt HistoryContested - duration <=? changed_at j.1)
                && ST_CONTAINS rt geofenceId (GymRow.lon j.2) (GymRow.lat j.2))
      joined in
  take 20
    (merge_sort contested_order
       ((fun grp =>
           let '(gid, name, lat, lon, url, team) := grp.1 in
           ContestedRow.mk gid name lat lon url team
             (Z.of_nat (length grp.2))
             (sql_max ((fun j => changed_at j.1) <$> grp.2)))
          <$> sql_group_by contested_key kept)).

(** [SELECT gym_id, old_team_id, new_team_id, changed_at
     FROM gym_team_changes WHERE gym_id IN (...) ORDER BY changed_at DESC]. *)
Definition select_recent (gymIds : list string) (s : Store) : list TeamChange :=
  merge_sort changed_at_desc
    (List.filter (fun c => bool_decide (gym_id c ∈ gymIds)) (gym_team_changes s)).

Definition current_counts (latest : option HistorySample) : CurrentCounts.t :=
  match latest with
  | Some latest =>
      let mystic := Math_round (inject_Z (team_mystic latest)) in
      let valor := Math_round (inject_Z (team_valor latest)) in
      let instinct := Math_round (inject_Z (team_instinct latest)) in
      let recordedTotal := Math_round (inject_Z (total_gyms latest)) in
      let controlledSum := mystic + valor + instinct in
      CurrentCounts.mk mystic valor instinct (Z.max recordedTotal controlledSum)
  | None => CurrentCounts.mk 0 0 0 0
  end.

Definition last_updated (latest : option HistorySample) : Z :=
  match latest with
  | Some latest => timestamp latest * 1000
  | None => 0
  end.

Definition contested_gym (recentChangeMap : gmap string (list ContestedGymChange.t))
    (row : ContestedRow.t) : ContestedGym.t :=
  ContestedGym.mk (ContestedRow.gym_id row) (ContestedRow.name row)
    (ContestedRow.lat row) (ContestedRow.lon row) (ContestedRow.url row)
    (default 0 (ContestedRow.current_team row))
    (ContestedRow.change_count row)
    (default 0 (ContestedRow.last_changed row) * 1000)
    (default [] (recentChangeMap !! ContestedRow.gym_id row)).

Definition fetchGymHistory (env : Env) (period : string)
    : M GymHistoryResponse.t :=
  let key := resolve_key period in
  match ensureIdentifier (env "DB_NAME") "DB_NAME",
        ensureIdentifier (env "GEOFENCE_DB_NAME") "GEOFENCE_DB_NAME",
        ensureIdentifier (env "GEOFENCE_ID") "GEOFENCE_ID" with
  | Ok dbName, Ok geofenceDbName, Ok geofenceId =>
      let duration := PeriodConfig.duration (PERIOD_CONFIG key) in
      let bucket := PeriodConfig.bucket (PERIOD_CONFIG key) in
      try_catch
        (historyRows <- pool_execute rt HistoryBuckets
                          (select_history_buckets duration bucket) ;;
         let chartData := buildChartData historyRows in
         latestRows <- pool_execute rt HistoryLatest select_latest_sample ;;
         let latest := head latestRows in
         let currentCounts := current_counts latest in
         let lastUpdated := last_updated latest in
         contestedRows <- pool_execute rt HistoryContested
                            (select_contested duration geofenceId) ;;
         let gymIds := ContestedRow.gym_id <$> contestedRows in
         recentChangeMap <-
           (if (0 <? length gymIds)%nat
            then recentRows <- pool_execute rt HistoryRecent (select_recent gymIds) ;;
                 ret (mapRecentChanges recentRows)
            else ret ∅) ;;
         let contested := contested_gym recentChangeMap <$> contestedRows in
         ret (GymHistoryResponse.mk (period_name key) chartData contested
                currentCounts lastUpdated))
        (fun error =>
           emit (ConsoleError "Error fetching gym history:") ;;;
           ret (empty_history key))
  | _, _, _ =>
      emit (ConsoleError "Gym history configuration error:") ;;;
      ret (empty_history key)
  end.

(** *** fetchDefenderStats *)

(** [SELECT g.team_id, g.defenders FROM gym g WHERE g.enabled = 1
     AND g.team_id IN (1, 2, 3) AND ST_CONTAINS(...)]. *)
Definition select_stats (geofenceId : string) (s : Store)
    : list (option Z * option string) :=
  (fun g => (GymRow.team_id g, GymRow.defenders g))
    <$> List.filter
          (fun g => bool_decide (GymRow.team_id g ∈ [Some 1; Some 2; Some 3])
                    && in_region rt geofenceId g)
          (gym s).

(** The body of the loop over the defenders of one gym. *)
Definition add_defender (defender : Defender) (team : TeamAggregation.t)
    : TeamAggregation.t :=
  match pokemon_id defender with
  | None => team
  | Some pid =>
      if decide (pid = 0) then team
      else
        let key := pretty pid +:+ "_" +:+ pretty (default 0 (form defender))
                   +:+ "_" +:+ pretty (default 0 (costume defender)) in
        let cp := toNumber (cp_when_deployed defender) in
        let entries := TeamAggregation.defenders team in
        let entries' :=
          if bool_decide (key ∈ entries.*1) then
            (fun entry =>
               if decide (entry.1 = key) then
                 let existing := entry.2 in
                 let count := DefenderStats.count existing + 1 in
                 let total_cp := Num.add (DefenderStats.total_cp existing) cp in
                 (key,
                  DefenderStats.mk (DefenderStats.pokemon_id existing)
                    (DefenderStats.form existing) count total_cp
                    (Num.round (Num.div total_cp (Num.of_Z (Z.max count 1))))
                    (DefenderStats.name existing))
               else entry) <$> entries
          else
            entries ++ [(key, DefenderStats.mk pid (form defender) 1 cp cp
                                (getPokemonName rt pid))] in
        TeamAggregation.mk entries'
          (TeamAggregation.totalDefenders team + 1)
          (Num.add (TeamAggregation.totalCp team) cp)
  end.

Fixpoint stats_defenders (defenders : list (option Defender))
    (team : TeamAggregation.t) : Result TeamAggregation.t :=
  match defenders with
  | [] => Ok team
  | None :: _ => Throw (TypeError "Cannot read properties of null")
  | Some defender :: rest => stats_defenders rest (add_defender defender team)
  end.

Fixpoint stats_loop (rows : list (option Z * option string))
    (teamStats : gmap Z TeamAggregation.t) : M (gmap Z TeamAggregation.t) :=
  match rows with
  | [] => ret teamStats
  | row :: rest =>
      match row.2 with
      | None => stats_loop rest teamStats
      | Some text =>
          if decide (text = "") then stats_loop rest teamStats
          else match JSON_parse rt text with
               | None =>
                   emit (ConsoleWarn "Failed to parse defenders JSON:") ;;;
                   stats_loop rest teamStats
               | Some (JOther _) =>
                   emit (ConsoleWarn "Unexpected defenders payload shape") ;;;
                   stats_loop rest teamStats
               | Some (JArray defenders) =>
                   match row.1 with
                   | None => stats_loop rest teamStats
                   | Some teamId =>
                       match teamStats !! teamId with
                       | None => stats_loop rest teamStats
                       | Some team =>
                           team' <- lift (stats_defenders defenders team) ;;
                           stats_loop rest (<[teamId := team']> teamStats)
                       end
                   end
               end
      end
  end.

(** [sort((a, b) => b.count - a.count)], a stable sort. *)
Fixpoint insert_by_count (x : DefenderStats.t) (l : list DefenderStats.t)
    : list DefenderStats.t :=
  match l with
  | [] => [x]
  | y :: l' =>
      if DefenderStats.count y <=? DefenderStats.count x then x :: y :: l'
      else y :: insert_by_count x l'
  end.

Definition sort_by_count (l : list DefenderStats.t) : list DefenderStats.t :=
  foldr insert_by_count [] l.

Definition team_stats (teamStats : gmap Z TeamAggregation.t) (teamId : Z)
    : TeamStats.t :=
  let team :=
    default (TeamAggregation.mk [] 0 (Num.of_Z 0)) (teamStats !! teamId) in
  let defenders := sort_by_count (TeamAggregation.defenders team).*2 in
  TeamStats.mk
    (default "Unknown" (TEAM_NAMES rt teamId))
    teamId
    (TeamAggregation.totalDefenders team)
    (Z.of_nat (length defenders))
    (take 10 defenders)
    (TeamAggregation.totalCp team)
    (if decide (TeamAggregation.totalDefenders team = 0) then Num.of_Z 0
     else Num.round (Num.div (TeamAggregation.totalCp team)
                       (Num.of_Z (TeamAggregation.totalDefenders team)))).

Definition initial_teamStats : gmap Z TeamAggregation.t :=
  <[3 := TeamAggregation.mk [] 0 (Num.of_Z 0)]>
    (<[2 := TeamAggregation.mk [] 0 (Num.of_Z 0)]>
       (<[1 := TeamAggregation.mk [] 0 (Num.of_Z 0)]> ∅)).

Definition fetchDefenderStats (env : Env) : M StatsData.t :=
  match ensureIdentifier (env "GEOFENCE_ID") "GEOFENCE_ID",
        ensureIdentifier (env "GEOFENCE_DB_NAME") "GEOFENCE_DB_NAME",
        ensureIdentifier (env "DB_NAME") "DB_NAME" with
  | Ok geofenceId, Ok geofenceDbName, Ok dbName =>
      try_catch
        (rows <- pool_execute rt StatsSelect (select_stats geofenceId) ;;
         teamStats <- stats_loop rows initial_teamStats ;;
         let teams := team_stats teamStats <$> [1; 2; 3] in
         ret (StatsData.mk teams
                (foldl (fun sum team => sum + TeamStats.total_defenders team) 0 teams)
                (Date_now rt)))
        (fun error =>
           emit (ConsoleError "Error fetching defender stats:") ;;;
           ret DEFAULT_STATS)
  | _, _, _ =>
      emit (ConsoleError "Defender stats configuration error:") ;;;
      ret DEFAULT_STATS
  end.
End Queries.
End GymData.

(** ** Notions used in the statements *)

(** A run in which no statement fails. *)
Definition fault_free (rt : Runtime) : Prop := forall st, faulty rt st = false.

(** The rows the loop of [trackTeamChanges] inserts when no insert fails:
    the same case analysis as [Collector.diff_loop], without the store. *)
Fixpoint diff_events (timestamp : Z) (currentRows : list (string * option Z))
    (lastStateMap : gmap string (option Z)) : list TeamChange :=
  match currentRows with
  | [] => []
  | row :: rest =>
      match lastStateMap !! row.1 with
      | None =>
          mkTeamChange row.1 None row.2 timestamp
            :: diff_events timestamp rest (<[row.1 := row.2]> lastStateMap)
      | Some lastTeam =>
          if decide (lastTeam = row.2) then diff_events timestamp rest lastStateMap
          else mkTeamChange row.1 lastTeam row.2 timestamp
                 :: diff_events timestamp rest (<[row.1 := row.2]> lastStateMap)
      end
  end.

(** The rows one fault-free diff step appends to [gym_team_changes]. *)
Definition tracked_changes (rt : Runtime) (geofenceId : string) (s : Store)
    : list TeamChange :=
  diff_events (Date_now rt `div` 1000)
    (Collector.select_current rt geofenceId s)
    (Collector.build_lastStateMap (Collector.select_last_state s)).

(** The ChangeEvents of facility [f] among [events]. *)
Definition events_of (f : string) (events : list TeamChange) : list TeamChange :=
  List.filter (fun c => bool_decide (gym_id c = f)) events.

(** LastKnownOwnership, in the words of the specification: [c] is the most
    recent ChangeEvent of facility [f] in the table (greatest [changed_at];
    among rows of the same second, the one inserted last). *)
Definition most_recent_change (tbl : list TeamChange) (f : string) (c : TeamChange)
    : Prop :=
  exists pre post,
    tbl = pre ++ c :: post /\ gym_id c = f
    /\ (forall c', c' ∈ pre -> gym_id c' = f -> changed_at c' <= changed_at c)
    /\ (forall c', c' ∈ post -> gym_id c' = f -> changed_at c' < changed_at c).

(** [c] carries the greatest [changed_at] among the rows of its gym: the
    join condition of [Collector.select_last_state]. *)
Definition is_latest (s : Store) (c : TeamChange) : bool :=
  bool_decide
    (sql_max (changed_at <$>
       List.filter (fun r => bool_decide (gym_id r = gym_id c)) (gym_team_changes s))
     = Some (changed_at c)).

(** The sample a run appends to [gym_history]. *)
Definition collected_sample (rt : Runtime) (geofenceId : string) (s : Store)
    : HistorySample :=
  let '(mystic, valor, instinct, total) := Collector.select_counts rt geofenceId s in
  mkHistorySample (UNIX_TIMESTAMP rt CollectorInsertHistory)
    (default 0 mystic) (default 0 valor) (default 0 instinct) total.

(** The store one successful run of the collector commits: the sample and the
    ChangeEvents appended, then both tables swept. *)
Definition collected (rt : Runtime) (geofenceId : string) (retention : option Z)
    (s : Store) : Store :=
  let s1 := Collector.insert_history (collected_sample rt geofenceId s) s in
  let s2 := mkStore (gym s1) (gym_history s1)
              (gym_team_changes s1 ++ tracked_changes rt geofenceId s1) in
  Collector.sweep_changes
    (Collector.sweep_cutoff rt CollectorSweepChanges retention)
    (Collector.sweep_history
       (Collector.sweep_cutoff rt CollectorSweepHistory retention) s2).

(** The INSERT statements the loop of [trackTeamChanges] issues when none of
    them fails, iteration [k] first. *)
Fixpoint diff_statements (k : nat) (currentRows : list (string * option Z))
    (lastStateMap : gmap string (option Z)) : list Stmt :=
  match currentRows with
  | [] => []
  | row :: rest =>
      match lastStateMap !! row.1 with
      | None =>
          CollectorInsertChange k
            :: diff_statements (S k) rest (<[row.1 := row.2]> lastStateMap)
      | Some lastTeam =>
          if decide (lastTeam = row.2) then diff_statements (S k) rest lastStateMap
          else CollectorInsertChange k
                 :: diff_statements (S k) rest (<[row.1 := row.2]> lastStateMap)
      end
  end.

(** The steps of one run of the collector over the committed store [s], in
    the order they are issued when none fails. *)
Definition collector_steps (rt : Runtime) (geofenceId : string) (s : Store)
    : list Stmt :=
  [GetConnection; BeginTransaction; CollectorCounts; CollectorInsertHistory;
   CollectorCurrent; CollectorLastState]
  ++ diff_statements 0 (Collector.select_current rt geofenceId s)
       (Collector.build_lastStateMap (Collector.select_last_state s))
  ++ [CollectorSweepHistory; CollectorSweepChanges; Commit].

(** The counts of a snapshot agree with its arrays, and every listed gym is
    held by the faction of its array. *)
Definition snapshot_consistent (result : GymApiResult.t) : Prop :=
  Counts.mystic (GymApiResult.counts result)
    = Z.of_nat (length (GymApiResult.mystic result))
  /\ Counts.valor (GymApiResult.counts result)
     = Z.of_nat (length (GymApiResult.valor result))
  /\ Counts.instinct (GymApiResult.counts result)
     = Z.of_nat (length (GymApiResult.instinct result))
  /\ (forall g, g ∈ GymApiResult.mystic result -> Gym.team_id g = Some 1)
  /\ (forall g, g ∈ GymApiResult.valor result -> Gym.team_id g = Some 2)
  /\ (forall g, g ∈ GymApiResult.instinct result -> Gym.team_id g = Some 3).

(** The three identifiers the read side needs are configured. *)
Definition configured (env : Env) : Prop :=
  exists dbName geofenceDbName geofenceId,
    GymData.ensureIdentifier (env "DB_NAME") "DB_NAME" = Ok dbName
    /\ GymData.ensureIdentifier (env "GEOFENCE_DB_NAME") "GEOFENCE_DB_NAME"
       = Ok geofenceDbName
    /\ GymData.ensureIdentifier (env "GEOFENCE_ID") "GEOFENCE_ID" = Ok geofenceId.

(** [v] is the average of [values] rounded to the nearest integer (a half is
    rounded up): [v - 1/2 <= sum / n < v + 1/2]. *)
Definition is_rounded_average (values : list Z) (v : Z) : Prop :=
  let n := Z.of_nat (length values) in
  let sum := foldr Z.add 0 values in
  n * (2 * v - 1) <= 2 * sum < n * (2 * v + 1).

(** The bucket of a sample: [floor(timestamp / bucket) * bucket]. *)
Definition bucket_of (bucket : Z) (h : HistorySample) : Z :=
  timestamp h `div` bucket * bucket.

(** The samples not older than [cutoff] that fall into the bucket starting at
    [b]. *)
Definition bucket_samples (cutoff bucket b : Z) (tbl : list HistorySample)
    : list HistorySample :=
  List.filter (fun h => bool_decide (bucket_of bucket h = b))
    (List.filter (fun h => cutoff <=? timestamp h) tbl).

(** The ChangeEvents of facility [f] inside the period window: those with
    [changed_at >= cutoff], first observations included. *)
Definition window_changes (cutoff : Z) (f : string) (tbl : list TeamChange)
    : list TeamChange :=
  List.filter (fun c => bool_decide (gym_id c = f) && (cutoff <=? changed_at c)) tbl.

(** The order of the contested list: [change_count] descending, then
    [last_changed] descending. *)
Definition ranked (a b : ContestedGym.t) : Prop :=
  ContestedGym.change_count b < ContestedGym.change_count a
  \/ (ContestedGym.change_count b = ContestedGym.change_count a
      /\ ContestedGym.last_changed b <= ContestedGym.last_changed a).

(** A facility the contested query ranks: a gym inside the geofence with a
    ChangeEvent inside the period window. *)
Definition contested_candidate (rt : Runtime) (cutoff : Z) (geofenceId : string)
    (s : Store) (f : string) : Prop :=
  window_changes cutoff f (gym_team_changes s) <> []
  /\ exists g, g ∈ gym s /\ GymRow.id g = f
               /\ ST_CONTAINS rt geofenceId (GymRow.lon g) (GymRow.lat g) = true.

(** [m] is the greatest [changed_at] of the ChangeEvents [l]. *)
Definition latest_change (l : list TeamChange) (m : Z) : Prop :=
  (exists c, c ∈ l /\ changed_at c = m) /\ forall c, c ∈ l -> changed_at c <= m.

(** The listed facility [g] is ranked no lower than facility [f]: it has more
    ChangeEvents inside the window, or as many and none of [f] is later than
    its last. *)
Definition outranks (cutoff : Z) (tbl : list TeamChange) (g : ContestedGym.t)
    (f : string) : Prop :=
  let count := Z.of_nat (length (window_changes cutoff f tbl)) in
  count < ContestedGym.change_count g
  \/ (count = ContestedGym.change_count g
      /\ forall c, c ∈ window_changes cutoff f tbl ->
                   changed_at c * 1000 <= ContestedGym.last_changed g).

(** The row the bucket query returns for one group. *)
Definition bucket_row (grp : Z * list HistorySample) : HistoryRow.t :=
  HistoryRow.mk grp.1
    (sql_avg (team_mystic <$> grp.2)) (sql_avg (team_valor <$> grp.2))
    (sql_avg (team_instinct <$> grp.2)) (sql_avg (total_gyms <$> grp.2)).

(** The parts of [GymData.select_contested]: the join of one ChangeEvent with
    [gym], the WHERE clause, the rows kept, and the row of one group. *)
Definition contested_join (s : Store) (c : TeamChange) : list (TeamChange * GymRow.t) :=
  g ← gym s; if bool_decide (gym_id c = GymRow.id g) then [(c, g)] else [].

Definition contested_cond (rt : Runtime) (cutoff : Z) (geofenceId : string)
    (j : TeamChange * GymRow.t) : bool :=
  (cutoff <=? changed_at j.1)
  && ST_CONTAINS rt geofenceId (GymRow.lon j.2) (GymRow.lat j.2).

Definition contested_kept (rt : Runtime) (cutoff : Z) (geofenceId : string)
    (s : Store) : list (TeamChange * GymRow.t) :=
  List.filter (contested_cond rt cutoff geofenceId)
    (gym_team_changes s ≫= contested_join s).

Definition contested_row
    (grp : (string * string * Z * Z * string * option Z)
           * list (TeamChange * GymRow.t)) : ContestedRow.t :=
  let '(gid, name, lat, lon, url, team) := grp.1 in
  ContestedRow.mk gid name lat lon url team
    (Z.of_nat (length grp.2))
    (sql_max ((fun j => changed_at j.1) <$> grp.2)).

(** ** Sample inputs *)

Module Sample.
(** An enabled gym at the origin. *)
Definition gymRow (id : string) (team : option Z) (defenders : option string)
    (updated : Z) : GymRow.t :=
  GymRow.mk id ("Gym " +:+ id) team 0 0 "" None None None None updated 1
    defenders None.

(** A complete configuration with the optional settings left unset. *)
Definition env : Env :=
  fun name =>
    if bool_decide (name ∈ ["GYM_HISTORY_RETENTION_DAYS"; "GYM_TIME_WINDOW"])
    then None else Some "golbat".

(** The configuration of [env] with a retention of half a day. *)
Definition half_day : Env :=
  fun name =>
    if bool_decide (name = "GYM_HISTORY_RETENTION_DAYS") then Some "0.5"
    else env name.

(** A parser that knows four payloads. *)
Definition parse (text : string) : option JsonValue :=
  if bool_decide (text = "[]") then Some (JArray [])
  else if bool_decide (text = "[1]")
       then Some (JArray [Some (mkDefender (Some 1) None None (Some (inl (Num.of_Z 100))))])
  else if bool_decide (text = "{}") then Some (JOther (JObject "{}"))
  else if bool_decide (text = "7") then Some (JOther (JNumber 7))
  else None.

(** [Number] on the texts of the samples: half a day is a number, any
    other text is not. *)
Definition number (text : string) : Num.t :=
  if bool_decide (text = "0.5") then S754_finite false 4503599627370496 (-53)
  else S754_nan.

(** A runtime without faults whose clocks all read [now]; every point is
    inside the geofence. *)
Definition runtime (now : Z) : Runtime :=
  mkRuntime (fun _ => false) (fun _ => now) (now * 1000) (fun _ _ _ => true)
    parse number (fun _ => Some 3600) (fun _ => "") (fun _ => None) 0.

(** The same runtime with one failing statement. *)
Definition failing (st : Stmt) (now : Z) : Runtime :=
  mkRuntime (fun st' => bool_decide (st' = st)) (fun _ => now) (now * 1000)
    (fun _ _ _ => true) parse number (fun _ => Some 3600)
    (fun _ => "") (fun _ => None) 0.

Definition idle (s : Store) : World := mkWorld s None [].

(** One gym held by team 1, never collected. *)
Definition fresh : Store := mkStore [gymRow "F" (Some 1) None 900] [] [].

(** Three collector runs over [fresh], the owner never changing; the second
    one week and a second after the first, the third five minutes later. *)
Definition after_first : World :=
  (Collector.collectGymHistory (runtime 1000) env (idle fresh)).2.
Definition after_second : World :=
  (Collector.collectGymHistory (runtime 605801) env after_first).2.
Definition after_third : World :=
  (Collector.collectGymHistory (runtime 606101) env after_second).2.

(** A gym now held by team 2 whose last ChangeEvent recorded team 1. *)
Definition flipped : Store :=
  mkStore [gymRow "F" (Some 2) None 1900]
    [mkHistorySample 1000 1 0 0 1]
    [mkTeamChange "F" None (Some 1) 1000].

(** Three samples of one five-minute bucket and one of the next. *)
Definition sampled : Store :=
  mkStore [gymRow "F" (Some 2) None 1900]
    [mkHistorySample 1000 1 2 3 10; mkHistorySample 1100 2 2 3 20;
     mkHistorySample 1150 2 3 3 30; mkHistorySample 1300 4 4 4 12]
    [mkTeamChange "F" None (Some 1) 1000; mkTeamChange "F" (Some 1) (Some 2) 1100].

(** Three gyms: [A] changed hands twice, [B] and [C] once, [C] last. *)
Definition contest : Store :=
  mkStore [gymRow "A" (Some 2) None 1900; gymRow "B" (Some 1) None 1900;
           gymRow "C" (Some 3) None 1900] []
    [mkTeamChange "A" None (Some 1) 1000; mkTeamChange "B" None (Some 1) 1500;
     mkTeamChange "A" (Some 1) (Some 2) 1600; mkTeamChange "C" None (Some 3) 1800].

(** Gyms with payloads that are an object, not JSON at all, and an array. *)
Definition payloads : Store :=
  mkStore [gymRow "A" (Some 1) (Some "{}") 903;
           gymRow "B" (Some 1) (Some "oops") 902;
           gymRow "C" (Some 1) (Some "[1]") 901] [] [].

(** The world [w] after the gym has passed to [team]. *)
Definition reassigned (team : option Z) (w : World) : World :=
  mkWorld
    (mkStore [gymRow "F" team None 900] (gym_history (committed w))
       (gym_team_changes (committed w)))
    None (console w).
End Sample.

(** ** scripts/collectGymHistory.js: the environment files

    A JavaScript string is modelled by the list of its UTF-16 code units; the
    text of a file is the string [fs.readFileSync(path, "utf8")] returns. *)

Module EnvFile.

(** The code units of an ASCII text. *)
Definition js (text : string) : list N :=
  Ascii.N_of_ascii <$> String.list_ascii_of_string text.

(** The line terminators of ECMAScript, which the dot of a pattern does not
    match. *)
Definition is_line_terminator (c : N) : bool :=
  ((c =? 10) || (c =? 13) || (c =? 8232) || (c =? 8233))%N.

(** White space and line terminators: what [trim] strips and the
    white-space class of a pattern matches. *)
Definition is_white (c : N) : bool :=
  ((c =? 9) || (c =? 11) || (c =? 12) || (c =? 32) || (c =? 160) || (c =? 5760)
   || (8192 <=? c) && (c <=? 8202) || (c =? 8239) || (c =? 8287)
   || (c =? 12288) || (c =? 65279))%N
  || is_line_terminator c.

Fixpoint trimStart (s : list N) : list N :=
  match s with
  | c :: rest => if is_white c then trimStart rest else s
  | [] => []
  end.

Definition trimEnd (s : list N) : list N := reverse (trimStart (reverse s)).

Definition trim (s : list N) : list N := trimEnd (trimStart s).

(** [s.startsWith(c)] and [s.endsWith(c)] for a string [c] of one unit. *)
Definition startsWith (c : N) (s : list N) : bool :=
  match s with
  | x :: _ => (x =? c)%N
  | [] => false
  end.

Definition endsWith (c : N) (s : list N) : bool :=
  match last s with
  | Some x => (x =? c)%N
  | None => false
  end.

(** [value.slice(1, -1)]. *)
Definition slice_inner (value : list N) : list N := removelast (tail value).

(** [value.slice(0, value.indexOf("#"))], when [value] holds a [#]. *)
Fixpoint before_hash (value : list N) : option (list N) :=
  match value with
  | [] => None
  | c :: rest => if (c =? 35)%N then Some [] else cons c <$> before_hash rest
  end.

(** [s.replace(pattern, replacement)] where the global pattern is a
    backslash followed by [letter]: every such pair, from left to right. *)
Fixpoint replace_escape (letter replacement : N) (s : list N) : list N :=
  match s with
  | [] => []
  | c :: rest =>
      if (c =? 92)%N then
        match rest with
        | d :: rest' =>
            if (d =? letter)%N
            then replacement :: replace_escape letter replacement rest'
            else c :: replace_escape letter replacement rest
        | [] => [c]
        end
      else c :: replace_escape letter replacement rest
  end.

Definition parseValue (raw : list N) : list N :=
  let value := trim raw in
  let isDoubleQuoted := startsWith 34 value && endsWith 34 value in
  let isSingleQuoted := startsWith 39 value && endsWith 39 value in
  let value :=
    if isDoubleQuoted || isSingleQuoted then slice_inner value
    else match before_hash value with
         | Some before => trim before
         | None => value
         end in
  replace_escape 114 13 (replace_escape 110 10 value).

(** [contents.split(...)] at every line feed, with the carriage return
    before it when there is one; [line] holds the units of the line being
    read. *)
Fixpoint split_lines (contents line : list N) : list (list N) :=
  match contents with
  | [] => [line]
  | c :: rest =>
      if (c =? 10)%N then line :: split_lines rest []
      else if (c =? 13)%N then
        match rest with
        | d :: rest' =>
            if (d =? 10)%N then line :: split_lines rest' []
            else split_lines rest (line ++ [c])
        | [] => split_lines rest (line ++ [c])
        end
      else split_lines rest (line ++ [c])
  end.

(** The units a key starts with (letters and [_]) and goes on with (also
    digits and the dot). *)
Definition is_key_start (c : N) : bool :=
  ((65 <=? c) && (c <=? 90) || (97 <=? c) && (c <=? 122) || (c =? 95))%N.

Definition is_key_char (c : N) : bool :=
  is_key_start c || ((48 <=? c) && (c <=? 57) || (c =? 46))%N.

(** The longest prefix of [s] made of units that satisfy [p], and the
    rest. *)
Fixpoint span (p : N -> bool) (s : list N) : list N * list N :=
  match s with
  | c :: rest =>
      if p c then let '(taken, others) := span p rest in (c :: taken, others)
      else ([], s)
  | [] => ([], [])
  end.

Fixpoint strip_prefix (prefix s : list N) : option (list N) :=
  match prefix, s with
  | [], _ => Some s
  | p :: prefix', c :: s' => if (c =? p)%N then strip_prefix prefix' s' else None
  | _ :: _, [] => None
  end.

(** The part of the pattern of a line after its optional group, at the
    start of [s]: a key (a start unit, then key units), white space, [=],
    white space and, up to the end, units that are no line terminators.
    It gives the key and the raw value.  Every quantifier can only match
    greedily here: a shorter key or less white space leaves a unit next
    that the pattern does not allow. *)
Definition match_assignment (s : list N) : option (list N * list N) :=
  match s with
  | c :: rest =>
      if is_key_start c then
        let '(more, rest) := span is_key_char rest in
        match trimStart rest with
        | e :: rest =>
            if (e =? 61)%N then
              let rawValue := trimStart rest in
              if forallb (fun c => negb (is_line_terminator c)) rawValue
              then Some (c :: more, rawValue)
              else None
            else None
        | [] => None
        end
      else None
  | [] => None
  end.

(** The optional group of the pattern, [export] and white space, at the
    start of [s]: what follows it. *)
Definition strip_export (s : list N) : option (list N) :=
  match strip_prefix (js "export") s with
  | Some (c :: rest) => if is_white c then Some (trimStart rest) else None
  | _ => None
  end.

(** [trimmed.match(...)] with the pattern of a line: with the optional
    group first, without it when that fails. *)
Definition match_line (trimmed : list N) : option (list N * list N) :=
  match strip_export trimmed with
  | Some rest =>
      match match_assignment rest with
      | Some found => Some found
      | None => match_assignment trimmed
      end
  | None => match_assignment trimmed
  end.

(** [process.env[key] = value]: the value reaches the environment of the
    process as a NUL-terminated string. *)
Definition stored (value : list N) : list N :=
  (span (fun c => negb (c =? 0)%N) value).1.

Definition setEnvValue (key value : list N) (override : bool)
    (env : gmap (list N) (list N)) : gmap (list N) (list N) :=
  if negb override && bool_decide (is_Some (env !! key)) then env
  else <[key := stored value]> env.

(** The body of the loop of [loadEnvFile]. *)
Definition loadLine (override : bool) (env : gmap (list N) (list N))
    (line : list N) : gmap (list N) (list N) :=
  let trimmed := trim line in
  if bool_decide (trimmed = []) || startsWith 35 trimmed then env
  else match match_line trimmed with
       | None => env
       | Some (key, rawValue) => setEnvValue key (parseValue rawValue) override env
       end.

Definition loadEnvFile (contents : list N) (override : bool)
    (env : gmap (list N) (list N)) : gmap (list N) (list N) :=
  fold_left (loadLine override) (split_lines contents []) env.

(** A file of the working directory: missing, there but not readable as a
    file, or there with its text. *)
Inductive File :=
  | Absent
  | Unreadable
  | Contents (text : list N).

(** [if (fs.existsSync(filePath)) loadEnvFile(filePath, { override })];
    [None] stands for the exception of [readFileSync]. *)
Definition loadFile (files : list N -> File) (override : bool)
    (env : option (gmap (list N) (list N))) (file : list N)
    : option (gmap (list N) (list N)) :=
  match env with
  | None => None
  | Some env =>
      match files file with
      | Absent => Some env
      | Unreadable => None
      | Contents text => Some (loadEnvFile text override env)
      end
  end.

(** [process.env.NODE_ENV || "development"]. *)
Definition mode (env : gmap (list N) (list N)) : list N :=
  match env !! js "NODE_ENV" with
  | Some value => if bool_decide (value = []) then js "development" else value
  | None => js "development"
  end.

Definition loadEnv (files : list N -> File) (env : gmap (list N) (list N))
    : option (gmap (list N) (list N)) :=
  let mode := mode env in
  let baseFiles := [js ".env"; js ".env." ++ mode] in
  let overrideFiles := [js ".env.local"; js ".env." ++ mode ++ js ".local"] in
  fold_left (loadFile files true) overrideFiles
    (fold_left (loadFile files false) baseFiles (Some env)).
End EnvFile.

(** ** src/app/api: the route handlers *)

Module Http.
(** [request.headers.get(name)]: the value of a header, when the request
    carries it. *)
Definition Headers := string -> option string.

(** The JSON bodies the handlers send. *)
Inductive Body :=
  | ErrorBody (error : string)
  | TokenBody (token : string) (expiresIn : Z)
  | SnapshotBody (snapshot : GymApiResult.t)
  | HistoryBody (data : GymHistoryResponse.t)
  | StatsBody (data : StatsData.t).

(** [NextResponse.json(body, { status })]; the status is 200 when none is
    given. *)
Record Response := mk { status : Z; body : Body }.
End Http.

(** [Boolean(value)] of a string that may be missing: the empty string is as
    good as none. *)
Definition truthy (value : option string) : bool :=
  match value with
  | Some v => negb (bool_decide (v = ""))
  | None => false
  end.

(** *** src/app/api/gyms/route.ts *)

Module GymsRoute.

Definition TOKEN_TTL_MS : Z := 60000.

(** [tokenStore] is a [Map] from token to the instant it expires at; [now]
    is the reading of [Date.now()]. *)
Definition cleanupExpiredTokens (now : Z) (tokenStore : gmap string Z)
    : gmap string Z :=
  filter (fun entry => ~ entry.2 <= now) tokenStore.

(** [randomHex] is what [crypto.randomBytes(24).toString("hex")] yields. *)
Definition createToken (randomHex : string) (now : Z)
    (tokenStore : gmap string Z)
    : string * gmap string Z :=
  let token := randomHex in
  (token, <[token := now + TOKEN_TTL_MS]> tokenStore).

(** [cleanupAt] is the clock read by [cleanupExpiredTokens], [checkAt] the
    one read by the comparison with [expiresAt]. *)
Definition validateToken (cleanupAt checkAt : Z) (token : option string)
    (tokenStore : gmap string Z) : bool * gmap string Z :=
  match token with
  | None => (false, tokenStore)
  | Some token =>
      if decide (token = "") then (false, tokenStore)
      else
        let tokenStore := cleanupExpiredTokens cleanupAt tokenStore in
        match tokenStore !! token with
        | None => (false, tokenStore)
        | Some expiresAt =>
            if decide (expiresAt = 0) then (false, tokenStore)
            else if expiresAt <? checkAt then (false, delete token tokenStore)
            else (true, tokenStore)
        end
  end.

Section Handlers.
Context (rt : Runtime) (env : Env).

Definition GET (headers : Http.Headers) (cleanupAt checkAt : Z)
    (tokenStore : gmap string Z) (w : World)
    : Http.Response * gmap string Z * World :=
  let internalSecret := env "INTERNAL_API_SECRET" in
  let requireToken := truthy internalSecret in
  let hasInternalHeader := truthy (headers "x-invoke-path") in
  let checked :=
    if negb hasInternalHeader && requireToken
    then validateToken cleanupAt checkAt (headers "x-access-token") tokenStore
    else (true, tokenStore) in
  if checked.1 then
    match GymData.fetchGymSnapshot rt env w with
    | (Ok snapshot, w') =>
        (Http.mk 200 (Http.SnapshotBody snapshot), checked.2, w')
    | (Throw error, w') =>
        (Http.mk 500 (Http.ErrorBody "Failed to load gyms"), checked.2,
         (emit (ConsoleError "Failed to load gym snapshot:") w').2)
    end
  else (Http.mk 401 (Http.ErrorBody "Unauthorized"), checked.2, w).

Definition POST (headers : Http.Headers) (randomHex : string) (now : Z)
    (tokenStore : gmap string Z) : Http.Response * gmap string Z :=
  let expectedSecret := env "INTERNAL_API_SECRET" in
  if negb (truthy expectedSecret) then
    (Http.mk 400 (Http.ErrorBody "INTERNAL_API_SECRET is not configured"),
     tokenStore)
  else
    let providedSecret := headers "x-internal-secret" in
    if negb (truthy providedSecret)
       || negb (bool_decide (providedSecret = expectedSecret))
    then (Http.mk 401 (Http.ErrorBody "Unauthorized"), tokenStore)
    else
      let created := createToken randomHex now tokenStore in
      (Http.mk 200 (Http.TokenBody created.1 (TOKEN_TTL_MS `div` 1000)),
       created.2).
End Handlers.
End GymsRoute.

(** *** src/app/api/gym-history/route.ts *)

Module GymHistoryRoute.
Section Handlers.
Context (rt : Runtime) (env : Env).

(** [period] is [request.nextUrl.searchParams.get("period")]. *)
Definition GET (period : option string) (w : World) : Http.Response * World :=
  let period := default "24h" period in
  match GymData.fetchGymHistory rt env period w with
  | (Ok data, w') => (Http.mk 200 (Http.HistoryBody data), w')
  | (Throw error, w') =>
      (Http.mk 500 (Http.ErrorBody "Failed to load gym history"),
       (emit (ConsoleError "Failed to load gym history:") w').2)
  end.
End Handlers.
End GymHistoryRoute.

(** *** src/app/api/defender-stats/route.ts *)

Module DefenderStatsRoute.
Section Handlers.
Context (rt : Runtime) (env : Env).

Definition GET (w : World) : Http.Response * World :=
  match GymData.fetchDefenderStats rt env w with
  | (Ok data, w') => (Http.mk 200 (Http.StatsBody data), w')
  | (Throw error, w') =>
      (Http.mk 500 (Http.ErrorBody "Failed to load defender stats"),
       (emit (ConsoleError "Failed to load defender stats:") w').2)
  end.
End Handlers.
End DefenderStatsRoute.

(** ** src/components/GymTicker.tsx *)

Module FavoriteDefender.
Record t := mk {
  pokemon_id : Z;
  form : option Z;
  costume : option Z;
  count : Z
}.
End FavoriteDefender.

Module GymTicker.

(** The body of the inner [forEach]; [defenderCounts] is a [Map], kept in
    insertion order. *)
Definition count_defender (defender : Defender)
    (defenderCounts : list (string * FavoriteDefender.t))
    : list (string * FavoriteDefender.t) :=
  match pokemon_id defender with
  | None => defenderCounts
  | Some pid =>
      if decide (pid = 0) then defenderCounts
      else
        let key := pretty pid +:+ "_" +:+ pretty (default 0 (form defender))
                   +:+ "_" +:+ pretty (default 0 (costume defender)) in
        if bool_decide (key ∈ defenderCounts.*1) then
          (fun entry =>
             if decide (entry.1 = key) then
               let existing := entry.2 in
               (key,
                FavoriteDefender.mk (FavoriteDefender.pokemon_id existing)
                  (FavoriteDefender.form existing)
                  (FavoriteDefender.costume existing)
                  (FavoriteDefender.count existing + 1))
             else entry) <$> defenderCounts
        else
          defenderCounts
            ++ [(key, FavoriteDefender.mk pid (form defender) (costume defender) 1)]
  end.

Fixpoint count_defenders (defenders : list (option Defender))
    (defenderCounts : list (string * FavoriteDefender.t))
    : Result (list (string * FavoriteDefender.t)) :=
  match defenders with
  | [] => Ok defenderCounts
  | None :: _ => Throw (TypeError "Cannot read properties of null")
  | Some defender :: rest =>
      count_defenders rest (count_defender defender defenderCounts)
  end.

(** [gym.defenders?.forEach(...)]: nothing for [null], a TypeError for any
    other value that is not an array. *)
Fixpoint count_gyms (teamGyms : list Gym.t)
    (defenderCounts : list (string * FavoriteDefender.t))
    : Result (list (string * FavoriteDefender.t)) :=
  match teamGyms with
  | [] => Ok defenderCounts
  | gym :: rest =>
      match Gym.defenders gym with
      | JArray defenders =>
          match count_defenders defenders defenderCounts with
          | Ok defenderCounts' => count_gyms rest defenderCounts'
          | Throw e => Throw e
          end
      | JOther JNull => count_gyms rest defenderCounts
      | JOther _ => Throw (TypeError "gym.defenders?.forEach is not a function")
      end
  end.

(** The loop over [defenderCounts.values()]; the state is
    [(favorite, maxCount)]. *)
Definition most_common (values : list FavoriteDefender.t)
    : option FavoriteDefender.t * Z :=
  fold_left
    (fun state defender =>
       if state.2 <? FavoriteDefender.count defender
       then (Some defender, FavoriteDefender.count defender)
       else state)
    values (None, 0).

Definition getFavoriteDefender (teamGyms : list Gym.t)
    : Result (option FavoriteDefender.t) :=
  match count_gyms teamGyms [] with
  | Ok defenderCounts => Ok (most_common defenderCounts.*2).1
  | Throw e => Throw e
  end.

(** [isClient] is the property of the component, false until the page is
    hydrated; [now] is the reading of [Date.now()]. *)
Definition getTimeAgo (isClient : bool) (now : Z) (timestamp : Z) : string :=
  if negb isClient then "..."
  else
    let now := now `div` 1000 in
    let diff := now - timestamp in
    if diff <? 60 then "just now"
    else if diff <? 3600 then pretty (diff `div` 60) +:+ "m ago"
    else if diff <? 86400 then pretty (diff `div` 3600) +:+ "h ago"
    else pretty (diff `div` 86400) +:+ "d ago".
End GymTicker.

(** ** src/components/GymHistoryChart.tsx *)

Module ChartDisplayPoint.
Record t := mk {
  time : Z;
  mystic : Z;
  valor : Z;
  instinct : Z;
  total : Z;
  uncontrolled : Z
}.
End ChartDisplayPoint.

Module GymHistoryChart.

(** The [chartData] memo; [data] is the response last received, if any. *)
Definition chartData (data : option GymHistoryResponse.t)
    : list ChartDisplayPoint.t :=
  match data with
  | None => []
  | Some data =>
      (fun point =>
         let uncontrolled :=
           Z.max (ChartDataPoint.total point - ChartDataPoint.mystic point
                  - ChartDataPoint.valor point - ChartDataPoint.instinct point)
                 0 in
         ChartDisplayPoint.mk (ChartDataPoint.time point)
           (ChartDataPoint.mystic point) (ChartDataPoint.valor point)
           (ChartDataPoint.instinct point) (ChartDataPoint.total point)
           uncontrolled)
        <$> GymHistoryResponse.chartData data
  end.

Definition currentUncontrolled (data : GymHistoryResponse.t) : Z :=
  let counts := GymHistoryResponse.currentCounts data in
  Z.max (CurrentCounts.total counts - CurrentCounts.mystic counts
         - CurrentCounts.valor counts - CurrentCounts.instinct counts)
        0.

(** The values of the four summary cards. *)
Definition summaryCards (data : GymHistoryResponse.t) : list (string * Z) :=
  let counts := GymHistoryResponse.currentCounts data in
  [("Mystic", CurrentCounts.mystic counts);
   ("Valor", CurrentCounts.valor counts);
   ("Instinct", CurrentCounts.instinct counts);
   ("Uncontrolled", currentUncontrolled data)].

(** [data.contestedGyms.slice(0, 10)], each with
    [gym.recent_changes.slice(0, 5)]. *)
Definition shownContested (data : GymHistoryResponse.t)
    : list (ContestedGym.t * list ContestedGymChange.t) :=
  (fun gym => (gym, take 5 (ContestedGym.recent_changes gym)))
    <$> take 10 (GymHistoryResponse.contestedGyms data).
End GymHistoryChart.

(** ** Notions used in the further statements *)

(** The number of [rows] held by [team]. *)
Definition held_by (team : Z) (rows : list GymRow.t) : Z :=
  Z.of_nat
    (length (List.filter (fun g => bool_decide (GymRow.team_id g = Some team)) rows)).

(** The collector's configuration is complete: the six settings are present
    and not empty, and the two schema names are made of word characters. *)
Definition collector_configured (env : Env) : Prop :=
  (forall name,
     name ∈ ["DB_HOST"; "DB_USER"; "DB_PASS"; "DB_NAME"; "GEOFENCE_DB_NAME";
             "GEOFENCE_ID"] ->
     truthy (env name) = true)
  /\ (forall name, name ∈ ["DB_NAME"; "GEOFENCE_DB_NAME"] ->
      Collector.matches_word (default "" (env name)) = true).

(** Whenever the computation [m] throws, it throws the failure of a statement
    sent to the database. *)
Definition store_errors {A} (m : M A) : Prop :=
  forall w e w', m w = (Throw e, w') -> exists st, e = StoreError st.

(** A ChangeEvent as the history response reports it. *)
Definition reported_change (c : TeamChange) : ContestedGymChange.t :=
  ContestedGymChange.mk (GymData.normalizeTeamId (old_team_id c))
    (GymData.normalizeTeamId (new_team_id c)) (changed_at c * 1000).

(** A ChangeEvent between two different owners, where team 0 and NULL both
    stand for no owner. *)
Definition changes_owner (c : TeamChange) : bool :=
  negb (bool_decide (GymData.normalizeTeamId (old_team_id c)
                     = GymData.normalizeTeamId (new_team_id c))).

(** The first five owner changes of gym [f] among [rows], as reported. *)
Definition recent_of (f : string) (rows : list TeamChange)
    : list ContestedGymChange.t :=
  take 5
    (reported_change
       <$> List.filter (fun c => changes_owner c && bool_decide (gym_id c = f)) rows).

(** The value [fetchGymSnapshot] stores as the [defenders] of a row. *)
Definition parsed_defenders (rt : Runtime) (gymRow : GymRow.t) : JsonValue :=
  match GymRow.defenders gymRow with
  | Some text =>
      if decide (text = "") then JArray []
      else default (JArray []) (JSON_parse rt text)
  | None => JArray []
  end.

(** The gym [fetchGymSnapshot] builds from a row. *)
Definition snapshot_gym (rt : Runtime) (gymRow : GymRow.t) : Gym.t :=
  Gym.mk gymRow (parsed_defenders rt gymRow)
    (match GymRow.available_slots gymRow with
     | Some n => Some n
     | None => GymRow.availble_slots gymRow
     end)
    (GymData.getTimeSinceUpdate rt (GymRow.updated gymRow)).

(** The WHERE clause of the snapshot query. *)
Definition snapshot_cond (rt : Runtime) (timeWindow : option Z) (geofenceId : string)
    (g : GymRow.t) : bool :=
  match timeWindow with
  | Some window => UNIX_TIMESTAMP rt SnapshotSelect - window <? GymRow.updated g
  | None => false
  end && in_region rt geofenceId g.

(** The elements of a payload that is an array; none for any other payload. *)
Definition payload_array (rt : Runtime) (text : option string)
    : list (option Defender) :=
  match text with
  | Some text =>
      if decide (text = "") then []
      else match JSON_parse rt text with
           | Some (JArray items) => items
           | _ => []
           end
  | None => []
  end.

(** A defender that enters the statistics: its [pokemon_id] is present and
    not 0. *)
Definition counted (d : Defender) : bool :=
  match pokemon_id d with
  | Some pid => negb (bool_decide (pid = 0))
  | None => false
  end.

(** The defenders of [team] that enter the statistics, over the rows of the
    statistics query. *)
Definition team_defenders (rt : Runtime) (team : Z)
    (rows : list (option Z * option string)) : list Defender :=
  List.filter counted
    (omap id
       (List.filter (fun row => bool_decide (row.1 = Some team)) rows
          ≫= fun row => payload_array rt row.2)).

(** The key under which a defender is counted: species, form and costume. *)
Definition defender_key (d : Defender) : string :=
  pretty (default 0 (pokemon_id d)) +:+ "_" +:+ pretty (default 0 (form d))
  +:+ "_" +:+ pretty (default 0 (costume d)).

(** The defenders of the gyms of a snapshot array that the ticker counts. *)
Definition ticker_defenders (teamGyms : list Gym.t) : list Defender :=
  List.filter counted
    (omap id
       (teamGyms ≫= fun gym =>
          match Gym.defenders gym with
          | JArray items => items
          | JOther _ => []
          end)).

(** The defenders of [l] that are counted under [key], and their number. *)
Definition with_key (key : string) (l : list Defender) : list Defender :=
  List.filter (fun d => bool_decide (defender_key d = key)) l.

Definition occurrences (key : string) (l : list Defender) : Z :=
  Z.of_nat (length (with_key key l)).

(** The combat power of a defender as the statistics read it, and the
    combat powers of a list added one after the other to [start]. *)
Definition defender_cp (rt : Runtime) (d : Defender) : Num.t :=
  GymData.toNumber rt (cp_when_deployed d).

Definition cp_sum (rt : Runtime) (start : Num.t) (l : list Defender) : Num.t :=
  fold_left Num.add (defender_cp rt <$> l) start.

(** [entry] is the statistics entry of the defenders of [ds] counted under
    [key]: it is made from the first of them, the combat powers of the others
    are added to the one of the first in the order of [ds], and the average
    is rounded only when there are others. *)
Definition entry_of (rt : Runtime) (ds : list Defender) (key : string)
    (entry : DefenderStats.t) : Prop :=
  DefenderStats.count entry = occurrences key ds
  /\ DefenderStats.name entry = getPokemonName rt (DefenderStats.pokemon_id entry)
  /\ exists d others,
       with_key key ds = d :: others
       /\ pokemon_id d = Some (DefenderStats.pokemon_id entry)
       /\ DefenderStats.form entry = form d
       /\ DefenderStats.total_cp entry = cp_sum rt (defender_cp rt d) others
       /\ DefenderStats.avg_cp entry
          = if decide (others = []) then defender_cp rt d
            else Num.round (Num.div (DefenderStats.total_cp entry)
                              (Num.of_Z (DefenderStats.count entry))).

(** [team] is the aggregation of the defenders [ds]. *)
Definition aggregates (rt : Runtime) (ds : list Defender) (team : TeamAggregation.t)
    : Prop :=
  TeamAggregation.totalDefenders team = Z.of_nat (length ds)
  /\ TeamAggregation.totalCp team = cp_sum rt (Num.of_Z 0) ds
  /\ NoDup (TeamAggregation.defenders team).*1
  /\ (forall key, key ∈ (TeamAggregation.defenders team).*1
                  <-> key ∈ defender_key <$> ds)
  /\ forall key entry, (key, entry) ∈ TeamAggregation.defenders team ->
                       entry_of rt ds key entry.

(** The order of [top_defenders]: by [count], descending. *)
Definition count_desc (a b : DefenderStats.t) : Prop :=
  DefenderStats.count b <= DefenderStats.count a.

(** [defenderCounts] is the tally of the defenders [ds]: one entry per key,
    holding the number of defenders counted under it. *)
Definition tallies (ds : list Defender)
    (defenderCounts : list (string * FavoriteDefender.t)) : Prop :=
  NoDup defenderCounts.*1
  /\ (forall key, key ∈ defenderCounts.*1 <-> key ∈ defender_key <$> ds)
  /\ forall key entry, (key, entry) ∈ defenderCounts ->
       FavoriteDefender.count entry = occurrences key ds
       /\ exists d, d ∈ ds /\ defender_key d = key
                     /\ pokemon_id d = Some (FavoriteDefender.pokemon_id entry).

(** A payload on which the ticker's loop raises a TypeError: a value that is
    neither an array nor [null], or an array with a [null] element. *)
Definition breaks_ticker (v : JsonValue) : Prop :=
  match v with
  | JArray items => None ∈ items
  | JOther scalar => scalar <> JNull
  end.

(** The escapes of a value expanded: first every backslash-n, then every
    backslash-r. *)
Definition unescape (value : list N) : list N :=
  EnvFile.replace_escape 114 13 (EnvFile.replace_escape 110 10 value).

(** A value between two double quotes or between two single quotes. *)
Definition is_quoted (value : list N) : bool :=
  EnvFile.startsWith 34 value && EnvFile.endsWith 34 value
  || EnvFile.startsWith 39 value && EnvFile.endsWith 39 value.

(** A name that can stand on the left of an assignment. *)
Definition is_key (key : list N) : bool :=
  match key with
  | c :: more => EnvFile.is_key_start c && forallb EnvFile.is_key_char more
  | [] => false
  end.

(** The assignment a line of an environment file makes, if it makes one: the
    key and the value that is stored. *)
Definition line_assignment (line : list N) : option (list N * list N) :=
  let trimmed := EnvFile.trim line in
  if bool_decide (trimmed = []) || EnvFile.startsWith 35 trimmed then None
  else (fun found : list N * list N =>
          (found.1, EnvFile.stored (EnvFile.parseValue found.2)))
         <$> EnvFile.match_line trimmed.

(** The assignments of a file, in the order of its lines; none for a file
    that is not there. *)
Definition assignments (file : EnvFile.File) : list (list N * list N) :=
  match file with
  | EnvFile.Contents text => omap line_assignment (EnvFile.split_lines text [])
  | _ => []
  end.

(** The value of the first and of the last assignment to [key]. *)
Definition first_value (key : list N) (l : list (list N * list N)) : option (list N) :=
  snd <$> head (List.filter (fun kv => bool_decide (kv.1 = key)) l).

Definition last_value (key : list N) (l : list (list N * list N)) : option (list N) :=
  snd <$> last (List.filter (fun kv => bool_decide (kv.1 = key)) l).

(** The first of two optional values that is there. *)
Definition or_else {A} (a b : option A) : option A :=
  match a with
  | Some _ => a
  | None => b
  end.

(** ** Further sample inputs *)

Module Sample2.
(** The configuration of [Sample.env] with the API secret set. *)
Definition secured : Env :=
  fun name =>
    if bool_decide (name = "INTERNAL_API_SECRET") then Some "s3cret"
    else Sample.env name.

(** A request carrying one header. *)
Definition header (name value : string) : Http.Headers :=
  fun n => if bool_decide (n = name) then Some value else None.

(** Two gyms of team 1 and one of team 2, with array payloads. *)
Definition defended : Store :=
  mkStore [Sample.gymRow "A" (Some 1) (Some "[1]") 903;
           Sample.gymRow "B" (Some 1) (Some "[1]") 902;
           Sample.gymRow "C" (Some 2) (Some "[]") 901] [] [].

(** The parser of [Sample.parse], which also knows the array that holds
    [null], and the runtime of [Sample.runtime] with this parser. *)
Definition parse (text : string) : option JsonValue :=
  if bool_decide (text = "[null]") then Some (JArray [None])
  else Sample.parse text.

Definition runtime (now : Z) : Runtime :=
  mkRuntime (fun _ => false) (fun _ => now) (now * 1000) (fun _ _ _ => true)
    parse Sample.number (fun _ => Some 3600) (fun _ => "") (fun _ => None) 0.

(** The parser of [parse], which also knows a defender with a combat
    power of 100.5, and the runtime with this parser. *)
Definition parse_fraction (text : string) : option JsonValue :=
  if bool_decide (text = "[2]")
  then Some (JArray [Some (mkDefender (Some 1) None None
                             (Some (inl (Num.div (Num.of_Z 201) (Num.of_Z 2)))))])
  else parse text.

Definition runtime_fraction (now : Z) : Runtime :=
  mkRuntime (fun _ => false) (fun _ => now) (now * 1000) (fun _ _ _ => true)
    parse_fraction Sample.number (fun _ => Some 3600) (fun _ => "")
    (fun _ => None) 0.

(** Two gyms of team 1 and one of team 2, with combat powers of 100.5, 100
    and 100.5. *)
Definition fractional : Store :=
  mkStore [Sample.gymRow "A" (Some 1) (Some "[2]") 903;
           Sample.gymRow "B" (Some 1) (Some "[1]") 902;
           Sample.gymRow "C" (Some 2) (Some "[2]") 901] [] [].

(** The gyms of [defended] and one whose payload holds [null]. *)
Definition nulled : Store :=
  mkStore (gym defended ++ [Sample.gymRow "D" (Some 3) (Some "[null]") 900]) [] [].

(** A working directory with [.env] and [.env.local]. *)
Definition files (file : list N) : EnvFile.File :=
  if bool_decide (file = EnvFile.js ".env")
  then EnvFile.Contents (EnvFile.js "DB_HOST=base # the host")
  else if bool_decide (file = EnvFile.js ".env.local")
  then EnvFile.Contents (EnvFile.js "export DB_HOST='local # host'")
  else EnvFile.Absent.
End Sample2.

(** * Facts about the SQL building blocks *)

Lemma sql_max_spec (l : list Z) (m : Z) :
  sql_max l = Some m -> m ∈ l /\ forall x, x ∈ l -> x <= m.
Proof.
  destruct l as [|x l]; [discriminate|]. simpl. intros [= <-].
  induction l as [|y l IH]; simpl.
  - split; [left|]. intros z Hz. apply list_elem_of_singleton in Hz. lia.
  - destruct IH as [Hin Hle]. split.
    + destruct (Z.max_spec y (foldr Z.max x l)) as [[_ ->]|[_ ->]].
      * apply elem_of_cons in Hin as [Hin|Hin].
        -- rewrite Hin at 1. left.
        -- do 2 right. exact Hin.
      * right. left.
    + intros z Hz. apply elem_of_cons in Hz as [->|Hz].
      * assert (x <= foldr Z.max x l) by (apply Hle; left). lia.
      * apply elem_of_cons in Hz as [->|Hz]; [lia|].
        assert (z <= foldr Z.max x l) by (apply Hle; by right). lia.
Qed.

Lemma sql_max_greatest (l : list Z) (m : Z) :
  m ∈ l -> (forall x, x ∈ l -> x <= m) -> sql_max l = Some m.
Proof.
  intros Hin Hle. destruct (sql_max l) as [m'|] eqn:E.
  - apply sql_max_spec in E as [Hin' Hle']. f_equal.
    specialize (Hle _ Hin'). specialize (Hle' _ Hin). lia.
  - destruct l; [inversion Hin | discriminate].
Qed.

Lemma elem_of_List_filter {A} (P : A -> bool) (l : list A) (x : A) :
  x ∈ List.filter P l <-> x ∈ l /\ P x = true.
Proof. rewrite !list_elem_of_In. apply filter_In. Qed.

Lemma sql_group_by_keys {A K} `{EqDecision K} (key : A -> K) (rows : list A) :
  (sql_group_by key rows).*1 = remove_dups (key <$> rows).
Proof.
  unfold sql_group_by. rewrite <- list_fmap_compose.
  induction (remove_dups (key <$> rows)) as [|k ks IH]; [done|].
  rewrite !fmap_cons, IH. done.
Qed.

Lemma elem_of_sql_group_by {A K} `{EqDecision K} (key : A -> K) (rows : list A) k grp :
  (k, grp) ∈ sql_group_by key rows <->
  k ∈ key <$> rows /\ grp = List.filter (fun r => bool_decide (key r = k)) rows.
Proof.
  unfold sql_group_by. rewrite list_elem_of_fmap. split.
  - intros (k' & Heq & Hk). simpl in Heq. injection Heq as -> ->.
    split; [|done]. by apply elem_of_remove_dups.
  - intros [Hk ->]. exists k. split; [done|]. by apply elem_of_remove_dups.
Qed.

(** * The last known owner computed by the collector *)

Section LastState.
Context (s : Store).
Let tbl := gym_team_changes s.

Lemma select_latest_unfold :
  Collector.select_latest s =
  (fun k => (k, sql_max (changed_at <$>
               List.filter (fun r => bool_decide (gym_id r = k)) tbl)))
    <$> remove_dups (gym_id <$> tbl).
Proof.
  unfold Collector.select_latest, sql_group_by.
  rewrite <- list_fmap_compose. done.
Qed.

Lemma join_one_key {B} (F : string -> option Z) (ks : list string)
    (g : string) (v : option Z) (x : B) :
  NoDup ks ->
  (latest ← (fun k => (k, F k)) <$> ks;
   if bool_decide (latest.1 = g /\ latest.2 = v) then [x] else [])
  = if bool_decide (g ∈ ks /\ F g = v) then [x] else [].
Proof.
  induction 1 as [|k ks Hk Hnd IH]; [done|].
  rewrite fmap_cons, bind_cons, IH. clear IH. cbn [fst snd].
  destruct (decide (k = g)) as [->|Hne].
  - rewrite (bool_decide_eq_false_2 (g ∈ ks /\ _)) by (intros [? _]; done).
    rewrite app_nil_r. apply (f_equal (fun b : bool => if b then [x] else [])).
    apply bool_decide_ext. rewrite elem_of_cons. tauto.
  - rewrite (bool_decide_eq_false_2 (k = g /\ _)) by (intros [? _]; done).
    apply (f_equal (fun b : bool => if b then [x] else [])).
    apply bool_decide_ext. rewrite elem_of_cons.
    split; [intros [? ?]; auto | intros [[?|?] ?]; [congruence | auto]].
Qed.

Lemma join_latest_sub (l : list TeamChange) :
  (forall c, c ∈ l -> c ∈ tbl) ->
  (gtc ← l;
   latest ← Collector.select_latest s;
   if bool_decide (latest.1 = gym_id gtc /\ latest.2 = Some (changed_at gtc))
   then [(gym_id gtc, new_team_id gtc)] else [])
  = (fun c => (gym_id c, new_team_id c)) <$> List.filter (is_latest s) l.
Proof.
  rewrite select_latest_unfold.
  induction l as [|c l IH]; intros Hsub; [done|].
  rewrite bind_cons, IH by (intros; apply Hsub; by right).
  rewrite (join_one_key _ _ (gym_id c) (Some (changed_at c)))
    by apply NoDup_remove_dups.
  assert (Hin : gym_id c ∈ remove_dups (gym_id <$> tbl)).
  { apply elem_of_remove_dups, list_elem_of_fmap. exists c. split; [done|].
    apply Hsub. left. }
  cbn [List.filter]. unfold is_latest at 2. fold tbl.
  destruct (decide (sql_max (changed_at <$>
              List.filter (fun r => bool_decide (gym_id r = gym_id c)) tbl)
            = Some (changed_at c))) as [Hm|Hm].
  - rewrite !bool_decide_eq_true_2 by done. done.
  - rewrite (bool_decide_eq_false_2 (_ /\ _)) by (intros [_ ?]; done).
    rewrite bool_decide_eq_false_2 by done. done.
Qed.

Lemma select_last_state_unfold :
  Collector.select_last_state s =
  (fun c => (gym_id c, new_team_id c)) <$> List.filter (is_latest s) tbl.
Proof. apply join_latest_sub. done. Qed.

Lemma is_latest_spec (c : TeamChange) :
  c ∈ tbl ->
  (is_latest s c = true <->
   forall c', c' ∈ tbl -> gym_id c' = gym_id c -> changed_at c' <= changed_at c).
Proof.
  intros Hc. unfold is_latest. fold tbl. rewrite bool_decide_eq_true. split.
  - intros Hm c' Hc' Hg. apply sql_max_spec in Hm as [_ Hle]. apply Hle.
    apply list_elem_of_fmap. exists c'. split; [done|].
    apply elem_of_List_filter. split; [done|]. by apply bool_decide_eq_true.
  - intros Hle. apply sql_max_greatest.
    + apply list_elem_of_fmap. exists c. split; [done|].
      apply elem_of_List_filter. split; [done|]. by apply bool_decide_eq_true.
    + intros x Hx. apply list_elem_of_fmap in Hx as (c' & -> & Hc').
      apply elem_of_List_filter in Hc' as [Hc' Hg].
      apply bool_decide_eq_true in Hg. by apply Hle.
Qed.
End LastState.

Lemma build_lastStateMap_lookup (rows : list (string * option Z)) (f : string) :
  Collector.build_lastStateMap rows !! f
  = snd <$> last (List.filter (fun r => bool_decide (r.1 = f)) rows).
Proof.
  unfold Collector.build_lastStateMap.
  assert (H : forall m : gmap string (option Z),
             fold_left (fun m row => <[row.1 := row.2]> m) rows m !! f
             = match last (List.filter (fun r => bool_decide (r.1 = f)) rows) with
               | Some r => Some r.2
               | None => m !! f
               end).
  { induction rows as [|r rows IH]; intros m; [done|]. simpl. rewrite IH.
    destruct (decide (r.1 = f)) as [Hr|Hr].
    - rewrite bool_decide_eq_true_2 by done.
      destruct (List.filter _ rows) as [|r' l'] eqn:E.
      + cbn [last]. subst f. by rewrite lookup_insert_eq.
      + change (last (r :: r' :: l')) with (last (r' :: l')).
        destruct (last (r' :: l')) eqn:El; [done|].
        by apply last_None in El.
    - rewrite bool_decide_eq_false_2 by done.
      destruct (last _); [done|]. by rewrite lookup_insert_ne. }
  rewrite H. destruct (last _); done.
Qed.

Lemma List_filter_nil {A} (P : A -> bool) (l : list A) :
  (forall x, x ∈ l -> P x = false) -> List.filter P l = [].
Proof.
  induction l as [|x l IH]; intros H; [done|]. simpl.
  rewrite (H x) by left. apply IH. intros y Hy. apply H. by right.
Qed.

Lemma last_filter_split {A} (P : A -> bool) (pre post : list A) (c : A) :
  P c = true -> (forall x, x ∈ post -> P x = false) ->
  last (List.filter P (pre ++ c :: post)) = Some c.
Proof.
  intros Hc Hpost. rewrite List.filter_app. simpl. rewrite Hc.
  rewrite (List_filter_nil P post Hpost). apply last_snoc.
Qed.

Lemma filter_key_fmap {A} (P : A -> bool) (key : A -> string) (val : A -> option Z)
    (f : string) (l : list A) :
  List.filter (fun r : string * option Z => bool_decide (r.1 = f))
    ((fun c => (key c, val c)) <$> List.filter P l)
  = (fun c => (key c, val c))
      <$> List.filter (fun c => P c && bool_decide (key c = f)) l.
Proof.
  induction l as [|x l IH]; [done|]. cbn [List.filter].
  destruct (P x); cbn [andb]; [|exact IH].
  rewrite fmap_cons. cbn [List.filter fst]. rewrite IH.
  by destruct (bool_decide (key x = f)).
Qed.

Lemma lastStateMap_unseen (s : Store) (f : string) :
  (forall c, c ∈ gym_team_changes s -> gym_id c <> f) ->
  Collector.build_lastStateMap (Collector.select_last_state s) !! f = None.
Proof.
  intros Hno. rewrite build_lastStateMap_lookup, select_last_state_unfold.
  rewrite filter_key_fmap, List_filter_nil; [done|].
  intros c Hc. apply andb_false_iff. right. apply bool_decide_eq_false.
  by apply Hno.
Qed.

Lemma lastStateMap_most_recent (s : Store) (f : string) (c : TeamChange) :
  most_recent_change (gym_team_changes s) f c ->
  Collector.build_lastStateMap (Collector.select_last_state s) !! f
  = Some (new_team_id c).
Proof.
  intros (pre & post & Htbl & Hf & Hpre & Hpost).
  rewrite build_lastStateMap_lookup, select_last_state_unfold, filter_key_fmap.
  rewrite fmap_last. rewrite Htbl at 1.
  assert (Hc : c ∈ gym_team_changes s).
  { rewrite Htbl. apply elem_of_app. right. left. }
  assert (Hall : forall c', c' ∈ gym_team_changes s -> gym_id c' = gym_id c ->
                            changed_at c' <= changed_at c).
  { intros c' Hc' Hg. rewrite Htbl in Hc'. rewrite Hf in Hg.
    apply elem_of_app in Hc' as [Hc'|Hc']; [by apply Hpre|].
    apply elem_of_cons in Hc' as [->|Hc']; [lia|].
    specialize (Hpost _ Hc' Hg). lia. }
  rewrite (last_filter_split _ pre post c); [done| |].
  - apply andb_true_iff. split; [by apply is_latest_spec|].
    by apply bool_decide_eq_true.
  - intros c' Hc'. apply andb_false_iff.
    destruct (decide (gym_id c' = f)) as [Hg|Hg].
    + left. apply not_true_is_false. intros Hl.
      assert (Hc'' : c' ∈ gym_team_changes s).
      { rewrite Htbl. apply elem_of_app. right. by right. }
      pose proof (proj1 (is_latest_spec s c' Hc'') Hl c Hc) as Hle.
      assert (changed_at c <= changed_at c') by (apply Hle; congruence).
      specialize (Hpost _ Hc' Hg). lia.
    + right. by apply bool_decide_eq_false.
Qed.

(** Every facility with a ChangeEvent has a most recent one. *)
Lemma most_recent_change_exists (tbl : list TeamChange) (f : string) :
  (exists c, c ∈ tbl /\ gym_id c = f) -> exists c, most_recent_change tbl f c.
Proof.
  induction tbl as [|x tbl IH] using rev_ind.
  - intros (c & Hc & _). inversion Hc.
  - intros (c & Hc & Hf).
    destruct (decide (Exists (fun c' => gym_id c' = f) tbl)) as [Hex|Hex];
      rewrite Exists_exists in Hex.
    + destruct (IH Hex) as (m & pre & post & -> & Hm & Hpre & Hpost).
      destruct (decide (gym_id x = f /\ changed_at m <= changed_at x)) as [[Hx Hle]|Hx].
      * exists x, (pre ++ m :: post), []. split; [done|]. split; [done|]. split.
        -- intros c' Hc' Hg. apply elem_of_app in Hc' as [Hc'|Hc'].
           ++ specialize (Hpre _ Hc' Hg). lia.
           ++ apply elem_of_cons in Hc' as [->|Hc']; [done|].
              specialize (Hpost _ Hc' Hg). lia.
        -- intros c' Hc'. inversion Hc'.
      * exists m, pre, (post ++ [x]). split; [by rewrite <- app_assoc|].
        split; [done|]. split; [done|].
        intros c' Hc' Hg. apply elem_of_app in Hc' as [Hc'|Hc']; [by apply Hpost|].
        apply list_elem_of_singleton in Hc' as ->.
        destruct (decide (changed_at m <= changed_at x)); [|lia].
        exfalso. apply Hx. done.
    + apply elem_of_app in Hc as [Hc|Hc]; [exfalso; apply Hex; eauto|].
      apply list_elem_of_singleton in Hc as ->.
      exists x, tbl, []. split; [done|]. split; [done|]. split.
      * intros c' Hc' Hg. exfalso. apply Hex. eauto.
      * intros c' Hc'. inversion Hc'.
Qed.

(** * The rows of one diff step *)

Lemma events_of_app f l1 l2 : events_of f (l1 ++ l2) = events_of f l1 ++ events_of f l2.
Proof. apply List.filter_app. Qed.

Lemma diff_events_absent (ts : Z) (rows : list (string * option Z))
    (m : gmap string (option Z)) (f : string) :
  f ∉ rows.*1 -> events_of f (diff_events ts rows m) = [].
Proof.
  revert m. induction rows as [|row rows IH]; intros m Hf; [done|].
  rewrite fmap_cons, not_elem_of_cons in Hf. destruct Hf as [Hne Hf].
  cbn [diff_events].
  destruct (m !! row.1) as [lastTeam|]; [destruct (decide (lastTeam = row.2))|];
    unfold events_of; cbn [List.filter gym_id];
    rewrite ?bool_decide_eq_false_2 by done; by apply IH.
Qed.

Lemma diff_events_of (ts : Z) (rows : list (string * option Z))
    (m : gmap string (option Z)) (f : string) (cur : option Z) :
  NoDup rows.*1 -> (f, cur) ∈ rows ->
  events_of f (diff_events ts rows m)
  = match m !! f with
    | None => [mkTeamChange f None cur ts]
    | Some lastTeam =>
        if decide (lastTeam = cur) then [] else [mkTeamChange f lastTeam cur ts]
    end.
Proof.
  revert m. induction rows as [|row rows IH]; intros m Hnd Hin; [inversion Hin|].
  rewrite fmap_cons in Hnd. apply NoDup_cons in Hnd as [Hfresh Hnd].
  apply elem_of_cons in Hin as [Hin|Hin].
  - subst row. cbn [diff_events fst snd]. cbn [fst] in Hfresh.
    destruct (m !! f) as [lastTeam|]; [destruct (decide (lastTeam = cur))|];
      unfold events_of; cbn [List.filter gym_id];
      rewrite ?bool_decide_eq_true_2 by done;
      try (f_equal); by apply diff_events_absent.
  - assert (Hne : row.1 <> f).
    { intros <-. apply Hfresh. apply list_elem_of_fmap. by exists (row.1, cur). }
    cbn [diff_events].
    destruct (m !! row.1) as [lastTeam|] eqn:El;
      [destruct (decide (lastTeam = row.2))|];
      unfold events_of; cbn [List.filter gym_id];
      rewrite ?bool_decide_eq_false_2 by done;
      fold (events_of f (diff_events ts rows m));
      fold (events_of f (diff_events ts rows (<[row.1:=row.2]> m)));
      rewrite IH by done; rewrite ?lookup_insert_ne by done; done.
Qed.

(** * Running the diff step *)

Lemma bind_Ok_inv {A B} (m : M A) (k : A -> M B) w b w' :
  bind m k w = (Ok b, w') -> exists a w1, m w = (Ok a, w1) /\ k a w1 = (Ok b, w').
Proof.
  unfold bind. destruct (m w) as [[a|e] w1]; [eauto|discriminate].
Qed.

Lemma bind_Throw_inv {A B} (m : M A) (k : A -> M B) w e w' :
  bind m k w = (Throw e, w') ->
  m w = (Throw e, w') \/ exists a w1, m w = (Ok a, w1) /\ k a w1 = (Throw e, w').
Proof.
  unfold bind. destruct (m w) as [[a|e0] w1]; [eauto|]. intros [= -> ->]. by left.
Qed.

(** What the loop of [trackTeamChanges] does inside a transaction, whatever
    fails: committed data and console are untouched, the transaction stays
    open, and a loop that ends normally has issued [diff_statements], none of
    them failing, and inserted [diff_events]. *)
Lemma diff_loop_run (rt : Runtime) (ts : Z) (rows : list (string * option Z)) :
  forall k m w s r w',
    working w = Some s ->
    Collector.diff_loop rt ts k rows m w = (r, w') ->
    committed w' = committed w /\ console w' = console w
    /\ is_Some (working w')
    /\ (forall u, r = Ok u ->
        working w' = Some (mkStore (gym s) (gym_history s)
                             (gym_team_changes s ++ diff_events ts rows m))
        /\ forall st, st ∈ diff_statements k rows m -> faulty rt st = false).
Proof.
  induction rows as [|row rows IH]; intros k m w s r w' Hw Hrun.
  - injection Hrun as <- <-. rewrite Hw. repeat split; eauto.
    + destruct s. simpl. by rewrite app_nil_r.
    + intros st Hst. inversion Hst.
  - cbn [Collector.diff_loop diff_events diff_statements] in *.
    assert (Hins : forall c,
      bind (execute rt (CollectorInsertChange k) (Collector.insert_change c))
        (fun _ => Collector.diff_loop rt ts (S k) rows (<[row.1:=row.2]> m)) w
      = (r, w') ->
      committed w' = committed w /\ console w' = console w /\ is_Some (working w')
      /\ (forall u, r = Ok u ->
          working w' = Some (mkStore (gym s) (gym_history s)
            (gym_team_changes s ++ c :: diff_events ts rows (<[row.1:=row.2]> m)))
          /\ forall st,
               st ∈ CollectorInsertChange k
                    :: diff_statements (S k) rows (<[row.1:=row.2]> m) ->
               faulty rt st = false)).
    { intros c Hb. unfold bind, execute in Hb.
      destruct (faulty rt (CollectorInsertChange k)) eqn:F.
      - injection Hb as <- <-. rewrite Hw. repeat split; eauto; discriminate.
      - rewrite Hw in Hb.
        eapply IH in Hb; [|reflexivity]. cbn in Hb.
        destruct Hb as (Hc & Hl & Hs & Hok).
        split; [done|]. split; [done|]. split; [done|].
        intros u Hu. destruct (Hok u Hu) as [-> Hst]. split.
        + by rewrite <- app_assoc.
        + intros st [->|Hin]%elem_of_cons; [done|]. by apply Hst. }
    destruct (m !! row.1) as [lastTeam|]; [|by apply Hins].
    destruct (decide (lastTeam = row.2)); [|by apply Hins].
    by eapply IH.
Qed.

Lemma diff_loop_fault_free (rt : Runtime) (ts : Z) (rows : list (string * option Z)) :
  fault_free rt ->
  forall k m w, is_Some (working w) ->
    exists w', Collector.diff_loop rt ts k rows m w = (Ok tt, w').
Proof.
  intros Hff. induction rows as [|row rows IH]; intros k m w [s Hw]; [by eexists|].
  cbn [Collector.diff_loop].
  assert (Hins : forall c,
    exists w', bind (execute rt (CollectorInsertChange k) (Collector.insert_change c))
      (fun _ => Collector.diff_loop rt ts (S k) rows (<[row.1:=row.2]> m)) w
    = (Ok tt, w')).
  { intros c. unfold bind, execute. rewrite Hff, Hw. apply IH. by eexists. }
  destruct (m !! row.1) as [lastTeam|]; [|by apply Hins].
  destruct (decide (lastTeam = row.2)); [|by apply Hins].
  apply IH. by eexists.
Qed.

Lemma NoDup_fmap_List_filter {A B} (key : A -> B) (P : A -> bool) (l : list A) :
  NoDup (key <$> l) -> NoDup (key <$> List.filter P l).
Proof.
  induction l as [|x l IH]; [done|]. rewrite fmap_cons, NoDup_cons.
  intros [Hx Hnd]. cbn [List.filter]. destruct (P x); [|by apply IH].
  rewrite fmap_cons. apply NoDup_cons. split; [|by apply IH].
  intros Hin. apply Hx. apply list_elem_of_fmap in Hin as (y & -> & Hy).
  apply list_elem_of_fmap. exists y. split; [done|].
  by apply elem_of_List_filter in Hy as [Hy _].
Qed.

Lemma select_current_NoDup (rt : Runtime) (geofenceId : string) (s : Store) :
  NoDup (GymRow.id <$> gym s) ->
  NoDup (Collector.select_current rt geofenceId s).*1.
Proof.
  intros Hnd. unfold Collector.select_current. rewrite <- list_fmap_compose.
  by apply (NoDup_fmap_List_filter GymRow.id).
Qed.

Lemma trackTeamChanges_run (rt : Runtime) (geofenceId : string) w s r w' :
  working w = Some s ->
  Collector.trackTeamChanges rt geofenceId w = (r, w') ->
  committed w' = committed w /\ console w' = console w
  /\ is_Some (working w')
  /\ (forall u, r = Ok u ->
      working w' = Some (mkStore (gym s) (gym_history s)
                           (gym_team_changes s ++ tracked_changes rt geofenceId s))
      /\ forall st,
           st ∈ [CollectorCurrent; CollectorLastState]
                ++ diff_statements 0 (Collector.select_current rt geofenceId s)
                     (Collector.build_lastStateMap (Collector.select_last_state s)) ->
           faulty rt st = false).
Proof.
  intros Hw. unfold Collector.trackTeamChanges, bind, query, view. rewrite Hw.
  destruct (faulty rt CollectorCurrent) eqn:F1.
  { intros [= <- <-]. rewrite Hw. repeat split; eauto; discriminate. }
  destruct (faulty rt CollectorLastState) eqn:F2.
  { intros [= <- <-]. rewrite Hw. repeat split; eauto; discriminate. }
  intros Hrun. rewrite Hw in Hrun. eapply diff_loop_run in Hrun; [|done].
  destruct Hrun as (Hc & Hl & Hs & Hok).
  split; [done|]. split; [done|]. split; [done|].
  intros u Hu. destruct (Hok u Hu) as [Hw' Hst]. split; [done|].
  intros st [->|Hin]%elem_of_cons; [done|].
  apply elem_of_cons in Hin as [->|Hin]; [done|]. by apply Hst.
Qed.

Lemma trackTeamChanges_fault_free (rt : Runtime) (geofenceId : string) w :
  fault_free rt -> is_Some (working w) ->
  exists w', Collector.trackTeamChanges rt geofenceId w = (Ok tt, w').
Proof.
  intros Hff Hw. unfold Collector.trackTeamChanges, bind, query.
  rewrite !Hff. by apply diff_loop_fault_free.
Qed.

(** What one diff step appends for a facility of the current query result. *)
Lemma tracked_changes_of (rt : Runtime) (geofenceId : string) (s : Store)
    (f : string) (currentOwner : option Z) :
  NoDup (GymRow.id <$> gym s) ->
  (f, currentOwner) ∈ Collector.select_current rt geofenceId s ->
  events_of f (tracked_changes rt geofenceId s)
  = match Collector.build_lastStateMap (Collector.select_last_state s) !! f with
    | None => [mkTeamChange f None currentOwner (Date_now rt `div` 1000)]
    | Some lastOwner =>
        if decide (lastOwner = currentOwner) then []
        else [mkTeamChange f lastOwner currentOwner (Date_now rt `div` 1000)]
    end.
Proof.
  intros Hnd Hin. unfold tracked_changes.
  apply diff_events_of; [by apply select_current_NoDup | done].
Qed.

(** C1.  One run of the diff step, for a facility [f] of the current query
    result with current owner [currentOwner]: the step ends normally and
    appends rows to [gym_team_changes]; among them, those of [f] are
    - exactly one row [(f, NULL, currentOwner, now)] when the table holds no
      ChangeEvent of [f];
    - exactly one row [(f, lastOwner, currentOwner, now)] when the most recent
      ChangeEvent [c] of [f] has a [new_team_id] (the last known owner) other
      than the current owner;
    - none when the last known owner is the current owner.
    [now] is the JavaScript clock in seconds; the step runs inside the
    collector's transaction, without a failing statement, over a [gym] table
    with [id] as its key. *)
Theorem C1_change_tracking (rt : Runtime) (geofenceId : string) (w : World)
    (s : Store) (f : string) (currentOwner : option Z) :
  fault_free rt ->
  working w = Some s ->
  NoDup (GymRow.id <$> gym s) ->
  (f, currentOwner) ∈ Collector.select_current rt geofenceId s ->
  exists w' appended,
    Collector.trackTeamChanges rt geofenceId w = (Ok tt, w')
    /\ gym_team_changes <$> working w' = Some (gym_team_changes s ++ appended)
    /\ ((forall c, c ∈ gym_team_changes s -> gym_id c <> f) ->
        events_of f appended
        = [mkTeamChange f None currentOwner (Date_now rt `div` 1000)])
    /\ (forall c, most_recent_change (gym_team_changes s) f c ->
        (new_team_id c <> currentOwner ->
         events_of f appended
         = [mkTeamChange f (new_team_id c) currentOwner (Date_now rt `div` 1000)])
        /\ (new_team_id c = currentOwner -> events_of f appended = [])).
Proof.
  intros Hff Hw Hnd Hin.
  destruct (trackTeamChanges_fault_free rt geofenceId w Hff) as [w' Hrun];
    [by eexists|].
  exists w', (tracked_changes rt geofenceId s).
  destruct (trackTeamChanges_run _ _ _ _ _ _ Hw Hrun) as (_ & _ & _ & Hok).
  destruct (Hok tt eq_refl) as [Hw' _].
  split; [done|]. split; [by rewrite Hw'|].
  rewrite (tracked_changes_of rt geofenceId s f currentOwner Hnd Hin).
  split.
  - intros Hno. by rewrite lastStateMap_unseen.
  - intros c Hc. rewrite (lastStateMap_most_recent s f c Hc).
    split; intros Ho; [by rewrite decide_False | by rewrite decide_True].
Qed.

(** * The transaction of the collector *)

Lemma transaction_run (rt : Runtime) (geofenceId : string) (retention : option Z)
    (w : World) (r : Result unit) (w1 : World) :
  working w = None ->
  Collector.transaction rt geofenceId retention w = (r, w1) ->
  match r with
  | Ok _ =>
      committed w1 = collected rt geofenceId retention (committed w)
      /\ working w1 = None
      /\ forall st, st ∈ collector_steps rt geofenceId (committed w) ->
                    st <> GetConnection -> faulty rt st = false
  | Throw _ => committed w1 = committed w
  end.
Proof.
  intros Hw. unfold Collector.transaction.
  unfold bind at 1. unfold beginTransaction.
  destruct (faulty rt BeginTransaction) eqn:F1; [by intros [= <- <-]|].
  unfold view. rewrite Hw.
  unfold bind at 1. unfold query at 1.
  destruct (faulty rt CollectorCounts) eqn:F2; [by intros [= <- <-]|].
  cbn [view working].
  unfold collected, collected_sample.
  destruct (Collector.select_counts rt geofenceId (committed w))
    as [[[mystic valor] instinct] total].
  unfold bind at 1. unfold execute at 1.
  destruct (faulty rt CollectorInsertHistory) eqn:F3; [by intros [= <- <-]|].
  cbn [working committed console].
  unfold bind at 1.
  match goal with
  | |- context [Collector.trackTeamChanges rt geofenceId ?w2] =>
      destruct (Collector.trackTeamChanges rt geofenceId w2) as [r3 w3] eqn:Et;
      pose proof (trackTeamChanges_run rt geofenceId w2 _ r3 w3 eq_refl Et)
        as (Hc & Hl & Hs & Hok); cbn [committed console] in Hc, Hl
  end.
  destruct r3 as [[]|e]; [|by intros [= <- <-]].
  destruct (Hok tt eq_refl) as [Hw3 Hdiff]. clear Hok.
  assert (F7 : faulty rt CollectorCurrent = false) by (apply Hdiff; left).
  assert (F8 : faulty rt CollectorLastState = false) by (apply Hdiff; right; left).
  unfold bind at 1. unfold execute at 1.
  destruct (faulty rt CollectorSweepHistory) eqn:F4; [by intros [= <- <-]|].
  rewrite Hw3.
  unfold bind at 1. unfold execute at 1.
  destruct (faulty rt CollectorSweepChanges) eqn:F5; [by intros [= <- <-]|].
  cbn [working committed console].
  unfold bind at 1. unfold commit.
  destruct (faulty rt Commit) eqn:F6; [by intros [= <- <-]|].
  cbn [view working committed console].
  unfold emit. intros [= <- <-]. cbn [committed working].
  split; [done|]. split; [done|].
  intros st Hst Hne. unfold collector_steps in Hst.
  repeat (apply elem_of_cons in Hst as [->|Hst]; [done|]).
  apply elem_of_app in Hst as [Hst|Hst].
  - apply Hdiff. by do 2 right.
  - repeat (apply elem_of_cons in Hst as [->|Hst]; [done|]). inversion Hst.
Qed.

Lemma ensure_Ok (value : option string) (name v : string) :
  Collector.ensure value name = Ok v -> value = Some v.
Proof.
  unfold Collector.ensure. destruct value as [v'|]; [|done].
  destruct (decide (v' = "")); [done|]. by intros [= ->].
Qed.

(** What a run of the collector leaves behind.  A run that ends normally has
    committed [collected]; a run that throws has committed nothing, unless all
    its steps went through and only closing the pool failed. *)
Lemma collectGymHistory_run (rt : Runtime) (env : Env) (w : World)
    (r : Result unit) (w' : World) :
  working w = None ->
  Collector.collectGymHistory rt env w = (r, w') ->
  working w' = None
  /\ (committed w' = committed w /\ (exists e, r = Throw e)
      \/ exists geofenceId,
           env "GEOFENCE_ID" = Some geofenceId
           /\ committed w'
              = collected rt geofenceId (Collector.retentionSeconds rt env)
                  (committed w)
           /\ (forall st, st ∈ collector_steps rt geofenceId (committed w) ->
                          faulty rt st = false)
           /\ (r = Ok tt \/ faulty rt PoolEnd = true)).
Proof.
  intros Hw. unfold Collector.collectGymHistory.
  repeat (unfold bind at 1; unfold lift at 1;
          match goal with
          | |- context [match ?e with Ok _ => _ | Throw _ => _ end] =>
              destruct e eqn:?; [|intros [= <- <-]; eauto]
          end).
  unfold bind at 1. unfold getConnection.
  destruct (faulty rt GetConnection) eqn:F0; [intros [= <- <-]; eauto|].
  unfold try_finally, try_catch, release_and_end.
  match goal with
  | |- context [Collector.transaction rt ?g ?ret w] =>
      destruct (Collector.transaction rt g ret w) as [r1 w1] eqn:Et;
      pose proof (transaction_run rt g ret w r1 w1 Hw Et) as Hrun
  end.
  destruct r1 as [[]|e].
  - destruct Hrun as (Hc & Hw1 & Hst).
    match goal with H : Collector.ensure (env "GEOFENCE_ID") _ = Ok ?g |- _ =>
      apply ensure_Ok in H;
      assert (Hsteps : forall st, st ∈ collector_steps rt g (committed w) ->
                                  faulty rt st = false)
    end.
    { intros st Hin. destruct (decide (st = GetConnection)) as [->|]; auto. }
    destruct (faulty rt PoolEnd) eqn:F; intros [= <- <-]; cbn [working committed];
      (split; [done|]); right; eexists; repeat (split; [eassumption || done|]);
      auto.
  - unfold bind, rollback, emit, throw.
    destruct (faulty rt Rollback), (faulty rt PoolEnd); intros [= <- <-];
      cbn [working committed]; eauto.
Qed.

(** C3.  A run of [collectGymHistory] on a fresh connection is all or
    nothing: afterwards no transaction is open and the committed store is
    either the store before the call or the store with every write of the run
    applied ([collected]: the sample appended, the ChangeEvents appended, both
    tables swept).  If any step of the run fails (obtaining the connection,
    BEGIN, the counting query, the INSERT of the sample, one of the two reads
    of the diff, the INSERT of a ChangeEvent, one of the two DELETEs, COMMIT)
    the run throws, the committed store is the one before the call and the
    exit status is 1.  A run that throws always exits with status 1, and has
    committed nothing unless closing the pool was what failed; a run that
    ends normally exits with status 0 and has committed every write. *)
Theorem C3_all_or_nothing (rt : Runtime) (env : Env) (w : World) :
  working w = None ->
  let run := Collector.collectGymHistory rt env w in
  let exit_code := (Collector.main rt env w).1 in
  let all_written :=
    exists geofenceId,
      env "GEOFENCE_ID" = Some geofenceId
      /\ committed run.2
         = collected rt geofenceId (Collector.retentionSeconds rt env) (committed w) in
  working run.2 = None
  /\ (committed run.2 = committed w \/ all_written)
  /\ (forall geofenceId st,
       env "GEOFENCE_ID" = Some geofenceId ->
       st ∈ collector_steps rt geofenceId (committed w) ->
       faulty rt st = true ->
       (exists e, run.1 = Throw e) /\ committed run.2 = committed w /\ exit_code = 1)
  /\ (forall e, run.1 = Throw e ->
       exit_code = 1 /\ (faulty rt PoolEnd = false -> committed run.2 = committed w))
  /\ (run.1 = Ok tt -> exit_code = 0 /\ all_written).
Proof.
  intros Hw. cbn zeta. unfold Collector.main.
  destruct (Collector.collectGymHistory rt env w) as [r w'] eqn:Erun.
  destruct (collectGymHistory_run rt env w r w' Hw Erun)
    as [Hw' [[Hc [e ->]]|(geofenceId & Hg & Hall & Hsteps & Hr)]]; cbn [fst snd].
  - split; [done|]. split; [by left|].
    split; [intros g st _ _ _; eauto|]. split; [done|]. done.
  - split; [done|]. split; [right; eauto|]. split; [|split].
    + intros g st Hg' Hin Hf. rewrite Hg in Hg'. injection Hg' as <-.
      rewrite (Hsteps st Hin) in Hf. discriminate.
    + intros e ->. split; [done|]. intros F. destruct Hr as [?|Hr]; [done|].
      rewrite F in Hr. discriminate.
    + intros ->. split; [done|]. eauto.
Qed.

Lemma C1_change_tracking_witness :
  exists w' appended,
    Collector.trackTeamChanges (Sample.runtime 2000) "fence"
      (mkWorld Sample.flipped (Some Sample.flipped) []) = (Ok tt, w')
    /\ gym_team_changes <$> working w'
       = Some (gym_team_changes Sample.flipped ++ appended)
    /\ ((forall c, c ∈ gym_team_changes Sample.flipped -> gym_id c <> "F") ->
        events_of "F" appended
        = [mkTeamChange "F" None (Some 2) (Date_now (Sample.runtime 2000) `div` 1000)])
    /\ (forall c, most_recent_change (gym_team_changes Sample.flipped) "F" c ->
        (new_team_id c <> Some 2 ->
         events_of "F" appended
         = [mkTeamChange "F" (new_team_id c) (Some 2)
              (Date_now (Sample.runtime 2000) `div` 1000)])
        /\ (new_team_id c = Some 2 -> events_of "F" appended = [])).
Proof.
  apply (C1_change_tracking (Sample.runtime 2000) "fence"
           (mkWorld Sample.flipped (Some Sample.flipped) []) Sample.flipped
           "F" (Some 2)).
  - intros st. reflexivity.
  - reflexivity.
  - vm_compute. apply NoDup_singleton.
  - vm_compute. left.
Defined.

Example after_first_changes :
  gym_team_changes (committed Sample.after_first) = [mkTeamChange "F" None (Some 1) 1000].
Proof. vm_compute. reflexivity. Qed.

(** * First observations *)

(** C2, as stated, fails.  Three runs of the collector over one gym that is
    held by team 1 throughout, with the default retention of seven days: the
    first run records the first observation [(F, NULL, 1)] at second 1000;
    the second run, a week and a second later, sweeps that row away; the
    third run finds no ChangeEvent of the gym and records a second row with
    [old_team_id = NULL]. *)
Lemma C2_second_first_observation :
  gym (committed Sample.after_third) = gym Sample.fresh
  /\ (Collector.collectGymHistory (Sample.runtime 1000) Sample.env
        (Sample.idle Sample.fresh)).1 = Ok tt
  /\ gym_team_changes (committed Sample.after_first)
     = [mkTeamChange "F" None (Some 1) 1000]
  /\ (Collector.collectGymHistory (Sample.runtime 605801) Sample.env
        Sample.after_first).1 = Ok tt
  /\ gym_team_changes (committed Sample.after_second) = []
  /\ (Collector.collectGymHistory (Sample.runtime 606101) Sample.env
        Sample.after_second).1 = Ok tt
  /\ gym_team_changes (committed Sample.after_third)
     = [mkTeamChange "F" None (Some 1) 606101].
Proof. vm_compute. done. Qed.

(** C2, amended.  On a run of the diff step, a facility of the current query
    result whose ChangeEvents are all absent from the table gets exactly one
    row with [old_team_id = NULL], whatever its current owner (also none);
    a facility whose most recent ChangeEvent in the table records an owner
    that is not NULL gets no row with [old_team_id = NULL]. *)
Theorem C2_first_observation_per_run (rt : Runtime) (geofenceId : string)
    (w : World) (s : Store) (f : string) (currentOwner : option Z) :
  fault_free rt ->
  working w = Some s ->
  NoDup (GymRow.id <$> gym s) ->
  (f, currentOwner) ∈ Collector.select_current rt geofenceId s ->
  exists w' appended,
    Collector.trackTeamChanges rt geofenceId w = (Ok tt, w')
    /\ gym_team_changes <$> working w' = Some (gym_team_changes s ++ appended)
    /\ ((forall c, c ∈ gym_team_changes s -> gym_id c <> f) ->
        events_of f appended
        = [mkTeamChange f None currentOwner (Date_now rt `div` 1000)])
    /\ (forall c, most_recent_change (gym_team_changes s) f c ->
        new_team_id c <> None ->
        forall e, e ∈ events_of f appended -> old_team_id e <> None).
Proof.
  intros Hff Hw Hnd Hin.
  destruct (trackTeamChanges_fault_free rt geofenceId w Hff) as [w' Hrun];
    [by eexists|].
  exists w', (tracked_changes rt geofenceId s).
  destruct (trackTeamChanges_run _ _ _ _ _ _ Hw Hrun) as (_ & _ & _ & Hok).
  destruct (Hok tt eq_refl) as [Hw' _].
  split; [done|]. split; [by rewrite Hw'|].
  rewrite (tracked_changes_of rt geofenceId s f currentOwner Hnd Hin).
  split.
  - intros Hno. by rewrite lastStateMap_unseen.
  - intros c Hc Hsome e. rewrite (lastStateMap_most_recent s f c Hc).
    destruct (decide (new_team_id c = currentOwner)); [by intros ?%elem_of_nil|].
    intros ->%list_elem_of_singleton. done.
Qed.

Lemma C2_first_observation_per_run_witness :
  exists w' appended,
    Collector.trackTeamChanges (Sample.runtime 1000) "fence"
      (mkWorld Sample.fresh (Some Sample.fresh) []) = (Ok tt, w')
    /\ gym_team_changes <$> working w'
       = Some (gym_team_changes Sample.fresh ++ appended)
    /\ ((forall c, c ∈ gym_team_changes Sample.fresh -> gym_id c <> "F") ->
        events_of "F" appended
        = [mkTeamChange "F" None (Some 1) (Date_now (Sample.runtime 1000) `div` 1000)])
    /\ (forall c, most_recent_change (gym_team_changes Sample.fresh) "F" c ->
        new_team_id c <> None ->
        forall e, e ∈ events_of "F" appended -> old_team_id e <> None).
Proof.
  apply (C2_first_observation_per_run (Sample.runtime 1000) "fence"
           (mkWorld Sample.fresh (Some Sample.fresh) []) Sample.fresh
           "F" (Some 1)).
  - intros st. reflexivity.
  - reflexivity.
  - vm_compute. apply NoDup_singleton.
  - vm_compute. left.
Defined.

(** * Retention *)

Lemma tracked_changes_insert_history (rt : Runtime) (geofenceId : string)
    (h : HistorySample) (s : Store) :
  tracked_changes rt geofenceId (Collector.insert_history h s)
  = tracked_changes rt geofenceId s.
Proof. reflexivity. Qed.

Lemma collected_history (rt : Runtime) (geofenceId : string) (retention : Z)
    (s : Store) (h : HistorySample) :
  h ∈ gym_history (collected rt geofenceId (Some retention) s)
  <-> (h ∈ gym_history s \/ h = collected_sample rt geofenceId s)
      /\ UNIX_TIMESTAMP rt CollectorSweepHistory - retention <= timestamp h.
Proof.
  unfold collected, Collector.sweep_changes, Collector.sweep_history,
    Collector.sweep_cutoff. cbn.
  rewrite elem_of_List_filter, elem_of_app, list_elem_of_singleton.
  rewrite negb_true_iff, Z.ltb_ge. done.
Qed.

Lemma collected_changes (rt : Runtime) (geofenceId : string) (retention : Z)
    (s : Store) (c : TeamChange) :
  c ∈ gym_team_changes (collected rt geofenceId (Some retention) s)
  <-> (c ∈ gym_team_changes s \/ c ∈ tracked_changes rt geofenceId s)
      /\ UNIX_TIMESTAMP rt CollectorSweepChanges - retention <= changed_at c.
Proof.
  unfold collected, Collector.sweep_changes, Collector.sweep_history,
    Collector.sweep_cutoff. cbn.
  rewrite elem_of_List_filter, elem_of_app.
  rewrite negb_true_iff, Z.ltb_ge. done.
Qed.

(** Half a day of retention is 43200 seconds; without a setting the
    retention is seven days. *)
Example retention_of_settings :
  Collector.retentionSeconds (Sample.runtime 0) Sample.half_day = Some 43200
  /\ Collector.retentionSeconds (Sample.runtime 0) Sample.env = Some 604800.
Proof. split; vm_compute; reflexivity. Qed.

(** C8.  After a successful run of [collectGymHistory] whose retention is a
    number of seconds (any setting, fractions of a day included, for which
    [Math.max(Math.floor(days * 24 * 60 * 60), 1)] is neither NaN nor
    Infinity), [gym_history] holds exactly the rows that were there before or
    were appended by this run and whose [timestamp] is not below
    [now - retentionSeconds], and [gym_team_changes] holds exactly the rows
    that were there before or were appended by this run and whose [changed_at]
    is not below [now - retentionSeconds]; [now] is the database clock of the
    respective DELETE. *)
Theorem C8_retention_sweep (rt : Runtime) (env : Env) (w : World) (retention : Z) :
  working w = None ->
  Collector.retentionSeconds rt env = Some retention ->
  (Collector.collectGymHistory rt env w).1 = Ok tt ->
  let before := committed w in
  let after := committed (Collector.collectGymHistory rt env w).2 in
  exists geofenceId,
    env "GEOFENCE_ID" = Some geofenceId
    /\ (forall h,
          h ∈ gym_history after
          <-> (h ∈ gym_history before \/ h = collected_sample rt geofenceId before)
              /\ UNIX_TIMESTAMP rt CollectorSweepHistory - retention <= timestamp h)
    /\ (forall c,
          c ∈ gym_team_changes after
          <-> (c ∈ gym_team_changes before
               \/ c ∈ tracked_changes rt geofenceId before)
              /\ UNIX_TIMESTAMP rt CollectorSweepChanges - retention <= changed_at c).
Proof.
  intros Hw Hret Hok. cbn zeta.
  destruct (Collector.collectGymHistory rt env w) as [r w'] eqn:Erun.
  cbn [fst snd] in Hok |- *. subst r.
  destruct (collectGymHistory_run rt env w _ w' Hw Erun)
    as [_ [[_ [e ?]]|(geofenceId & Hg & Hc & _)]]; [done|].
  exists geofenceId. split; [done|]. rewrite Hc, Hret. split.
  - intros h. apply collected_history.
  - intros c. apply collected_changes.
Qed.

Lemma C8_retention_sweep_witness :
  let rt := Sample.runtime 605801 in
  let before := committed Sample.after_first in
  let after :=
    committed (Collector.collectGymHistory rt Sample.half_day Sample.after_first).2 in
  exists geofenceId,
    Sample.half_day "GEOFENCE_ID" = Some geofenceId
    /\ (forall h,
          h ∈ gym_history after
          <-> (h ∈ gym_history before \/ h = collected_sample rt geofenceId before)
              /\ UNIX_TIMESTAMP rt CollectorSweepHistory - 43200 <= timestamp h)
    /\ (forall c,
          c ∈ gym_team_changes after
          <-> (c ∈ gym_team_changes before
               \/ c ∈ tracked_changes rt geofenceId before)
              /\ UNIX_TIMESTAMP rt CollectorSweepChanges - 43200 <= changed_at c).
Proof.
  apply (C8_retention_sweep (Sample.runtime 605801) Sample.half_day
           Sample.after_first 43200).
  - vm_compute. reflexivity.
  - vm_compute. reflexivity.
  - vm_compute. reflexivity.
Defined.

Lemma C3_all_or_nothing_witness :
  let rt := Sample.failing (CollectorInsertChange 0) 2000 in
  let w := Sample.idle Sample.flipped in
  let run := Collector.collectGymHistory rt Sample.env w in
  let exit_code := (Collector.main rt Sample.env w).1 in
  let all_written :=
    exists geofenceId,
      Sample.env "GEOFENCE_ID" = Some geofenceId
      /\ committed run.2
         = collected rt geofenceId (Collector.retentionSeconds rt Sample.env)
             (committed w) in
  working run.2 = None
  /\ (committed run.2 = committed w \/ all_written)
  /\ (forall geofenceId st,
       Sample.env "GEOFENCE_ID" = Some geofenceId ->
       st ∈ collector_steps rt geofenceId (committed w) ->
       faulty rt st = true ->
       (exists e, run.1 = Throw e) /\ committed run.2 = committed w /\ exit_code = 1)
  /\ (forall e, run.1 = Throw e ->
       exit_code = 1 /\ (faulty rt PoolEnd = false -> committed run.2 = committed w))
  /\ (run.1 = Ok tt -> exit_code = 0 /\ all_written).
Proof.
  apply (C3_all_or_nothing (Sample.failing (CollectorInsertChange 0) 2000)
           Sample.env (Sample.idle Sample.flipped)).
  vm_compute. reflexivity.
Defined.

(** In that run the INSERT of the ChangeEvent is a step and it fails: the
    sample appended before it is not committed. *)
Example failed_insert_rolls_back :
  let rt := Sample.failing (CollectorInsertChange 0) 2000 in
  let run := Collector.collectGymHistory rt Sample.env (Sample.idle Sample.flipped) in
  CollectorInsertChange 0 ∈ collector_steps rt "golbat" Sample.flipped
  /\ run.1 = Throw (StoreError (CollectorInsertChange 0))
  /\ committed run.2 = Sample.flipped
  /\ (Collector.main rt Sample.env (Sample.idle Sample.flipped)).1 = 1.
Proof. vm_compute. split; [|done]. do 6 right. left. Qed.

Example commit_failure_leaves_store :
  let run := Collector.collectGymHistory (Sample.failing Commit 605801)
               Sample.env Sample.after_first in
  run.1 = Throw (StoreError Commit)
  /\ committed run.2 = committed Sample.after_first.
Proof. vm_compute. done. Qed.

(** * The live snapshot *)

Lemma snapshot_defenders_total (rt : Runtime) (gymRow : GymRow.t) (w : World) :
  exists v w', GymData.snapshot_defenders rt gymRow w = (Ok v, w')
               /\ committed w' = committed w /\ working w' = working w.
Proof.
  unfold GymData.snapshot_defenders.
  destruct (GymRow.defenders gymRow) as [text|]; [|by eexists _, _].
  destruct (decide (text = "")); [by eexists _, _|].
  destruct (JSON_parse rt text); by eexists _, _.
Qed.

Lemma snapshot_push_consistent (g : Gym.t) (result : GymApiResult.t) :
  snapshot_consistent result -> snapshot_consistent (GymData.snapshot_push g result).
Proof.
  intros (Hm & Hv & Hi & Fm & Fv & Fi). unfold GymData.snapshot_push.
  repeat case_decide; [| | |done];
    (repeat split; cbn;
     rewrite ?length_app, ?Nat2Z.inj_add; cbn; try lia; try done;
     intros g' [Hg'|Hg']%elem_of_app; auto;
     apply list_elem_of_singleton in Hg'; by subst).
Qed.

Lemma snapshot_loop_total (rt : Runtime) (gymRows : list GymRow.t) :
  forall result w,
  exists result' w',
    GymData.snapshot_loop rt gymRows result w = (Ok result', w')
    /\ committed w' = committed w /\ working w' = working w
    /\ (snapshot_consistent result -> snapshot_consistent result').
Proof.
  induction gymRows as [|gymRow rest IH]; intros result w; [by eexists _, _|].
  cbn [GymData.snapshot_loop]. unfold bind.
  destruct (snapshot_defenders_total rt gymRow w) as (v & w1 & -> & Hc & Hw).
  match goal with
  | |- context [GymData.snapshot_loop rt rest ?res w1] =>
      destruct (IH res w1) as (result' & w' & -> & Hc' & Hw' & Hinv)
  end.
  exists result', w'. split; [done|]. split; [congruence|]. split; [congruence|].
  intros H. by apply Hinv, snapshot_push_consistent.
Qed.

Lemma DEFAULT_GYM_RESULT_consistent : snapshot_consistent GymData.DEFAULT_GYM_RESULT.
Proof. repeat split; try done; intros g Hg; inversion Hg. Qed.

Lemma fetchGymSnapshot_total (rt : Runtime) (env : Env) (w : World) :
  exists result w',
    GymData.fetchGymSnapshot rt env w = (Ok result, w')
    /\ committed w' = committed w
    /\ snapshot_consistent result
    /\ (faulty rt SnapshotSelect = true \/ ~ configured env ->
        result = GymData.DEFAULT_GYM_RESULT).
Proof.
  unfold GymData.fetchGymSnapshot.
  destruct (GymData.ensureIdentifier (env "GEOFENCE_ID") "GEOFENCE_ID")
    as [geofenceId|e1] eqn:E1;
  [destruct (GymData.ensureIdentifier (env "DB_NAME") "DB_NAME")
     as [dbName|e2] eqn:E2;
   [destruct (GymData.ensureIdentifier (env "GEOFENCE_DB_NAME") "GEOFENCE_DB_NAME")
      as [geofenceDbName|e3] eqn:E3|]|];
  try (eexists _, _; split; [reflexivity|]; split; [done|];
       split; [apply DEFAULT_GYM_RESULT_consistent|done]).
  unfold try_catch, bind at 1, pool_execute.
  destruct (faulty rt SnapshotSelect) eqn:F.
  - eexists _, _. split; [reflexivity|]. split; [done|].
    split; [apply DEFAULT_GYM_RESULT_consistent|done].
  - match goal with
    | |- context [GymData.snapshot_loop rt ?rows ?res w] =>
        destruct (snapshot_loop_total rt rows res w)
          as (result' & w' & -> & Hc & _ & Hinv)
    end.
    exists result', w'. split; [done|]. split; [done|]. split.
    + apply Hinv. repeat split; try done; intros g Hg; inversion Hg.
    + intros [?|Hcfg]; [done|]. exfalso. apply Hcfg. by eexists _, _, _.
Qed.

(** C10.  Whatever [fetchGymSnapshot] returns, in any runtime: each count
    is the length of its array, and every gym of [mystic], [valor] and
    [instinct] has [team_id] 1, 2 and 3 respectively; a gym with any other
    [team_id] is in no array and in no count. *)
Theorem C10_snapshot_counts (rt : Runtime) (env : Env) (w : World) :
  exists result w',
    GymData.fetchGymSnapshot rt env w = (Ok result, w')
    /\ Counts.mystic (GymApiResult.counts result)
       = Z.of_nat (length (GymApiResult.mystic result))
    /\ Counts.valor (GymApiResult.counts result)
       = Z.of_nat (length (GymApiResult.valor result))
    /\ Counts.instinct (GymApiResult.counts result)
       = Z.of_nat (length (GymApiResult.instinct result))
    /\ (forall g, g ∈ GymApiResult.mystic result -> Gym.team_id g = Some 1)
    /\ (forall g, g ∈ GymApiResult.valor result -> Gym.team_id g = Some 2)
    /\ (forall g, g ∈ GymApiResult.instinct result -> Gym.team_id g = Some 3).
Proof.
  destruct (fetchGymSnapshot_total rt env w) as (result & w' & Hrun & _ & Hinv & _).
  exists result, w'. split; [done|]. exact Hinv.
Qed.

(** * Reads through the pool *)

Lemma bind_pool_execute_ok {A B} (rt : Runtime) (st : Stmt) (q : Store -> A)
    (k : A -> M B) (w : World) :
  faulty rt st = false -> bind (pool_execute rt st q) k w = k (q (committed w)) w.
Proof. intros F. unfold bind, pool_execute. by rewrite F. Qed.

Lemma bind_pool_execute_fail {A B} (rt : Runtime) (st : Stmt) (q : Store -> A)
    (k : A -> M B) (w : World) :
  faulty rt st = true -> bind (pool_execute rt st q) k w = (Throw (StoreError st), w).
Proof. intros F. unfold bind, pool_execute. by rewrite F. Qed.

Lemma bind_ret {A B} (a : A) (k : A -> M B) (w : World) : bind (ret a) k w = k a w.
Proof. done. Qed.

(** * The history response *)

(** The response of a call in which nothing fails. *)
Lemma fetchGymHistory_fault_free (rt : Runtime) (env : Env) (period : string)
    (w : World) (dbName geofenceDbName geofenceId : string) :
  GymData.ensureIdentifier (env "DB_NAME") "DB_NAME" = Ok dbName ->
  GymData.ensureIdentifier (env "GEOFENCE_DB_NAME") "GEOFENCE_DB_NAME"
    = Ok geofenceDbName ->
  GymData.ensureIdentifier (env "GEOFENCE_ID") "GEOFENCE_ID" = Ok geofenceId ->
  fault_free rt ->
  let key := GymData.resolve_key period in
  let duration := PeriodConfig.duration (GymData.PERIOD_CONFIG key) in
  let bucket := PeriodConfig.bucket (GymData.PERIOD_CONFIG key) in
  let latest := head (GymData.select_latest_sample (committed w)) in
  let contestedRows := GymData.select_contested rt duration geofenceId (committed w) in
  let gymIds := ContestedRow.gym_id <$> contestedRows in
  let recentChangeMap :=
    if (0 <? length gymIds)%nat
    then GymData.mapRecentChanges (GymData.select_recent gymIds (committed w))
    else ∅ in
  GymData.fetchGymHistory rt env period w
  = (Ok (GymHistoryResponse.mk (GymData.period_name key)
           (GymData.buildChartData
              (GymData.select_history_buckets rt duration bucket (committed w)))
           (GymData.contested_gym recentChangeMap <$> contestedRows)
           (GymData.current_counts latest)
           (GymData.last_updated latest)), w).
Proof.
  intros E1 E2 E3 Hff. cbn zeta. unfold GymData.fetchGymHistory.
  rewrite E1, E2, E3. unfold try_catch.
  rewrite !bind_pool_execute_ok by apply Hff.
  destruct (0 <? _)%nat.
  - unfold bind at 1. rewrite bind_pool_execute_ok by apply Hff. reflexivity.
  - reflexivity.
Qed.

Lemma fetchGymHistory_total (rt : Runtime) (env : Env) (period : string) (w : World) :
  exists response w',
    GymData.fetchGymHistory rt env period w = (Ok response, w')
    /\ committed w' = committed w
    /\ (faulty rt HistoryBuckets = true \/ faulty rt HistoryLatest = true
        \/ faulty rt HistoryContested = true \/ ~ configured env ->
        response = GymData.empty_history (GymData.resolve_key period))
    /\ (forall geofenceId,
          GymData.ensureIdentifier (env "GEOFENCE_ID") "GEOFENCE_ID" = Ok geofenceId ->
          faulty rt HistoryRecent = true ->
          GymData.select_contested rt
            (PeriodConfig.duration (GymData.PERIOD_CONFIG (GymData.resolve_key period)))
            geofenceId (committed w) <> [] ->
          response = GymData.empty_history (GymData.resolve_key period)).
Proof.
  unfold GymData.fetchGymHistory.
  destruct (GymData.ensureIdentifier (env "DB_NAME") "DB_NAME")
    as [dbName|e1] eqn:E1;
  [destruct (GymData.ensureIdentifier (env "GEOFENCE_DB_NAME") "GEOFENCE_DB_NAME")
     as [geofenceDbName|e2] eqn:E2;
   [destruct (GymData.ensureIdentifier (env "GEOFENCE_ID") "GEOFENCE_ID")
      as [geofenceId|e3] eqn:E3|]|];
  try (eexists _, _; split; [reflexivity|]; split; [done|]; split; done).
  unfold try_catch.
  destruct (faulty rt HistoryBuckets) eqn:F1;
    [rewrite bind_pool_execute_fail by done;
     eexists _, _; split; [reflexivity|]; split; [done|]; split; done|].
  rewrite bind_pool_execute_ok by done.
  destruct (faulty rt HistoryLatest) eqn:F2;
    [rewrite bind_pool_execute_fail by done;
     eexists _, _; split; [reflexivity|]; split; [done|]; split; done|].
  rewrite bind_pool_execute_ok by done.
  destruct (faulty rt HistoryContested) eqn:F3;
    [rewrite bind_pool_execute_fail by done;
     eexists _, _; split; [reflexivity|]; split; [done|]; split; done|].
  rewrite bind_pool_execute_ok by done.
  assert (Hcfg : configured env) by (by eexists _, _, _).
  destruct (0 <? _)%nat eqn:Hlen.
  - unfold bind at 1. destruct (faulty rt HistoryRecent) eqn:F4.
    + rewrite bind_pool_execute_fail by done.
      eexists _, _; split; [reflexivity|]; split; [done|]; split; done.
    + rewrite bind_pool_execute_ok by done.
      eexists _, _; split; [reflexivity|]; split; [done|]. split.
      * intros [?|[?|[?|?]]]; done.
      * intros g _ ? _. done.
  - eexists _, _; split; [reflexivity|]; split; [done|]. split.
    + intros [?|[?|[?|?]]]; done.
    + intros g [= <-] _ Hne. exfalso.
      apply Nat.ltb_ge in Hlen. rewrite length_fmap in Hlen.
      destruct (GymData.select_contested _ _ _ _); [done|]. simpl in Hlen. lia.
Qed.

(** * The defender statistics *)

Lemma fetchDefenderStats_total (rt : Runtime) (env : Env) (w : World) :
  exists stats w',
    GymData.fetchDefenderStats rt env w = (Ok stats, w')
    /\ (faulty rt StatsSelect = true \/ ~ configured env ->
        stats = GymData.DEFAULT_STATS rt).
Proof.
  unfold GymData.fetchDefenderStats.
  destruct (GymData.ensureIdentifier (env "GEOFENCE_ID") "GEOFENCE_ID")
    as [geofenceId|e1] eqn:E1;
  [destruct (GymData.ensureIdentifier (env "GEOFENCE_DB_NAME") "GEOFENCE_DB_NAME")
     as [geofenceDbName|e2] eqn:E2;
   [destruct (GymData.ensureIdentifier (env "DB_NAME") "DB_NAME")
      as [dbName|e3] eqn:E3|]|];
  try (eexists _, _; split; [reflexivity|]; done).
  unfold try_catch, bind at 1, pool_execute.
  destruct (faulty rt StatsSelect) eqn:F; [eexists _, _; split; [reflexivity|]; done|].
  unfold bind.
  destruct (GymData.stats_loop rt _ _ w) as [[teamStats|e] w1];
    (eexists _, _; split; [reflexivity|]).
  - intros [?|Hcfg]; [done|]. exfalso. apply Hcfg. by eexists _, _, _.
  - intros [?|Hcfg]; [done|]. exfalso. apply Hcfg. by eexists _, _, _.
Qed.

(** C7.  None of the three read operations throws, in any runtime, for any
    configuration and any store.  When a read of [fetchGymHistory] fails (the
    bucket query, the latest-sample query, the contested query, or the
    recent-changes query when it is issued) the response is
    [{period, chartData: [], contestedGyms: [], currentCounts: all zero,
      lastUpdated: epoch}]; when the read of [fetchGymSnapshot] fails the
    result is the empty snapshot with zero counts; when the read of
    [fetchDefenderStats] fails the result is the empty statistics. *)
Theorem C7_empty_on_failure (rt : Runtime) (env : Env) (w : World) :
  (forall period,
     exists response w',
       GymData.fetchGymHistory rt env period w = (Ok response, w')
       /\ (faulty rt HistoryBuckets = true \/ faulty rt HistoryLatest = true
           \/ faulty rt HistoryContested = true ->
           response
           = GymHistoryResponse.mk
               (GymData.period_name (GymData.resolve_key period)) [] []
               (CurrentCounts.mk 0 0 0 0) 0)
       /\ (forall geofenceId,
             GymData.ensureIdentifier (env "GEOFENCE_ID") "GEOFENCE_ID"
               = Ok geofenceId ->
             faulty rt HistoryRecent = true ->
             GymData.select_contested rt
               (PeriodConfig.duration
                  (GymData.PERIOD_CONFIG (GymData.resolve_key period)))
               geofenceId (committed w) <> [] ->
             response
             = GymHistoryResponse.mk
                 (GymData.period_name (GymData.resolve_key period)) [] []
                 (CurrentCounts.mk 0 0 0 0) 0))
  /\ (exists result w',
        GymData.fetchGymSnapshot rt env w = (Ok result, w')
        /\ (faulty rt SnapshotSelect = true ->
            result = GymApiResult.mk [] [] [] (Counts.mk 0 0 0)))
  /\ (exists stats w',
        GymData.fetchDefenderStats rt env w = (Ok stats, w')
        /\ (faulty rt StatsSelect = true ->
            stats = StatsData.mk [] 0 (module_loaded_at rt))).
Proof.
  split; [|split].
  - intros period.
    destruct (fetchGymHistory_total rt env period w)
      as (response & w' & Hrun & _ & H1 & H2).
    exists response, w'. split; [done|]. split; [|exact H2].
    intros H. apply H1. tauto.
  - destruct (fetchGymSnapshot_total rt env w) as (result & w' & Hrun & _ & _ & H).
    exists result, w'. split; [done|]. intros F. apply H. by left.
  - destruct (fetchDefenderStats_total rt env w) as (stats & w' & Hrun & H).
    exists stats, w'. split; [done|]. intros F. apply H. by left.
Qed.

(** * Rounding *)

Lemma Math_round_fraction (a n : Z) :
  0 < n -> Math_round (Qdiv (inject_Z a) (inject_Z n)) = (2 * a + n) `div` (2 * n).
Proof.
  intros Hn. destruct n as [|p|p]; [lia| |lia].
  unfold Math_round, Qdiv, Qinv, Qmult, Qplus, inject_Z, Qfloor. cbn.
  f_equal; lia.
Qed.

Lemma Math_round_integer (z : Z) : Math_round (inject_Z z) = z.
Proof.
  unfold Math_round, Qplus, inject_Z, Qfloor. cbn.
  symmetry. apply Z.div_unique with (r := 1); lia.
Qed.

(** * The latest sample *)

Global Instance timestamp_desc_total : Total GymData.timestamp_desc.
Proof. intros a b. unfold GymData.timestamp_desc. lia. Qed.

Global Instance timestamp_desc_trans : Transitive GymData.timestamp_desc.
Proof. intros a b c. unfold GymData.timestamp_desc. lia. Qed.

Lemma select_latest_sample_empty (s : Store) :
  gym_history s = [] -> head (GymData.select_latest_sample s) = None.
Proof. intros E. unfold GymData.select_latest_sample. by rewrite E. Qed.

Lemma select_latest_sample_latest (s : Store) :
  gym_history s <> [] ->
  exists latest,
    head (GymData.select_latest_sample s) = Some latest
    /\ latest ∈ gym_history s
    /\ forall h, h ∈ gym_history s -> timestamp h <= timestamp latest.
Proof.
  intros Hne. unfold GymData.select_latest_sample.
  pose proof (merge_sort_Permutation GymData.timestamp_desc (gym_history s)) as Hperm.
  pose proof (StronglySorted_merge_sort GymData.timestamp_desc (gym_history s)) as Hsorted.
  destruct (merge_sort GymData.timestamp_desc (gym_history s)) as [|x t].
  - symmetry in Hperm. apply Permutation_nil_r in Hperm. done.
  - exists x. split; [done|]. split.
    + rewrite <- Hperm. left.
    + intros h Hh. rewrite <- Hperm in Hh.
      apply StronglySorted_inv in Hsorted as [_ Hall].
      apply elem_of_cons in Hh as [->|Hh]; [lia|].
      rewrite Forall_forall in Hall. by apply Hall.
Qed.

(** C5.  [currentCounts] and [lastUpdated] of a history response that no
    failure cut short do not depend on the requested period.  On an empty
    [gym_history] they are all zero and the epoch; otherwise they come from
    one row [latest] of the whole table whose [timestamp] is the greatest:
    the three faction counts as recorded, the total
    [max(total_gyms, mystic + valor + instinct)], and
    [lastUpdated = timestamp * 1000]. *)
Theorem C5_current_counts (rt : Runtime) (env : Env) (w : World)
    (period1 period2 : string) :
  fault_free rt ->
  configured env ->
  exists r1 r2 w1 w2,
    GymData.fetchGymHistory rt env period1 w = (Ok r1, w1)
    /\ GymData.fetchGymHistory rt env period2 w = (Ok r2, w2)
    /\ GymHistoryResponse.currentCounts r1 = GymHistoryResponse.currentCounts r2
    /\ GymHistoryResponse.lastUpdated r1 = GymHistoryResponse.lastUpdated r2
    /\ match gym_history (committed w) with
       | [] =>
           GymHistoryResponse.currentCounts r1 = CurrentCounts.mk 0 0 0 0
           /\ GymHistoryResponse.lastUpdated r1 = 0
       | _ :: _ =>
           exists latest,
             latest ∈ gym_history (committed w)
             /\ (forall h, h ∈ gym_history (committed w) ->
                           timestamp h <= timestamp latest)
             /\ GymHistoryResponse.currentCounts r1
                = CurrentCounts.mk (team_mystic latest) (team_valor latest)
                    (team_instinct latest)
                    (Z.max (total_gyms latest)
                       (team_mystic latest + team_valor latest + team_instinct latest))
             /\ GymHistoryResponse.lastUpdated r1 = timestamp latest * 1000
       end.
Proof.
  intros Hff (dbName & geofenceDbName & geofenceId & E1 & E2 & E3).
  eexists _, _, _, _.
  split; [by apply (fetchGymHistory_fault_free rt env period1 w _ _ _ E1 E2 E3)|].
  split; [by apply (fetchGymHistory_fault_free rt env period2 w _ _ _ E1 E2 E3)|].
  cbn [GymHistoryResponse.currentCounts GymHistoryResponse.lastUpdated].
  split; [done|]. split; [done|].
  destruct (gym_history (committed w)) as [|h0 t] eqn:Eh.
  - by rewrite select_latest_sample_empty.
  - destruct (select_latest_sample_latest (committed w)) as (latest & -> & Hin & Hmax);
      [by rewrite Eh|].
    rewrite Eh in Hin, Hmax. exists latest. split; [done|]. split; [done|].
    cbn [GymData.current_counts GymData.last_updated].
    by rewrite !Math_round_integer.
Qed.

Lemma C5_current_counts_witness :
  exists r1 r2 w1 w2,
    GymData.fetchGymHistory (Sample.runtime 2000) Sample.env "6h"
      (Sample.idle Sample.flipped) = (Ok r1, w1)
    /\ GymData.fetchGymHistory (Sample.runtime 2000) Sample.env "7d"
         (Sample.idle Sample.flipped) = (Ok r2, w2)
    /\ GymHistoryResponse.currentCounts r1 = GymHistoryResponse.currentCounts r2
    /\ GymHistoryResponse.lastUpdated r1 = GymHistoryResponse.lastUpdated r2
    /\ match gym_history (committed (Sample.idle Sample.flipped)) with
       | [] =>
           GymHistoryResponse.currentCounts r1 = CurrentCounts.mk 0 0 0 0
           /\ GymHistoryResponse.lastUpdated r1 = 0
       | _ :: _ =>
           exists latest,
             latest ∈ gym_history (committed (Sample.idle Sample.flipped))
             /\ (forall h, h ∈ gym_history (committed (Sample.idle Sample.flipped)) ->
                           timestamp h <= timestamp latest)
             /\ GymHistoryResponse.currentCounts r1
                = CurrentCounts.mk (team_mystic latest) (team_valor latest)
                    (team_instinct latest)
                    (Z.max (total_gyms latest)
                       (team_mystic latest + team_valor latest + team_instinct latest))
             /\ GymHistoryResponse.lastUpdated r1 = timestamp latest * 1000
       end.
Proof.
  apply (C5_current_counts (Sample.runtime 2000) Sample.env
           (Sample.idle Sample.flipped) "6h" "7d").
  - intros st. reflexivity.
  - exists "golbat", "golbat", "golbat". vm_compute. done.
Defined.

(** * The bucketed series *)

Lemma rounded_average_of_group (values : list Z) :
  values <> [] ->
  is_rounded_average values (Math_round (default 0%Q (sql_avg values))).
Proof.
  intros Hne. unfold sql_avg. destruct values as [|x l]; [done|].
  cbn [default]. set (vs := x :: l).
  assert (Hn : 0 < Z.of_nat (length vs)) by (cbn; lia).
  unfold id. rewrite Math_round_fraction by done. unfold is_rounded_average. cbn zeta.
  set (n := Z.of_nat (length vs)) in *. set (sum := foldr Z.add 0 vs).
  pose proof (Z.div_mod (2 * sum + n) (2 * n)) as Hdm.
  pose proof (Z.mod_pos_bound (2 * sum + n) (2 * n)) as Hb.
  nia.
Qed.

Global Instance bucket_asc_total : Total GymData.bucket_asc.
Proof. intros a b. unfold GymData.bucket_asc. lia. Qed.

Global Instance bucket_asc_trans : Transitive GymData.bucket_asc.
Proof. intros a b c. unfold GymData.bucket_asc. lia. Qed.

Lemma StronglySorted_strict {A} (key : A -> Z) (l : list A) :
  StronglySorted (fun a b => key a <= key b) l ->
  NoDup (key <$> l) ->
  StronglySorted (fun a b => key a < key b) l.
Proof.
  induction 1 as [|x l Hs IH Hall]; [constructor|].
  rewrite fmap_cons, NoDup_cons. intros [Hx Hnd]. constructor; [by apply IH|].
  rewrite Forall_forall in Hall |- *. intros y Hy.
  assert (key x <> key y).
  { intros Heq. apply Hx. rewrite Heq. apply list_elem_of_fmap. by exists y. }
  specialize (Hall y Hy). lia.
Qed.

Section Buckets.
Context (rt : Runtime) (duration bucket : Z) (s : Store).
Let cutoff := UNIX_TIMESTAMP rt HistoryBuckets - duration.
Let selected := List.filter (fun h => cutoff <=? timestamp h) (gym_history s).
Let rows := GymData.select_history_buckets rt duration bucket s.

Lemma history_rows_Permutation :
  rows ≡ₚ bucket_row <$> sql_group_by (bucket_of bucket) selected.
Proof. apply merge_sort_Permutation. Qed.

Lemma history_rows_buckets :
  HistoryRow.bucket <$> rows ≡ₚ remove_dups (bucket_of bucket <$> selected).
Proof.
  rewrite history_rows_Permutation, <- list_fmap_compose.
  rewrite <- sql_group_by_keys. done.
Qed.

Lemma history_rows_sorted :
  StronglySorted (fun a b => HistoryRow.bucket a < HistoryRow.bucket b) rows.
Proof.
  apply StronglySorted_strict.
  - apply (StronglySorted_merge_sort GymData.bucket_asc).
  - rewrite history_rows_buckets. apply NoDup_remove_dups.
Qed.

Lemma elem_of_history_rows (row : HistoryRow.t) :
  row ∈ rows <->
  bucket_samples cutoff bucket (HistoryRow.bucket row) (gym_history s) <> []
  /\ row = bucket_row (HistoryRow.bucket row,
                       bucket_samples cutoff bucket (HistoryRow.bucket row)
                         (gym_history s)).
Proof.
  rewrite history_rows_Permutation, list_elem_of_fmap. split.
  - intros ([k grp] & -> & Hin). apply elem_of_sql_group_by in Hin as [Hk ->].
    cbn. split; [|done].
    apply list_elem_of_fmap in Hk as (h & -> & Hh).
    intros Hnil. unfold bucket_samples in Hnil. fold selected in Hnil.
    assert (Hin : h ∈ List.filter
              (fun h' => bool_decide (bucket_of bucket h' = bucket_of bucket h))
              selected).
    { apply elem_of_List_filter. split; [done|]. by apply bool_decide_eq_true. }
    rewrite Hnil in Hin. inversion Hin.
  - intros [Hne Hrow].
    exists (HistoryRow.bucket row,
            bucket_samples cutoff bucket (HistoryRow.bucket row) (gym_history s)).
    split; [done|]. apply elem_of_sql_group_by. split; [|done].
    unfold bucket_samples in Hne. fold selected in Hne.
    destruct (List.filter _ selected) as [|h t] eqn:E; [done|].
    assert (Hh : h ∈ h :: t) by left. rewrite <- E in Hh.
    apply elem_of_List_filter in Hh as [Hh Hb]. apply bool_decide_eq_true in Hb.
    apply list_elem_of_fmap. by exists h.
Qed.
End Buckets.

Lemma fmap_not_nil {A B} (f : A -> B) (l : list A) : l <> [] -> f <$> l <> [].
Proof. by destruct l. Qed.

(** C4.  The [chartData] of a history response that no failure cut short:
    - the points are in strictly ascending order of [time], hence one per
      bucket;
    - there is a point with [time = b * 1000] exactly when some sample with
      [timestamp >= now - duration] has bucket
      [floor(timestamp / bucket) * bucket = b];
    - the faction values of the point are the averages over those samples
      rounded to the nearest integer, and its total is the maximum of the
      rounded average of [total_gyms] and the sum of the three faction
      values. *)
Theorem C4_chart_data (rt : Runtime) (env : Env) (period : string) (w : World) :
  fault_free rt ->
  configured env ->
  let key := GymData.resolve_key period in
  let duration := PeriodConfig.duration (GymData.PERIOD_CONFIG key) in
  let bucket := PeriodConfig.bucket (GymData.PERIOD_CONFIG key) in
  let cutoff := UNIX_TIMESTAMP rt HistoryBuckets - duration in
  let samples_of b := bucket_samples cutoff bucket b (gym_history (committed w)) in
  exists response w',
    GymData.fetchGymHistory rt env period w = (Ok response, w')
    /\ StronglySorted
         (fun p q => ChartDataPoint.time p < ChartDataPoint.time q)
         (GymHistoryResponse.chartData response)
    /\ (forall b,
          (exists p, p ∈ GymHistoryResponse.chartData response
                     /\ ChartDataPoint.time p = b * 1000)
          <-> samples_of b <> [])
    /\ (forall p,
          p ∈ GymHistoryResponse.chartData response ->
          exists b recordedTotal,
            ChartDataPoint.time p = b * 1000
            /\ samples_of b <> []
            /\ is_rounded_average (team_mystic <$> samples_of b)
                 (ChartDataPoint.mystic p)
            /\ is_rounded_average (team_valor <$> samples_of b)
                 (ChartDataPoint.valor p)
            /\ is_rounded_average (team_instinct <$> samples_of b)
                 (ChartDataPoint.instinct p)
            /\ is_rounded_average (total_gyms <$> samples_of b) recordedTotal
            /\ ChartDataPoint.total p
               = Z.max recordedTotal
                   (ChartDataPoint.mystic p + ChartDataPoint.valor p
                    + ChartDataPoint.instinct p)).
Proof.
  intros Hff (dbName & geofenceDbName & geofenceId & E1 & E2 & E3). cbn zeta.
  eexists _, _.
  split; [by apply (fetchGymHistory_fault_free rt env period w _ _ _ E1 E2 E3)|].
  cbn [GymHistoryResponse.chartData]. unfold GymData.buildChartData.
  set (duration := PeriodConfig.duration _). set (bucket := PeriodConfig.bucket _).
  split; [|split].
  - eapply StronglySorted_fmap; [|apply history_rows_sorted].
    intros a b Hab. cbn in Hab |- *. lia.
  - intros b. split.
    + intros (p & Hp & Ht). apply list_elem_of_fmap in Hp as (row & -> & Hrow).
      cbn in Ht. assert (HistoryRow.bucket row = b) as <- by lia.
      by apply elem_of_history_rows in Hrow as [Hne _].
    + intros Hne. eexists. split.
      * apply list_elem_of_fmap. eexists. split; [reflexivity|].
        apply (elem_of_history_rows rt duration bucket (committed w)
                 (bucket_row (b, bucket_samples
                    (UNIX_TIMESTAMP rt HistoryBuckets - duration) bucket b
                    (gym_history (committed w))))).
        split; done.
      * done.
  - intros p Hp. apply list_elem_of_fmap in Hp as (row & -> & Hrow).
    apply elem_of_history_rows in Hrow as [Hne Hrow].
    pose proof (f_equal HistoryRow.mystic Hrow) as Hm.
    pose proof (f_equal HistoryRow.valor Hrow) as Hv.
    pose proof (f_equal HistoryRow.instinct Hrow) as Hi.
    pose proof (f_equal HistoryRow.total Hrow) as Ht.
    cbn in Hm, Hv, Hi, Ht.
    eexists (HistoryRow.bucket row), _. split; [done|]. split; [done|].
    cbn [ChartDataPoint.mystic ChartDataPoint.valor ChartDataPoint.instinct
         ChartDataPoint.total].
    rewrite Hm, Hv, Hi, Ht.
    repeat split; try (apply rounded_average_of_group, fmap_not_nil, Hne).
Qed.

(** * The contested ranking *)

Global Instance contested_order_total : Total GymData.contested_order.
Proof. intros a b. unfold GymData.contested_order. lia. Qed.

Global Instance contested_order_trans : Transitive GymData.contested_order.
Proof. intros a b c. unfold GymData.contested_order. lia. Qed.

Lemma StronglySorted_take {A} (R : relation A) (n : nat) (l : list A) :
  StronglySorted R l -> StronglySorted R (take n l).
Proof.
  intros Hs. revert n. induction Hs as [|x l Hs IH Hall]; intros [|n]; cbn;
    try constructor; [apply IH|].
  rewrite Forall_forall in Hall |- *. intros y Hy. apply Hall.
  by apply (subseteq_take n l).
Qed.

Lemma List_filter_filter {A} (P Q : A -> bool) (l : list A) :
  List.filter P (List.filter Q l) = List.filter (fun x => Q x && P x) l.
Proof.
  induction l as [|x l IH]; [done|]. cbn. destruct (Q x); cbn; [|done].
  destruct (P x); by rewrite IH.
Qed.

Lemma List_filter_bind {A B} (P : B -> bool) (f : A -> list B) (l : list A) :
  List.filter P (l ≫= f) = l ≫= (fun x => List.filter P (f x)).
Proof.
  induction l as [|x l IH]; [done|]. by rewrite !bind_cons, List.filter_app, IH.
Qed.

Lemma NoDup_fmap_inj {A B} (f : A -> B) (l : list A) (x y : A) :
  NoDup (f <$> l) -> x ∈ l -> y ∈ l -> f x = f y -> x = y.
Proof.
  induction l as [|z l IH]; [by intros _ ?%elem_of_nil|].
  rewrite fmap_cons, NoDup_cons. intros [Hz Hnd] Hx Hy Hf.
  apply elem_of_cons in Hx as [->|Hx]; apply elem_of_cons in Hy as [->|Hy];
    [done| | |by apply IH].
  - exfalso. apply Hz. rewrite Hf. apply list_elem_of_fmap. by exists y.
  - exfalso. apply Hz. rewrite <- Hf. apply list_elem_of_fmap. by exists x.
Qed.

Lemma List_filter_unique {A B} `{EqDecision B} (f : A -> B) (l : list A) (x0 : A)
    (b : bool) :
  NoDup (f <$> l) -> x0 ∈ l ->
  List.filter (fun x => bool_decide (f x = f x0) && b) l = if b then [x0] else [].
Proof.
  destruct b.
  - induction l as [|z l IH]; [by intros _ ?%elem_of_nil|].
    rewrite fmap_cons, NoDup_cons. intros [Hz Hnd] Hx0. cbn [List.filter].
    apply elem_of_cons in Hx0 as [->|Hx0].
    + rewrite bool_decide_eq_true_2 by done. cbn. f_equal.
      apply List_filter_nil. intros y Hy. rewrite andb_true_r.
      apply bool_decide_eq_false. intros Heq. apply Hz. rewrite <- Heq.
      apply list_elem_of_fmap. by exists y.
    + rewrite bool_decide_eq_false_2; [by apply IH|].
      intros Heq. apply Hz. rewrite Heq. apply list_elem_of_fmap. by exists x0.
  - intros _ _. apply List_filter_nil. intros y _. apply andb_false_r.
Qed.

Section Contested.
Context (rt : Runtime) (duration : Z) (geofenceId : string) (s : Store).
Context (Hkey : NoDup (GymRow.id <$> gym s)).
Let cutoff := UNIX_TIMESTAMP rt HistoryContested - duration.

Let kept := contested_kept rt cutoff geofenceId s.

Lemma filter_contested_join (P : TeamChange * GymRow.t -> bool) (c : TeamChange)
    (gyms : list GymRow.t) :
  List.filter P
    (g ← gyms; if bool_decide (gym_id c = GymRow.id g) then [(c, g)] else [])
  = (fun g => (c, g))
      <$> List.filter (fun g => bool_decide (gym_id c = GymRow.id g) && P (c, g)) gyms.
Proof.
  induction gyms as [|g gyms IH]; [done|].
  rewrite bind_cons, List.filter_app, IH. cbn [List.filter].
  destruct (bool_decide (gym_id c = GymRow.id g)); cbn; [|done].
  by destruct (P (c, g)).
Qed.

Lemma elem_of_contested_kept (c : TeamChange) (g : GymRow.t) :
  (c, g) ∈ kept <->
  c ∈ gym_team_changes s /\ g ∈ gym s /\ gym_id c = GymRow.id g
  /\ contested_cond rt cutoff geofenceId (c, g) = true.
Proof.
  unfold kept, contested_kept. rewrite elem_of_List_filter, list_elem_of_bind.
  unfold contested_join. split.
  - intros [(c' & Hj & Hc') Hcond]. apply list_elem_of_bind in Hj as (g' & Hj & Hg').
    case_bool_decide; [|by apply elem_of_nil in Hj].
    apply list_elem_of_singleton in Hj as [= -> ->]. done.
  - intros (Hc & Hg & Hid & Hcond). split; [|done]. exists c. split; [|done].
    apply list_elem_of_bind. exists g. split; [|done].
    rewrite bool_decide_eq_true_2 by done. left.
Qed.

(** The group of a key of the contested query holds one row per
    ChangeEvent of that gym inside the window. *)
Lemma contested_group (c0 : TeamChange) (g0 : GymRow.t) :
  (c0, g0) ∈ kept ->
  List.filter
    (fun j => bool_decide (GymData.contested_key j = GymData.contested_key (c0, g0)))
    kept
  = (fun c => (c, g0)) <$> window_changes cutoff (gym_id c0) (gym_team_changes s).
Proof.
  intros (Hc0 & Hg0 & Hid0 & Hcond0)%elem_of_contested_kept.
  unfold kept, contested_kept, window_changes.
  rewrite List_filter_filter, List_filter_bind. clear Hc0.
  induction (gym_team_changes s) as [|c l IH]; [done|].
  rewrite bind_cons, IH. clear IH. cbn [List.filter].
  unfold contested_join at 1. rewrite filter_contested_join.
  rewrite (List.filter_ext_in _
    (fun g => bool_decide (GymRow.id g = GymRow.id g0)
              && (bool_decide (gym_id c = gym_id c0) && (cutoff <=? changed_at c)))).
  - rewrite (List_filter_unique GymRow.id) by done.
    by destruct (bool_decide (gym_id c = gym_id c0) && (cutoff <=? changed_at c)).
  - intros g Hg%list_elem_of_In. apply eq_true_iff_eq.
    unfold contested_cond in Hcond0 |- *. unfold GymData.contested_key.
    cbn [fst snd] in Hcond0 |- *.
    rewrite andb_true_iff, Z.leb_le in Hcond0.
    rewrite !andb_true_iff, !bool_decide_eq_true, !Z.leb_le.
    split.
    + intros (Hid & [Hw Hcont] & [= Hgid _ _ _ _ _]). split; [congruence|done].
    + intros (Hidg & Hgid & Hw).
      assert (g = g0) as -> by (by apply (NoDup_fmap_inj GymRow.id (gym s))).
      split; [congruence|]. split; [tauto|]. by rewrite Hgid.
Qed.
End Contested.

Lemma select_contested_unfold (rt : Runtime) (duration : Z) (geofenceId : string)
    (s : Store) :
  GymData.select_contested rt duration geofenceId s
  = take 20
      (merge_sort GymData.contested_order
         (contested_row
            <$> sql_group_by GymData.contested_key
                  (contested_kept rt (UNIX_TIMESTAMP rt HistoryContested - duration)
                     geofenceId s))).
Proof. reflexivity. Qed.

(** The rows of the contested query: at most twenty, ordered, each counting
    the ChangeEvents of its gym inside the window. *)
Lemma select_contested_spec (rt : Runtime) (duration : Z) (geofenceId : string)
    (s : Store) :
  NoDup (GymRow.id <$> gym s) ->
  let rows := GymData.select_contested rt duration geofenceId s in
  (length rows <= 20)%nat
  /\ StronglySorted GymData.contested_order rows
  /\ forall row, row ∈ rows ->
       ContestedRow.change_count row
       = Z.of_nat (length (window_changes
                             (UNIX_TIMESTAMP rt HistoryContested - duration)
                             (ContestedRow.gym_id row) (gym_team_changes s))).
Proof.
  intros Hkey. cbn zeta. rewrite select_contested_unfold.
  split; [rewrite length_take; lia|]. split.
  - apply StronglySorted_take, (StronglySorted_merge_sort GymData.contested_order).
  - intros row Hrow. apply subseteq_take in Hrow.
    rewrite merge_sort_Permutation in Hrow.
    apply list_elem_of_fmap in Hrow as ([k grp] & -> & Hgrp).
    apply elem_of_sql_group_by in Hgrp as [Hk ->].
    apply list_elem_of_fmap in Hk as ([c0 g0] & -> & Hj).
    rewrite (contested_group rt duration geofenceId s Hkey c0 g0 Hj).
    unfold contested_row, GymData.contested_key. cbn.
    by rewrite length_fmap.
Qed.

Lemma StronglySorted_app_cross {A} (R : relation A) (l1 l2 : list A) :
  StronglySorted R (l1 ++ l2) -> forall x y, x ∈ l1 -> y ∈ l2 -> R x y.
Proof.
  induction l1 as [|a l1 IH]; intros Hs x y Hx Hy; [by apply elem_of_nil in Hx|].
  cbn in Hs. apply StronglySorted_inv in Hs as [Hs Hall].
  apply elem_of_cons in Hx as [->|Hx]; [|by apply IH].
  rewrite Forall_forall in Hall. apply Hall, elem_of_app. by right.
Qed.

(** What [LIMIT n] keeps of an ordered result: a row that is left out comes
    after each of the [n] rows kept. *)
Lemma take_sorted_cover {A} (R : relation A) (n : nat) (l : list A) (x : A) :
  StronglySorted R l -> x ∈ l ->
  x ∈ take n l \/ (length (take n l) = n /\ forall y, y ∈ take n l -> R y x).
Proof.
  intros Hs Hx. rewrite <- (take_drop n l) in Hx, Hs.
  apply elem_of_app in Hx as [Hx|Hx]; [by left|]. right. split.
  - rewrite length_take. destruct (decide (n <= length l)%nat); [lia|].
    rewrite drop_ge in Hx by lia. by apply elem_of_nil in Hx.
  - intros y Hy. by apply (StronglySorted_app_cross R _ _ Hs).
Qed.

Section ContestedRows.
Context (rt : Runtime) (duration : Z) (geofenceId : string) (s : Store).
Context (Hkey : NoDup (GymRow.id <$> gym s)).
Let cutoff := UNIX_TIMESTAMP rt HistoryContested - duration.
Let kept := contested_kept rt cutoff geofenceId s.
Let groups := contested_row <$> sql_group_by GymData.contested_key kept.

(** The rows of the contested query before ORDER BY and LIMIT: one for
    each joined pair kept, made of the ChangeEvents of its gym inside the
    window. *)
Lemma elem_of_contested_groups (row : ContestedRow.t) :
  row ∈ groups <->
  exists c0 g0,
    (c0, g0) ∈ kept
    /\ row = ContestedRow.mk (gym_id c0) (GymRow.name g0) (GymRow.lat g0)
               (GymRow.lon g0) (GymRow.url g0) (GymRow.team_id g0)
               (Z.of_nat (length (window_changes cutoff (gym_id c0)
                                    (gym_team_changes s))))
               (sql_max (changed_at <$> window_changes cutoff (gym_id c0)
                                          (gym_team_changes s))).
Proof.
  assert (Hrow : forall c0 g0, (c0, g0) ∈ kept ->
    contested_row
      (GymData.contested_key (c0, g0),
       List.filter
         (fun j => bool_decide (GymData.contested_key j
                                = GymData.contested_key (c0, g0))) kept)
    = ContestedRow.mk (gym_id c0) (GymRow.name g0) (GymRow.lat g0)
        (GymRow.lon g0) (GymRow.url g0) (GymRow.team_id g0)
        (Z.of_nat (length (window_changes cutoff (gym_id c0) (gym_team_changes s))))
        (sql_max (changed_at <$> window_changes cutoff (gym_id c0)
                                   (gym_team_changes s)))).
  { intros c0 g0 Hj. unfold kept, cutoff in Hj |- *.
    rewrite (contested_group rt duration geofenceId s Hkey c0 g0 Hj).
    unfold contested_row, GymData.contested_key. cbn [fst snd].
    rewrite length_fmap, <- list_fmap_compose. reflexivity. }
  unfold groups. rewrite list_elem_of_fmap. split.
  - intros ([k grp] & -> & Hgrp).
    apply elem_of_sql_group_by in Hgrp as [Hk ->].
    apply list_elem_of_fmap in Hk as ([c0 g0] & -> & Hj).
    exists c0, g0. split; [done|]. by apply Hrow.
  - intros (c0 & g0 & Hj & ->). eexists. split; [symmetry; by apply Hrow|].
    apply elem_of_sql_group_by. split; [|done].
    apply list_elem_of_fmap. by exists (c0, g0).
Qed.

Lemma contested_groups_NoDup : NoDup (ContestedRow.gym_id <$> groups).
Proof.
  unfold groups, sql_group_by. rewrite <- !list_fmap_compose.
  apply NoDup_fmap_2_strong; [|apply NoDup_remove_dups].
  intros k1 k2 Hk1 Hk2.
  apply elem_of_remove_dups, list_elem_of_fmap in Hk1 as ([c1 g1] & -> & Hj1).
  apply elem_of_remove_dups, list_elem_of_fmap in Hk2 as ([c2 g2] & -> & Hj2).
  apply elem_of_contested_kept in Hj1 as (_ & Hg1 & Hid1 & _).
  apply elem_of_contested_kept in Hj2 as (_ & Hg2 & Hid2 & _).
  unfold contested_row, GymData.contested_key. cbn. intros Hgid.
  assert (g1 = g2) as ->
    by (apply (NoDup_fmap_inj GymRow.id (gym s)); [done..|congruence]).
  by rewrite Hgid.
Qed.

Lemma contested_candidate_group (f : string) :
  contested_candidate rt cutoff geofenceId s f <->
  exists row, row ∈ groups /\ ContestedRow.gym_id row = f.
Proof.
  unfold groups, kept, cutoff. split.
  - intros [Hw (g & Hg & Hid & Hin)].
    destruct (window_changes cutoff f (gym_team_changes s)) as [|c rest] eqn:Ew;
      [done|].
    assert (Hc : c ∈ window_changes cutoff f (gym_team_changes s))
      by (rewrite Ew; left).
    unfold window_changes in Hc. apply elem_of_List_filter in Hc as [Hc Hcond].
    apply andb_true_iff in Hcond as [Hf Hcut]. apply bool_decide_eq_true in Hf.
    assert (Hj : (c, g) ∈ kept).
    { apply elem_of_contested_kept. split; [done|]. split; [done|].
      split; [congruence|]. unfold contested_cond. cbn [fst snd].
      unfold cutoff in Hcut. by rewrite Hcut, Hin. }
    eexists. split; [apply elem_of_contested_groups; by exists c, g|done].
  - intros (row & (c0 & g0 & Hj & ->)%elem_of_contested_groups & <-).
    cbn [ContestedRow.gym_id].
    apply elem_of_contested_kept in Hj as (Hc & Hg & Hid & Hcond).
    unfold contested_cond in Hcond. cbn [fst snd] in Hcond.
    apply andb_true_iff in Hcond as [Hcut Hin]. split.
    + intros Hnil.
      assert (Hin0 : c0 ∈ window_changes cutoff (gym_id c0) (gym_team_changes s)).
      { unfold window_changes. apply elem_of_List_filter. split; [done|].
        unfold cutoff. by rewrite bool_decide_eq_true_2, Hcut. }
      unfold cutoff in Hin0. rewrite Hnil in Hin0. by apply elem_of_nil in Hin0.
    + by exists g0.
Qed.
End ContestedRows.

(** C6.  The [contestedGyms] of a history response that no failure cut
    short, over a [gym] table with [id] as its key.  The list has at most
    twenty entries and names no gym twice.  Every entry is a gym inside the
    geofence with a ChangeEvent inside the window; its [change_count] is the
    number of all ChangeEvents of that gym with [changed_at >= now - duration],
    first observations included, and its [last_changed] is the greatest
    [changed_at] among them, in milliseconds.  The entries are ordered by
    [change_count] descending, then [last_changed] descending.  The list is
    the top of this ranking: a gym inside the geofence with a ChangeEvent
    inside the window is listed, or the list holds twenty entries and each of
    them has more ChangeEvents inside the window than this gym, or as many and
    a [last_changed] that is not earlier. *)
Theorem C6_contested_ranking (rt : Runtime) (env : Env) (period : string) (w : World) :
  fault_free rt ->
  configured env ->
  NoDup (GymRow.id <$> gym (committed w)) ->
  let duration :=
    PeriodConfig.duration (GymData.PERIOD_CONFIG (GymData.resolve_key period)) in
  let cutoff := UNIX_TIMESTAMP rt HistoryContested - duration in
  let changes := gym_team_changes (committed w) in
  exists geofenceId response w',
    env "GEOFENCE_ID" = Some geofenceId
    /\ GymData.fetchGymHistory rt env period w = (Ok response, w')
    /\ let listed := GymHistoryResponse.contestedGyms response in
       (length listed <= 20)%nat
       /\ NoDup (ContestedGym.gym_id <$> listed)
       /\ (forall g, g ∈ listed ->
             contested_candidate rt cutoff geofenceId (committed w)
               (ContestedGym.gym_id g)
             /\ ContestedGym.change_count g
                = Z.of_nat (length (window_changes cutoff (ContestedGym.gym_id g)
                                      changes))
             /\ exists m,
                  latest_change (window_changes cutoff (ContestedGym.gym_id g) changes) m
                  /\ ContestedGym.last_changed g = m * 1000)
       /\ StronglySorted ranked listed
       /\ (forall f,
             contested_candidate rt cutoff geofenceId (committed w) f ->
             f ∈ ContestedGym.gym_id <$> listed
             \/ (length listed = 20%nat
                 /\ forall g, g ∈ listed -> outranks cutoff changes g f)).
Proof.
  intros Hff (dbName & geofenceDbName & geofenceId & E1 & E2 & E3) Hkey. cbn zeta.
  exists geofenceId. eexists _, _. split.
  { unfold GymData.ensureIdentifier in E3.
    destruct (env "GEOFENCE_ID") as [v|]; [|done].
    destruct (decide (v = "")); [done|].
    destruct (Collector.matches_word v); [|done]. by injection E3 as ->. }
  split; [by apply (fetchGymHistory_fault_free rt env period w _ _ _ E1 E2 E3)|].
  cbn [GymHistoryResponse.contestedGyms].
  set (duration := PeriodConfig.duration _).
  set (cutoff := UNIX_TIMESTAMP rt HistoryContested - duration).
  set (recent := if (0 <? _)%nat then _ else _).
  destruct (select_contested_spec rt duration geofenceId (committed w) Hkey)
    as (Hlen & Hsorted & Hcount).
  assert (Hid : ContestedGym.gym_id <$>
                  (GymData.contested_gym recent
                     <$> GymData.select_contested rt duration geofenceId (committed w))
                = ContestedRow.gym_id
                    <$> GymData.select_contested rt duration geofenceId (committed w)).
  { rewrite <- list_fmap_compose. by apply list_fmap_ext. }
  pose proof (select_contested_unfold rt duration geofenceId (committed w)) as Hrows.
  fold cutoff in Hrows.
  set (groups := contested_row <$> _) in Hrows.
  assert (Hgroup : forall row,
    row ∈ GymData.select_contested rt duration geofenceId (committed w) ->
    row ∈ groups).
  { intros row Hrow. rewrite Hrows in Hrow. apply subseteq_take in Hrow.
    by rewrite merge_sort_Permutation in Hrow. }
  split; [by rewrite length_fmap|]. split; [|split; [|split]].
  - rewrite Hid, Hrows, fmap_take.
    eapply sublist_NoDup; [|apply sublist_take].
    rewrite merge_sort_Permutation.
    by apply (contested_groups_NoDup rt duration geofenceId (committed w)).
  - intros g (row & -> & Hrow)%list_elem_of_fmap.
    cbn [GymData.contested_gym ContestedGym.gym_id ContestedGym.change_count
         ContestedGym.last_changed].
    split; [|split; [by apply Hcount|]].
    + apply (contested_candidate_group rt duration geofenceId (committed w) Hkey).
      exists row. split; [by apply Hgroup|done].
    + apply Hgroup in Hrow.
      apply (elem_of_contested_groups rt duration geofenceId (committed w) Hkey)
        in Hrow as (c0 & g0 & Hj & ->).
      cbn [ContestedRow.gym_id ContestedRow.last_changed].
      fold cutoff.
      destruct (sql_max (changed_at <$> window_changes cutoff (gym_id c0)
                                          (gym_team_changes (committed w))))
        as [m|] eqn:Emax.
      * exists m. split; [|done]. apply sql_max_spec in Emax as [Hin Hle]. split.
        -- apply list_elem_of_fmap in Hin as (c & -> & Hc). by exists c.
        -- intros c Hc. apply Hle, list_elem_of_fmap. by exists c.
      * exfalso.
        apply elem_of_contested_kept in Hj as (Hc & _ & _ & Hcond).
        unfold contested_cond in Hcond. cbn [fst snd] in Hcond.
        apply andb_true_iff in Hcond as [Hcut _]. fold cutoff in Hcut.
        assert (Hin0 : c0 ∈ window_changes cutoff (gym_id c0)
                              (gym_team_changes (committed w))).
        { unfold window_changes. apply elem_of_List_filter. split; [done|].
          by rewrite bool_decide_eq_true_2, Hcut. }
        destruct (window_changes cutoff (gym_id c0) (gym_team_changes (committed w)));
          [by apply elem_of_nil in Hin0|discriminate].
  - eapply StronglySorted_fmap; [|exact Hsorted].
    intros a b Hab. unfold GymData.contested_order in Hab. unfold ranked. cbn. lia.
  - intros f Hf.
    apply (contested_candidate_group rt duration geofenceId (committed w) Hkey)
      in Hf as (row & Hrow & <-).
    assert (Hsort : StronglySorted GymData.contested_order
                      (merge_sort GymData.contested_order groups))
      by apply (StronglySorted_merge_sort GymData.contested_order).
    assert (Hin : row ∈ merge_sort GymData.contested_order groups)
      by (by rewrite merge_sort_Permutation).
    destruct (take_sorted_cover GymData.contested_order 20 _ row Hsort Hin)
      as [Htake|[Hfull Hafter]].
    + left. rewrite Hid, Hrows. apply list_elem_of_fmap. by exists row.
    + right. rewrite length_fmap, Hrows. split; [done|].
      intros g (top & -> & Htop)%list_elem_of_fmap.
      specialize (Hafter top Htop).
      apply (elem_of_contested_groups rt duration geofenceId (committed w) Hkey)
        in Hrow as (c0 & g0 & Hj & ->).
      unfold GymData.contested_order in Hafter. unfold outranks.
      cbn [GymData.contested_gym ContestedGym.change_count ContestedGym.last_changed
           ContestedRow.gym_id ContestedRow.change_count ContestedRow.last_changed]
        in Hafter |- *.
      fold cutoff in Hafter |- *.
      destruct Hafter as [Hlt|[Heq Hle]]; [by left|]. right. split; [done|].
      intros c Hc.
      destruct (sql_max (changed_at <$> window_changes cutoff (gym_id c0)
                                          (gym_team_changes (committed w))))
        as [m|] eqn:Emax.
      * apply sql_max_spec in Emax as [_ Hmax].
        assert (changed_at c <= m)
          by (apply Hmax, list_elem_of_fmap; by exists c).
        destruct (ContestedRow.last_changed top); cbn in Hle |- *; lia.
      * destruct (window_changes cutoff (gym_id c0) (gym_team_changes (committed w)));
          [by apply elem_of_nil in Hc|discriminate].
Qed.

Lemma Sample_configured : configured Sample.env.
Proof. exists "golbat", "golbat", "golbat". vm_compute. done. Defined.

Lemma C4_chart_data_witness :
  let rt := Sample.runtime 2000 in
  let w := Sample.idle Sample.sampled in
  let samples_of b :=
    bucket_samples (UNIX_TIMESTAMP rt HistoryBuckets - 21600) 300 b
      (gym_history (committed w)) in
  exists response w',
    GymData.fetchGymHistory rt Sample.env "6h" w = (Ok response, w')
    /\ StronglySorted
         (fun p q => ChartDataPoint.time p < ChartDataPoint.time q)
         (GymHistoryResponse.chartData response)
    /\ (forall b,
          (exists p, p ∈ GymHistoryResponse.chartData response
                     /\ ChartDataPoint.time p = b * 1000)
          <-> samples_of b <> [])
    /\ (forall p,
          p ∈ GymHistoryResponse.chartData response ->
          exists b recordedTotal,
            ChartDataPoint.time p = b * 1000
            /\ samples_of b <> []
            /\ is_rounded_average (team_mystic <$> samples_of b)
                 (ChartDataPoint.mystic p)
            /\ is_rounded_average (team_valor <$> samples_of b)
                 (ChartDataPoint.valor p)
            /\ is_rounded_average (team_instinct <$> samples_of b)
                 (ChartDataPoint.instinct p)
            /\ is_rounded_average (total_gyms <$> samples_of b) recordedTotal
            /\ ChartDataPoint.total p
               = Z.max recordedTotal
                   (ChartDataPoint.mystic p + ChartDataPoint.valor p
                    + ChartDataPoint.instinct p)).
Proof.
  apply (C4_chart_data (Sample.runtime 2000) Sample.env "6h"
           (Sample.idle Sample.sampled)).
  - intros st. reflexivity.
  - exact Sample_configured.
Defined.

Lemma C6_contested_ranking_witness :
  let rt := Sample.runtime 2000 in
  let w := Sample.idle Sample.contest in
  let cutoff := UNIX_TIMESTAMP rt HistoryContested - 21600 in
  let changes := gym_team_changes (committed w) in
  exists geofenceId response w',
    Sample.env "GEOFENCE_ID" = Some geofenceId
    /\ GymData.fetchGymHistory rt Sample.env "6h" w = (Ok response, w')
    /\ let listed := GymHistoryResponse.contestedGyms response in
       (length listed <= 20)%nat
       /\ NoDup (ContestedGym.gym_id <$> listed)
       /\ (forall g, g ∈ listed ->
             contested_candidate rt cutoff geofenceId (committed w)
               (ContestedGym.gym_id g)
             /\ ContestedGym.change_count g
                = Z.of_nat (length (window_changes cutoff (ContestedGym.gym_id g)
                                      changes))
             /\ exists m,
                  latest_change (window_changes cutoff (ContestedGym.gym_id g) changes) m
                  /\ ContestedGym.last_changed g = m * 1000)
       /\ StronglySorted ranked listed
       /\ (forall f,
             contested_candidate rt cutoff geofenceId (committed w) f ->
             f ∈ ContestedGym.gym_id <$> listed
             \/ (length listed = 20%nat
                 /\ forall g, g ∈ listed -> outranks cutoff changes g f)).
Proof.
  apply (C6_contested_ranking (Sample.runtime 2000) Sample.env "6h"
           (Sample.idle Sample.contest)).
  - intros st. reflexivity.
  - exact Sample_configured.
  - apply (bool_decide_unpack (NoDup _)). vm_compute. exact I.
Defined.

(** In that request the gym with two ChangeEvents comes first, and of the two
    gyms with one the one that changed last. *)
Example contest_sample_ranking :
  exists response w',
    GymData.fetchGymHistory (Sample.runtime 2000) Sample.env "6h"
      (Sample.idle Sample.contest) = (Ok response, w')
    /\ (fun g => (ContestedGym.gym_id g, ContestedGym.change_count g,
                  ContestedGym.last_changed g))
         <$> GymHistoryResponse.contestedGyms response
       = [("A", 2, 1600000); ("C", 1, 1800000); ("B", 1, 1500000)].
Proof. eexists _, _. split; vm_compute; reflexivity. Qed.

Lemma C7_empty_on_failure_witness :
  (exists w',
     GymData.fetchGymHistory (Sample.failing HistoryLatest 2000) Sample.env "7d"
       (Sample.idle Sample.sampled)
     = (Ok (GymHistoryResponse.mk "7d" [] [] (CurrentCounts.mk 0 0 0 0) 0), w'))
  /\ (exists w',
        GymData.fetchGymSnapshot (Sample.failing SnapshotSelect 2000) Sample.env
          (Sample.idle Sample.sampled)
        = (Ok (GymApiResult.mk [] [] [] (Counts.mk 0 0 0)), w'))
  /\ (exists w',
        GymData.fetchDefenderStats (Sample.failing StatsSelect 2000) Sample.env
          (Sample.idle Sample.sampled)
        = (Ok (StatsData.mk [] 0 0), w')).
Proof.
  split; [|split].
  - destruct (C7_empty_on_failure (Sample.failing HistoryLatest 2000) Sample.env
                (Sample.idle Sample.sampled)) as (H & _ & _).
    destruct (H "7d") as (response & w' & Hrun & Hempty & _).
    exists w'. rewrite Hrun, Hempty; [reflexivity|]. right. left. reflexivity.
  - destruct (C7_empty_on_failure (Sample.failing SnapshotSelect 2000) Sample.env
                (Sample.idle Sample.sampled)) as (_ & (result & w' & Hrun & Hempty) & _).
    exists w'. rewrite Hrun, Hempty; reflexivity.
  - destruct (C7_empty_on_failure (Sample.failing StatsSelect 2000) Sample.env
                (Sample.idle Sample.sampled)) as (_ & _ & (stats & w' & Hrun & Hempty)).
    exists w'. rewrite Hrun, Hempty; reflexivity.
Defined.

(** * Malformed defender payloads *)

(** [fetchDefenderStats] warns about a payload that is not an array, or not
    JSON at all, and goes on with the remaining rows. *)
Lemma stats_loop_skips_malformed (rt : Runtime) (team : option Z) (text : string)
    (rest : list (option Z * option string))
    (teamStats : gmap Z TeamAggregation.t) (w : World) :
  text <> "" ->
  (JSON_parse rt text = None \/ exists v, JSON_parse rt text = Some (JOther v)) ->
  exists warning,
    GymData.stats_loop rt ((team, Some text) :: rest) teamStats w
    = GymData.stats_loop rt rest teamStats
        (mkWorld (committed w) (working w) (console w ++ [ConsoleWarn warning])).
Proof.
  intros Hne Hbad. cbn [GymData.stats_loop snd]. rewrite decide_False by done.
  destruct Hbad as [->|[v ->]]; eexists; reflexivity.
Qed.

(** [fetchGymSnapshot] warns about a payload that is not JSON and lists the
    gym without defenders. *)
Lemma snapshot_defenders_unparsable (rt : Runtime) (gymRow : GymRow.t)
    (text : string) (w : World) :
  GymRow.defenders gymRow = Some text -> text <> "" -> JSON_parse rt text = None ->
  exists warning,
    GymData.snapshot_defenders rt gymRow w
    = (Ok (JArray []),
       mkWorld (committed w) (working w) (console w ++ [ConsoleWarn warning])).
Proof.
  intros Hd Hne Hp. unfold GymData.snapshot_defenders.
  rewrite Hd, decide_False, Hp by done. eexists. reflexivity.
Qed.

(** [fetchGymSnapshot] hands a payload that parses to something else than an
    array on as the [defenders] of the gym, without a warning. *)
Lemma snapshot_defenders_non_array (rt : Runtime) (gymRow : GymRow.t)
    (text : string) (v : JsonScalar) (w : World) :
  GymRow.defenders gymRow = Some text -> text <> "" ->
  JSON_parse rt text = Some (JOther v) ->
  GymData.snapshot_defenders rt gymRow w = (Ok (JOther v), w).
Proof.
  intros Hd Hne Hp. unfold GymData.snapshot_defenders.
  by rewrite Hd, decide_False, Hp by done.
Qed.

(** C9 fails on [fetchGymSnapshot].  Over three gyms whose payloads are an
    object, unparsable text and an array, the snapshot lists the first gym
    with the parsed object as its [defenders] and logs a warning for the
    unparsable payload only; [fetchDefenderStats] over the same rows warns
    about both. *)
Lemma C9_snapshot_keeps_non_array :
  let snapshot :=
    GymData.fetchGymSnapshot (Sample.runtime 1000) Sample.env
      (Sample.idle Sample.payloads) in
  let stats :=
    GymData.fetchDefenderStats (Sample.runtime 1000) Sample.env
      (Sample.idle Sample.payloads) in
  (exists result,
     snapshot.1 = Ok result
     /\ (fun g => (Gym.id g, Gym.defenders g)) <$> GymApiResult.mystic result
        = [("A", JOther (JObject "{}")); ("B", JArray []);
           ("C", JArray [Some (mkDefender (Some 1) None None (Some (inl (Num.of_Z 100))))])])
  /\ console snapshot.2 = [ConsoleWarn "Failed to parse defenders for gym B:"]
  /\ console stats.2 = [ConsoleWarn "Unexpected defenders payload shape";
                        ConsoleWarn "Failed to parse defenders JSON:"].
Proof. vm_compute. split; [|done]. eexists. split; reflexivity. Qed.

(** * The scenarios of the specification *)

(** Three samples of one bucket with totals 10, 20 and 30 give one point
    with total 20; the empty buckets in between give no point. *)
Example bucket_averaging :
  match (GymData.fetchGymHistory (Sample.runtime 2000) Sample.env "6h"
           (Sample.idle Sample.sampled)).1 with
  | Ok response =>
      GymHistoryResponse.chartData response
      = [ChartDataPoint.mk 900000 2 2 3 20; ChartDataPoint.mk 1200000 4 4 4 12]
  | Throw _ => False
  end.
Proof. vm_compute. reflexivity. Qed.

(** A gym first seen with owner 1, unchanged at the second run and taken by
    team 2 before the third: two ChangeEvents and three samples. *)
Example three_runs :
  let w1 := (Collector.collectGymHistory (Sample.runtime 1000) Sample.env
               (Sample.idle Sample.fresh)).2 in
  let w2 := (Collector.collectGymHistory (Sample.runtime 1300) Sample.env w1).2 in
  let w3 := (Collector.collectGymHistory (Sample.runtime 1600) Sample.env
               (Sample.reassigned (Some 2) w2)).2 in
  gym_team_changes (committed w3)
  = [mkTeamChange "F" None (Some 1) 1000; mkTeamChange "F" (Some 1) (Some 2) 1600]
  /\ timestamp <$> gym_history (committed w3) = [1000; 1300; 1600].
Proof. vm_compute. done. Qed.

(** * Further properties of the collector *)

(** ** The sample of a run *)

Lemma sum_flags (team : Z) (rows : list GymRow.t) :
  foldr Z.add 0
    ((fun g => if bool_decide (GymRow.team_id g = Some team) then 1 else 0) <$> rows)
  = held_by team rows.
Proof.
  unfold held_by. induction rows as [|g rows IH]; [done|].
  rewrite fmap_cons. cbn [foldr List.filter]. rewrite IH.
  case_bool_decide; cbn [length]; lia.
Qed.

Lemma sql_sum_flags (team : Z) (rows : list GymRow.t) :
  default 0
    (sql_sum
       ((fun g => if bool_decide (GymRow.team_id g = Some team) then 1 else 0)
          <$> rows))
  = held_by team rows.
Proof.
  destruct rows as [|g rows]; [done|].
  rewrite <- sum_flags. reflexivity.
Qed.

Lemma held_by_nonneg (team : Z) (rows : list GymRow.t) : 0 <= held_by team rows.
Proof. unfold held_by. lia. Qed.

Lemma held_by_sum (rows : list GymRow.t) :
  held_by 1 rows + held_by 2 rows + held_by 3 rows <= Z.of_nat (length rows).
Proof.
  unfold held_by. induction rows as [|g rows IH]; [cbn; lia|].
  cbn [List.filter length].
  repeat case_bool_decide; cbn [length]; try congruence; lia.
Qed.

Lemma collected_sample_counts (rt : Runtime) (geofenceId : string) (s : Store) :
  let region := List.filter (in_region rt geofenceId) (gym s) in
  collected_sample rt geofenceId s
  = mkHistorySample (UNIX_TIMESTAMP rt CollectorInsertHistory)
      (held_by 1 region) (held_by 2 region) (held_by 3 region)
      (Z.of_nat (length region)).
Proof.
  cbn zeta. unfold collected_sample, Collector.select_counts.
  by rewrite !sql_sum_flags.
Qed.

Lemma collected_history_list (rt : Runtime) (geofenceId : string) (retention : Z)
    (s : Store) :
  gym_history (collected rt geofenceId (Some retention) s)
  = List.filter
      (fun h => negb (timestamp h <? UNIX_TIMESTAMP rt CollectorSweepHistory - retention))
      (gym_history s ++ [collected_sample rt geofenceId s]).
Proof. reflexivity. Qed.

(** X1.  The sample of a successful run.  With a retention that is a
    number of seconds (neither NaN nor Infinity), [gym_history] after the run
    is the table before the run followed by one new row, swept with the cutoff
    of the DELETE.  The new row carries the database clock of the INSERT, the
    numbers of enabled gyms inside the geofence held by teams 1, 2 and 3, and
    the number of all such gyms.  The three faction counts are not negative
    and their sum does not exceed the total. *)
Theorem X1_sample_counts (rt : Runtime) (env : Env) (w : World) (retention : Z) :
  working w = None ->
  Collector.retentionSeconds rt env = Some retention ->
  (Collector.collectGymHistory rt env w).1 = Ok tt ->
  exists geofenceId,
    env "GEOFENCE_ID" = Some geofenceId
    /\ let region := List.filter (in_region rt geofenceId) (gym (committed w)) in
       let sample :=
         mkHistorySample (UNIX_TIMESTAMP rt CollectorInsertHistory)
           (held_by 1 region) (held_by 2 region) (held_by 3 region)
           (Z.of_nat (length region)) in
       gym_history (committed (Collector.collectGymHistory rt env w).2)
       = List.filter
           (fun h =>
              negb (timestamp h
                    <? UNIX_TIMESTAMP rt CollectorSweepHistory - retention))
           (gym_history (committed w) ++ [sample])
       /\ 0 <= team_mystic sample /\ 0 <= team_valor sample
       /\ 0 <= team_instinct sample
       /\ team_mystic sample + team_valor sample + team_instinct sample
          <= total_gyms sample.
Proof.
  intros Hw Hret Hok.
  destruct (Collector.collectGymHistory rt env w) as [r w'] eqn:Erun.
  cbn [fst snd] in Hok |- *. subst r.
  destruct (collectGymHistory_run rt env w _ w' Hw Erun)
    as [_ [[_ [e ?]]|(geofenceId & Hg & Hc & _)]]; [done|].
  exists geofenceId. split; [done|]. cbn zeta.
  rewrite Hc, Hret, collected_history_list, collected_sample_counts.
  split; [done|]. cbn [team_mystic team_valor team_instinct total_gyms].
  repeat split; try apply held_by_nonneg. apply held_by_sum.
Qed.

Lemma X1_sample_counts_witness :
  let rt := Sample.runtime 1000 in
  let w := Sample.idle Sample.fresh in
  exists geofenceId,
    Sample.half_day "GEOFENCE_ID" = Some geofenceId
    /\ let region := List.filter (in_region rt geofenceId) (gym (committed w)) in
       let sample :=
         mkHistorySample (UNIX_TIMESTAMP rt CollectorInsertHistory)
           (held_by 1 region) (held_by 2 region) (held_by 3 region)
           (Z.of_nat (length region)) in
       gym_history (committed (Collector.collectGymHistory rt Sample.half_day w).2)
       = List.filter
           (fun h =>
              negb (timestamp h
                    <? UNIX_TIMESTAMP rt CollectorSweepHistory - 43200))
           (gym_history (committed w) ++ [sample])
       /\ 0 <= team_mystic sample /\ 0 <= team_valor sample
       /\ 0 <= team_instinct sample
       /\ team_mystic sample + team_valor sample + team_instinct sample
          <= total_gyms sample.
Proof.
  apply (X1_sample_counts (Sample.runtime 1000) Sample.half_day
           (Sample.idle Sample.fresh) 43200).
  - reflexivity.
  - vm_compute. reflexivity.
  - vm_compute. reflexivity.
Defined.

(** ** The rows of a diff step *)

Lemma diff_events_settled (ts : Z) (rows : list (string * option Z))
    (m : gmap string (option Z)) :
  (forall row, row ∈ rows -> m !! row.1 = Some row.2) ->
  diff_events ts rows m = [].
Proof.
  induction rows as [|row rows IH]; intros H; [done|].
  cbn [diff_events]. rewrite (H row) by left. rewrite decide_True by done.
  apply IH. intros r Hr. apply H. by right.
Qed.

Lemma lastStateMap_lookup_inv (s : Store) (f : string) (owner : option Z) :
  Collector.build_lastStateMap (Collector.select_last_state s) !! f = Some owner ->
  exists c, most_recent_change (gym_team_changes s) f c /\ new_team_id c = owner.
Proof.
  intros Hl.
  destruct (decide (Exists (fun c => gym_id c = f) (gym_team_changes s))) as [Hex|Hex];
    rewrite Exists_exists in Hex.
  - destruct (most_recent_change_exists _ f Hex) as [c Hc].
    exists c. split; [done|].
    rewrite (lastStateMap_most_recent s f c Hc) in Hl. by injection Hl.
  - rewrite lastStateMap_unseen in Hl; [done|].
    intros c Hc Hf. apply Hex. by exists c.
Qed.

Lemma events_of_singleton (f : string) (l : list TeamChange) (e : TeamChange) :
  events_of f l = [e] ->
  gym_id e = f
  /\ exists pre post,
       l = pre ++ e :: post
       /\ (forall c, c ∈ pre -> gym_id c <> f)
       /\ (forall c, c ∈ post -> gym_id c <> f).
Proof.
  unfold events_of. induction l as [|x l IH]; [done|].
  cbn [List.filter]. case_bool_decide as Hx.
  - intros [= -> Hrest]. split; [done|]. exists [], l. split; [done|].
    split; [intros c Hc; inversion Hc|].
    intros c Hc Hf.
    assert (Hin : c ∈ List.filter (fun c => bool_decide (gym_id c = f)) l).
    { apply elem_of_List_filter. split; [done|]. by apply bool_decide_eq_true. }
    rewrite Hrest in Hin. inversion Hin.
  - intros Hl. destruct (IH Hl) as (Hf & pre & post & -> & Hpre & Hpost).
    split; [done|]. exists (x :: pre), post. split; [done|]. split; [|done].
    intros c [->|Hc]%elem_of_cons; [done|]. by apply Hpre.
Qed.

Lemma events_of_nil (f : string) (l : list TeamChange) :
  events_of f l = [] -> forall c, c ∈ l -> gym_id c <> f.
Proof.
  intros Hl c Hc Hf.
  assert (Hin : c ∈ events_of f l).
  { apply elem_of_List_filter. split; [done|]. by apply bool_decide_eq_true. }
  rewrite Hl in Hin. inversion Hin.
Qed.

(** After a diff step the last known owner of every gym of the query result
    is its current owner, provided no ChangeEvent of the table is dated after
    the step. *)
Lemma last_owner_after_step (rt : Runtime) (geofenceId : string) (s : Store)
    (f : string) (currentOwner : option Z) :
  NoDup (GymRow.id <$> gym s) ->
  (forall c, c ∈ gym_team_changes s -> changed_at c <= Date_now rt `div` 1000) ->
  (f, currentOwner) ∈ Collector.select_current rt geofenceId s ->
  Collector.build_lastStateMap
    (Collector.select_last_state
       (mkStore (gym s) (gym_history s)
          (gym_team_changes s ++ tracked_changes rt geofenceId s))) !! f
  = Some currentOwner.
Proof.
  intros Hnd Hclock Hin.
  pose proof (tracked_changes_of rt geofenceId s f currentOwner Hnd Hin) as Hev.
  assert (Hnew : forall e,
    events_of f (tracked_changes rt geofenceId s) = [e] ->
    changed_at e = Date_now rt `div` 1000 -> new_team_id e = currentOwner ->
    Collector.build_lastStateMap
      (Collector.select_last_state
         (mkStore (gym s) (gym_history s)
            (gym_team_changes s ++ tracked_changes rt geofenceId s))) !! f
    = Some currentOwner).
  { intros e He Hts Hown.
    apply events_of_singleton in He as (Hf & pre & post & Htr & Hpre & Hpost).
    rewrite <- Hown. apply lastStateMap_most_recent. cbn [gym_team_changes].
    exists (gym_team_changes s ++ pre), post. rewrite Htr.
    split; [by rewrite <- app_assoc|]. split; [done|]. split.
    - intros c' [Hc'|Hc']%elem_of_app Hf'.
      + rewrite Hts. by apply Hclock.
      + by apply Hpre in Hc'.
    - intros c' Hc' Hf'. by apply Hpost in Hc'. }
  destruct (Collector.build_lastStateMap (Collector.select_last_state s) !! f)
    as [lastOwner|] eqn:El.
  - destruct (decide (lastOwner = currentOwner)) as [->|Hne].
    + apply lastStateMap_lookup_inv in El as (c & (pre & post & Htbl & Hf & Hpre & Hpost) & Hown).
      rewrite <- Hown. apply lastStateMap_most_recent. cbn [gym_team_changes].
      exists pre, (post ++ tracked_changes rt geofenceId s). rewrite Htbl.
      split; [by rewrite <- app_assoc|]. split; [done|]. split; [done|].
      intros c' [Hc'|Hc']%elem_of_app Hf'; [by apply Hpost|].
      by apply (events_of_nil f _ Hev) in Hc'.
    + by apply (Hnew _ Hev).
  - by apply (Hnew _ Hev).
Qed.

Lemma select_current_ext (rt1 rt2 : Runtime) (geofenceId : string) (s1 s2 : Store) :
  (forall g lon lat, ST_CONTAINS rt2 g lon lat = ST_CONTAINS rt1 g lon lat) ->
  gym s2 = gym s1 ->
  Collector.select_current rt2 geofenceId s2 = Collector.select_current rt1 geofenceId s1.
Proof.
  intros Hst Hg. unfold Collector.select_current. rewrite Hg. f_equal.
  apply List.filter_ext. intros g. unfold in_region. by rewrite Hst.
Qed.

(** X2.  No-op suppression.  Two diff steps in succession over the same
    [gym] table, with [id] a key of [gym], the same answers of the geofence,
    and no ChangeEvent of the table dated after the clock of the first step:
    the second step appends nothing and leaves the world as the first one
    left it. *)
Theorem X2_unchanged_owner_no_event (rt1 rt2 : Runtime) (geofenceId : string)
    (w : World) (s : Store) :
  fault_free rt1 ->
  fault_free rt2 ->
  working w = Some s ->
  NoDup (GymRow.id <$> gym s) ->
  (forall g lon lat, ST_CONTAINS rt2 g lon lat = ST_CONTAINS rt1 g lon lat) ->
  (forall c, c ∈ gym_team_changes s -> changed_at c <= Date_now rt1 `div` 1000) ->
  exists w1,
    Collector.trackTeamChanges rt1 geofenceId w = (Ok tt, w1)
    /\ Collector.trackTeamChanges rt2 geofenceId w1 = (Ok tt, w1).
Proof.
  intros Hff1 Hff2 Hw Hnd Hst Hclock.
  destruct (trackTeamChanges_fault_free rt1 geofenceId w Hff1) as [w1 Hrun1];
    [by eexists|].
  exists w1. split; [done|].
  destruct (trackTeamChanges_run _ _ _ _ _ _ Hw Hrun1) as (_ & _ & _ & Hok1).
  destruct (Hok1 tt eq_refl) as [Hw1 _]. clear Hok1.
  destruct (trackTeamChanges_fault_free rt2 geofenceId w1 Hff2) as [w2 Hrun2];
    [by eexists|].
  rewrite Hrun2. f_equal.
  destruct (trackTeamChanges_run _ _ _ _ _ _ Hw1 Hrun2) as (Hc & Hl & _ & Hok2).
  destruct (Hok2 tt eq_refl) as [Hw2 _]. clear Hok2.
  assert (Hnone :
    tracked_changes rt2 geofenceId
      (mkStore (gym s) (gym_history s)
         (gym_team_changes s ++ tracked_changes rt1 geofenceId s)) = []).
  { unfold tracked_changes at 1. apply diff_events_settled.
    intros [f cur] Hin. cbn [fst snd].
    rewrite (select_current_ext rt1 rt2 geofenceId s) in Hin by done.
    by apply last_owner_after_step. }
  rewrite Hnone, app_nil_r in Hw2. cbn [gym gym_history gym_team_changes] in Hw2.
  destruct w1, w2. cbn in *. congruence.
Qed.

Lemma X2_unchanged_owner_no_event_witness :
  exists w1,
    Collector.trackTeamChanges (Sample.runtime 2000) "golbat"
      (mkWorld Sample.flipped (Some Sample.flipped) []) = (Ok tt, w1)
    /\ Collector.trackTeamChanges (Sample.runtime 2300) "golbat" w1 = (Ok tt, w1).
Proof.
  apply (X2_unchanged_owner_no_event (Sample.runtime 2000) (Sample.runtime 2300)
           "golbat" (mkWorld Sample.flipped (Some Sample.flipped) [])
           Sample.flipped).
  - intros st. reflexivity.
  - intros st. reflexivity.
  - reflexivity.
  - vm_compute. apply NoDup_singleton.
  - intros g lon lat. reflexivity.
  - intros c Hc. vm_compute in Hc. apply list_elem_of_singleton in Hc.
    subst c. vm_compute. discriminate.
Defined.

(** Every row of a diff step: stamped with the step's clock, taken from the
    query result, and either a change of owner or the first row of a gym the
    map does not know. *)
Lemma diff_events_shape (ts : Z) (rows : list (string * option Z)) :
  forall (m : gmap string (option Z)) (e : TeamChange),
    e ∈ diff_events ts rows m ->
    changed_at e = ts
    /\ (gym_id e, new_team_id e) ∈ rows
    /\ (old_team_id e <> new_team_id e
        \/ old_team_id e = None /\ m !! gym_id e = None).
Proof.
  induction rows as [|row rows IH]; intros m e He; [inversion He|].
  cbn [diff_events] in He.
  assert (Hrest : forall m',
    m' = m \/ m' = <[row.1 := row.2]> m ->
    e ∈ diff_events ts rows m' ->
    (old_team_id e = None /\ m' !! gym_id e = None ->
     old_team_id e = None /\ m !! gym_id e = None) ->
    changed_at e = ts
    /\ (gym_id e, new_team_id e) ∈ row :: rows
    /\ (old_team_id e <> new_team_id e
        \/ old_team_id e = None /\ m !! gym_id e = None)).
  { intros m' _ Hin Hm. destruct (IH m' e Hin) as (Hts & Hrow & Hcase).
    split; [done|]. split; [by right|]. destruct Hcase as [?|?]; [by left|].
    right. by apply Hm. }
  assert (Hins : forall m', m' = <[row.1 := row.2]> m ->
    old_team_id e = None /\ m' !! gym_id e = None ->
    old_team_id e = None /\ m !! gym_id e = None).
  { intros m' -> [Ho Hl]. split; [done|].
    destruct (decide (row.1 = gym_id e)) as [Heq|Hne].
    - rewrite <- Heq, lookup_insert_eq in Hl. done.
    - by rewrite lookup_insert_ne in Hl. }
  destruct (m !! row.1) as [lastTeam|] eqn:El.
  - destruct (decide (lastTeam = row.2)) as [Heq|Hne].
    + apply (Hrest m); [by left | done | done].
    + apply elem_of_cons in He as [->|He].
      * cbn. split; [done|]. split; [destruct row; left|]. by left.
      * apply (Hrest (<[row.1 := row.2]> m)); [by right | done | by apply Hins].
  - apply elem_of_cons in He as [->|He].
    + cbn. split; [done|]. split; [destruct row; left|]. by right.
    + apply (Hrest (<[row.1 := row.2]> m)); [by right | done | by apply Hins].
Qed.

Lemma diff_events_NoDup (ts : Z) (rows : list (string * option Z)) :
  forall m : gmap string (option Z),
    NoDup rows.*1 -> NoDup (gym_id <$> diff_events ts rows m).
Proof.
  induction rows as [|row rows IH]; intros m Hnd; [constructor|].
  rewrite fmap_cons in Hnd. apply NoDup_cons in Hnd as [Hfresh Hnd].
  assert (Hcons : forall old m',
    NoDup (gym_id <$> mkTeamChange row.1 old row.2 ts :: diff_events ts rows m')).
  { intros old m'. rewrite fmap_cons. apply NoDup_cons. split; [|by apply IH].
    cbn [gym_id]. intros Hin. apply Hfresh.
    apply list_elem_of_fmap in Hin as (e & Hid & He).
    apply diff_events_shape in He as (_ & Hrow & _).
    apply list_elem_of_fmap. exists (gym_id e, new_team_id e). by split. }
  cbn [diff_events].
  destruct (m !! row.1) as [lastTeam|]; [|apply Hcons].
  destruct (decide (lastTeam = row.2)); [by apply IH | apply Hcons].
Qed.

(** X3.  What a diff step appends.  Every appended row carries the clock of
    the step, names an enabled gym inside the geofence together with the
    current [team_id] of that gym, and either records a change of owner
    ([old_team_id <> new_team_id]) or is the first row of a gym that has no
    ChangeEvent yet (with [old_team_id] NULL).  When [id] is a key of [gym], no
    two appended rows are about the same gym. *)
Theorem X3_appended_events (rt : Runtime) (geofenceId : string) (w : World)
    (s : Store) :
  fault_free rt ->
  working w = Some s ->
  exists w' appended,
    Collector.trackTeamChanges rt geofenceId w = (Ok tt, w')
    /\ gym_team_changes <$> working w' = Some (gym_team_changes s ++ appended)
    /\ (forall e, e ∈ appended ->
          changed_at e = Date_now rt `div` 1000
          /\ (exists g, g ∈ gym s /\ in_region rt geofenceId g = true
                        /\ GymRow.id g = gym_id e
                        /\ GymRow.team_id g = new_team_id e)
          /\ (old_team_id e <> new_team_id e
              \/ old_team_id e = None
                 /\ forall c, c ∈ gym_team_changes s -> gym_id c <> gym_id e))
    /\ (NoDup (GymRow.id <$> gym s) -> NoDup (gym_id <$> appended)).
Proof.
  intros Hff Hw.
  destruct (trackTeamChanges_fault_free rt geofenceId w Hff) as [w' Hrun];
    [by eexists|].
  exists w', (tracked_changes rt geofenceId s).
  destruct (trackTeamChanges_run _ _ _ _ _ _ Hw Hrun) as (_ & _ & _ & Hok).
  destruct (Hok tt eq_refl) as [Hw' _].
  split; [done|]. split; [by rewrite Hw'|]. split.
  - intros e He. apply diff_events_shape in He as (Hts & Hrow & Hcase).
    split; [done|]. split.
    + unfold Collector.select_current in Hrow.
      apply list_elem_of_fmap in Hrow as (g & Heq & Hg).
      apply elem_of_List_filter in Hg as [Hg Hreg]. injection Heq as Hid Hteam.
      by exists g.
    + destruct Hcase as [?|[Hold Hl]]; [by left|]. right. split; [done|].
      intros c Hc Hf.
      destruct (most_recent_change_exists (gym_team_changes s) (gym_id e))
        as [c' Hc']; [by exists c|].
      by rewrite (lastStateMap_most_recent s _ c' Hc') in Hl.
  - intros Hnd. apply diff_events_NoDup. by apply select_current_NoDup.
Qed.

Lemma X3_appended_events_witness :
  let rt := Sample.runtime 2000 in
  let s := Sample.flipped in
  exists w' appended,
    Collector.trackTeamChanges rt "golbat" (mkWorld s (Some s) []) = (Ok tt, w')
    /\ gym_team_changes <$> working w' = Some (gym_team_changes s ++ appended)
    /\ (forall e, e ∈ appended ->
          changed_at e = Date_now rt `div` 1000
          /\ (exists g, g ∈ gym s /\ in_region rt "golbat" g = true
                        /\ GymRow.id g = gym_id e
                        /\ GymRow.team_id g = new_team_id e)
          /\ (old_team_id e <> new_team_id e
              \/ old_team_id e = None
                 /\ forall c, c ∈ gym_team_changes s -> gym_id c <> gym_id e))
    /\ (NoDup (GymRow.id <$> gym s) -> NoDup (gym_id <$> appended)).
Proof.
  apply (X3_appended_events (Sample.runtime 2000) "golbat"
           (mkWorld Sample.flipped (Some Sample.flipped) []) Sample.flipped).
  - intros st. reflexivity.
  - reflexivity.
Defined.

(** ** From the collector to the dashboard *)

(** X4.  From the collector to the dashboard.  After a successful run of
    the collector, with a retention that is a number of seconds (neither NaN
    nor Infinity), whose sample is newer than every sample already stored and
    is not swept by the run itself, a history request in which nothing fails
    reports as [currentCounts] the numbers of gyms the collector counted, per
    faction and in total, and as [lastUpdated] the instant of the sample,
    whatever the period. *)
Theorem X4_collected_counts_are_current (collector : Runtime) (env : Env)
    (w : World) (retention : Z) (rt : Runtime) (env' : Env) (period : string) :
  working w = None ->
  Collector.retentionSeconds collector env = Some retention ->
  (Collector.collectGymHistory collector env w).1 = Ok tt ->
  UNIX_TIMESTAMP collector CollectorSweepHistory - retention
    <= UNIX_TIMESTAMP collector CollectorInsertHistory ->
  (forall h, h ∈ gym_history (committed w) ->
             timestamp h < UNIX_TIMESTAMP collector CollectorInsertHistory) ->
  fault_free rt ->
  configured env' ->
  exists geofenceId response w',
    env "GEOFENCE_ID" = Some geofenceId
    /\ GymData.fetchGymHistory rt env' period
         (Collector.collectGymHistory collector env w).2 = (Ok response, w')
    /\ let region :=
         List.filter (in_region collector geofenceId) (gym (committed w)) in
       GymHistoryResponse.currentCounts response
       = CurrentCounts.mk (held_by 1 region) (held_by 2 region) (held_by 3 region)
           (Z.of_nat (length region))
       /\ GymHistoryResponse.lastUpdated response
          = UNIX_TIMESTAMP collector CollectorInsertHistory * 1000.
Proof.
  intros Hw Hret Hok Hkeep Hold Hff (dbName & geofenceDbName & gid' & E1 & E2 & E3).
  destruct (Collector.collectGymHistory collector env w) as [r w1] eqn:Erun.
  cbn [fst snd] in Hok |- *. subst r.
  destruct (collectGymHistory_run collector env w _ w1 Hw Erun)
    as [_ [[_ [e ?]]|(geofenceId & Hg & Hc & _)]]; [done|].
  exists geofenceId. eexists _, _. split; [done|].
  split; [by apply (fetchGymHistory_fault_free rt env' period w1 _ _ _ E1 E2 E3)|].
  cbn zeta. cbn [GymHistoryResponse.currentCounts GymHistoryResponse.lastUpdated].
  set (region := List.filter (in_region collector geofenceId) (gym (committed w))).
  set (sample := mkHistorySample (UNIX_TIMESTAMP collector CollectorInsertHistory)
                   (held_by 1 region) (held_by 2 region) (held_by 3 region)
                   (Z.of_nat (length region))).
  assert (Hhist : forall h, h ∈ gym_history (committed w1) <->
            (h ∈ gym_history (committed w) \/ h = sample)
            /\ UNIX_TIMESTAMP collector CollectorSweepHistory - retention
               <= timestamp h).
  { intros h. rewrite Hc, Hret, collected_history.
    by rewrite collected_sample_counts. }
  assert (Hin : sample ∈ gym_history (committed w1)).
  { apply Hhist. split; [by right|]. exact Hkeep. }
  destruct (select_latest_sample_latest (committed w1)) as (latest & -> & Hl & Hmax).
  { intros Hnil. rewrite Hnil in Hin. inversion Hin. }
  assert (latest = sample) as ->.
  { apply Hhist in Hl as [[Hl|Hl] _]; [|done].
    specialize (Hold _ Hl). specialize (Hmax _ Hin). cbn in Hmax. lia. }
  unfold GymData.current_counts, GymData.last_updated.
  cbn [sample team_mystic team_valor team_instinct total_gyms timestamp].
  rewrite !Math_round_integer. split; [|done]. f_equal.
  pose proof (held_by_sum region). lia.
Qed.

Lemma X4_collected_counts_are_current_witness :
  let collector := Sample.runtime 1000 in
  let w := Sample.idle Sample.fresh in
  exists geofenceId response w',
    Sample.env "GEOFENCE_ID" = Some geofenceId
    /\ GymData.fetchGymHistory (Sample.runtime 1200) Sample.env "24h"
         (Collector.collectGymHistory collector Sample.env w).2 = (Ok response, w')
    /\ let region :=
         List.filter (in_region collector geofenceId) (gym (committed w)) in
       GymHistoryResponse.currentCounts response
       = CurrentCounts.mk (held_by 1 region) (held_by 2 region) (held_by 3 region)
           (Z.of_nat (length region))
       /\ GymHistoryResponse.lastUpdated response
          = UNIX_TIMESTAMP collector CollectorInsertHistory * 1000.
Proof.
  apply (X4_collected_counts_are_current (Sample.runtime 1000) Sample.env
           (Sample.idle Sample.fresh) 604800 (Sample.runtime 1200) Sample.env "24h").
  - reflexivity.
  - vm_compute. reflexivity.
  - vm_compute. reflexivity.
  - vm_compute. discriminate.
  - intros h Hh. vm_compute in Hh. inversion Hh.
  - intros st. reflexivity.
  - exact Sample_configured.
Defined.

(** ** The configuration guard of the collector *)

Lemma ensure_cases (value : option string) (name : string) :
  truthy value = true /\ Collector.ensure value name = Ok (default "" value)
  \/ truthy value = false
     /\ exists msg, Collector.ensure value name = Throw (ConfigError msg).
Proof.
  unfold Collector.ensure, truthy. destruct value as [v|]; [|right; eauto].
  destruct (decide (v = "")) as [->|Hne].
  - right. eauto.
  - left. by rewrite bool_decide_eq_false_2.
Qed.

Lemma ensureIdentifier_cases (value : option string) (name : string) :
  truthy value = true /\ Collector.matches_word (default "" value) = true
  /\ Collector.ensureIdentifier value name = Ok (default "" value)
  \/ (truthy value = false \/ Collector.matches_word (default "" value) = false)
     /\ exists msg, Collector.ensureIdentifier value name = Throw (ConfigError msg).
Proof.
  unfold Collector.ensureIdentifier.
  destruct (ensure_cases value name) as [[Ht ->]|[Ht [msg ->]]]; [|right; eauto].
  destruct (Collector.matches_word (default "" value)) eqn:Hm.
  - left. done.
  - right. eauto.
Qed.

Lemma store_errors_bind {A B} (m : M A) (k : A -> M B) :
  store_errors m -> (forall a, store_errors (k a)) -> store_errors (bind m k).
Proof.
  intros Hm Hk w e w' Hrun. apply bind_Throw_inv in Hrun as [Hrun|(a & w1 & _ & Hrun)].
  - by eapply Hm.
  - by eapply Hk.
Qed.

Lemma store_errors_ret {A} (a : A) : store_errors (ret a).
Proof. intros w e w'. discriminate. Qed.

Lemma store_errors_emit (l : LogLine) : store_errors (emit l).
Proof. intros w e w'. discriminate. Qed.

Lemma store_errors_query {A} (rt : Runtime) (st : Stmt) (q : Store -> A) :
  store_errors (query rt st q).
Proof.
  intros w e w'. unfold query. destruct (faulty rt st); [|discriminate].
  intros [= <- _]. eauto.
Qed.

Lemma store_errors_execute (rt : Runtime) (st : Stmt) (upd : Store -> Store) :
  store_errors (execute rt st upd).
Proof.
  intros w e w'. unfold execute. destruct (faulty rt st).
  - intros [= <- _]. eauto.
  - destruct (working w); discriminate.
Qed.

Lemma store_errors_diff_loop (rt : Runtime) (ts : Z) (rows : list (string * option Z)) :
  forall k m, store_errors (Collector.diff_loop rt ts k rows m).
Proof.
  induction rows as [|row rows IH]; intros k m; [apply store_errors_ret|].
  cbn [Collector.diff_loop].
  destruct (m !! row.1) as [lastTeam|]; [destruct (decide (lastTeam = row.2))|];
    auto using store_errors_bind, store_errors_execute.
Qed.

Lemma store_errors_transaction (rt : Runtime) (geofenceId : string)
    (retention : option Z) :
  store_errors (Collector.transaction rt geofenceId retention).
Proof.
  unfold Collector.transaction.
  apply store_errors_bind.
  { intros w e w'. unfold beginTransaction.
    destruct (faulty rt BeginTransaction); [|discriminate]. intros [= <- _]. eauto. }
  intros _. apply store_errors_bind; [apply store_errors_query|].
  intros [[[mystic valor] instinct] total].
  apply store_errors_bind; [apply store_errors_execute|]. intros _.
  apply store_errors_bind.
  { unfold Collector.trackTeamChanges.
    apply store_errors_bind; [apply store_errors_query|]. intros currentRows.
    apply store_errors_bind; [apply store_errors_query|]. intros lastStateRows.
    apply store_errors_diff_loop. }
  intros _. apply store_errors_bind; [apply store_errors_execute|]. intros _.
  apply store_errors_bind; [apply store_errors_execute|]. intros _.
  apply store_errors_bind; [|intros _; apply store_errors_emit].
  intros w e w'. unfold commit.
  destruct (faulty rt Commit); [|discriminate]. intros [= <- _]. eauto.
Qed.

Lemma store_errors_connection (rt : Runtime) (geofenceId : string)
    (retention : option Z) :
  store_errors
    (bind (getConnection rt)
       (fun _ =>
          try_finally
            (try_catch (Collector.transaction rt geofenceId retention)
               (fun error =>
                  bind (rollback rt)
                    (fun _ =>
                       bind (emit (ConsoleError "Error collecting gym history:"))
                         (fun _ => throw error))))
            (release_and_end rt))).
Proof.
  apply store_errors_bind.
  { intros w e w'. unfold getConnection.
    destruct (faulty rt GetConnection); [|discriminate]. intros [= <- _]. eauto. }
  intros _ w e w'. unfold try_finally, try_catch, release_and_end.
  destruct (Collector.transaction rt geofenceId retention w) as [[[]|e0] w0] eqn:Et.
  - destruct (faulty rt PoolEnd); [|discriminate]. intros [= <- _]. eauto.
  - apply store_errors_transaction in Et as [st0 ->].
    unfold bind, rollback, emit, throw.
    destruct (faulty rt Rollback), (faulty rt PoolEnd); intros [= <- _]; eauto.
Qed.

Lemma bind_lift_Ok {A B} (a : A) (k : A -> M B) (w : World) :
  bind (lift (Ok a)) k w = k a w.
Proof. reflexivity. Qed.

Lemma bind_lift_Throw {A B} (e : Error) (k : A -> M B) (w : World) :
  bind (lift (Throw e)) k w = (Throw e, w).
Proof. reflexivity. Qed.

(** X5.  The configuration guard of the collector.  When one of DB_HOST,
    DB_USER, DB_PASS, DB_NAME, GEOFENCE_DB_NAME, GEOFENCE_ID is missing or
    empty, or DB_NAME or GEOFENCE_DB_NAME holds a character outside
    [A-Za-z0-9_], the run throws a configuration error and leaves the world
    as it was: no statement is sent and nothing is logged.  With a complete
    configuration every error of a run is the failure of a statement. *)
Theorem X5_collector_config_guard (rt : Runtime) (env : Env) (w : World) :
  (~ collector_configured env ->
   exists msg, Collector.collectGymHistory rt env w = (Throw (ConfigError msg), w))
  /\ (collector_configured env ->
      forall e w', Collector.collectGymHistory rt env w = (Throw e, w') ->
                   exists st, e = StoreError st).
Proof.
  unfold Collector.collectGymHistory.
  destruct (ensure_cases (env "DB_HOST") "DB_HOST") as [[T1 ->]|[T1 [msg ->]]];
    [rewrite bind_lift_Ok|];
  [destruct (ensure_cases (env "DB_USER") "DB_USER") as [[T2 ->]|[T2 [msg ->]]];
    [rewrite bind_lift_Ok|]|];
  [destruct (ensure_cases (env "DB_PASS") "DB_PASS") as [[T3 ->]|[T3 [msg ->]]];
    [rewrite bind_lift_Ok|]| |];
  [destruct (ensureIdentifier_cases (env "DB_NAME") "DB_NAME")
     as [(T4 & W4 & ->)|[T4 [msg ->]]]; [rewrite bind_lift_Ok|]| | |];
  [destruct (ensureIdentifier_cases (env "GEOFENCE_DB_NAME") "GEOFENCE_DB_NAME")
     as [(T5 & W5 & ->)|[T5 [msg ->]]]; [rewrite bind_lift_Ok|]| | | |];
  [destruct (ensure_cases (env "GEOFENCE_ID") "GEOFENCE_ID")
     as [[T6 ->]|[T6 [msg ->]]]; [rewrite bind_lift_Ok|]| | | | |].
  - assert (Hcfg : collector_configured env).
    { split; intros name Hname;
        repeat (apply elem_of_cons in Hname as [->|Hname]; [done|]);
        inversion Hname. }
    split; [done|]. intros _ e w'. apply store_errors_connection.
  - rewrite bind_lift_Throw. split; [eauto|]. intros [Hcfg _].
    rewrite Hcfg in T6; [done|]. set_solver.
  - rewrite bind_lift_Throw. split; [eauto|]. intros [Hcfg Hword].
    destruct T5 as [T5|T5]; [rewrite Hcfg in T5 | rewrite Hword in T5];
      [done | set_solver | done | set_solver].
  - rewrite bind_lift_Throw. split; [eauto|]. intros [Hcfg Hword].
    destruct T4 as [T4|T4]; [rewrite Hcfg in T4 | rewrite Hword in T4];
      [done | set_solver | done | set_solver].
  - rewrite bind_lift_Throw. split; [eauto|]. intros [Hcfg _].
    rewrite Hcfg in T3; [done|]. set_solver.
  - rewrite bind_lift_Throw. split; [eauto|]. intros [Hcfg _].
    rewrite Hcfg in T2; [done|]. set_solver.
  - rewrite bind_lift_Throw. split; [eauto|]. intros [Hcfg _].
    rewrite Hcfg in T1; [done|]. set_solver.
Qed.

(** ** Identifiers *)

Lemma is_word_char_spec (c : Ascii.ascii) :
  Collector.is_word_char c = true
  <-> let n := Ascii.N_of_ascii c in
      (48 <= n <= 57 \/ 65 <= n <= 90 \/ 97 <= n <= 122 \/ n = 95)%N.
Proof.
  unfold Collector.is_word_char. cbn zeta.
  rewrite !orb_true_iff, !andb_true_iff, !N.leb_le, N.eqb_eq. tauto.
Qed.

Lemma matches_word_spec (v : string) :
  Collector.matches_word v = true
  <-> v <> ""
      /\ forall c, c ∈ String.list_ascii_of_string v ->
           let n := Ascii.N_of_ascii c in
           (48 <= n <= 57 \/ 65 <= n <= 90 \/ 97 <= n <= 122 \/ n = 95)%N.
Proof.
  unfold Collector.matches_word.
  rewrite andb_true_iff, negb_true_iff, bool_decide_eq_false, forallb_forall.
  apply and_iff_compat_l. split; intros H c Hc.
  - apply list_elem_of_In, H in Hc. by apply is_word_char_spec.
  - apply list_elem_of_In, H in Hc. by apply is_word_char_spec.
Qed.

(** X6.  Identifiers.  [ensureIdentifier] of the collector and
    [ensureIdentifier] of the read side accept the same values: a value is
    accepted, and returned as it is, exactly when it is present, not empty and
    made of the characters [A-Za-z0-9_] only. *)
Theorem X6_identifiers (value : option string) (name label v : string) :
  (Collector.ensureIdentifier value name = Ok v
   <-> GymData.ensureIdentifier value label = Ok v)
  /\ (GymData.ensureIdentifier value label = Ok v
      <-> value = Some v /\ v <> ""
          /\ forall c, c ∈ String.list_ascii_of_string v ->
               let n := Ascii.N_of_ascii c in
               (48 <= n <= 57 \/ 65 <= n <= 90 \/ 97 <= n <= 122 \/ n = 95)%N).
Proof.
  assert (Hdash : GymData.ensureIdentifier value label = Ok v
                  <-> value = Some v /\ Collector.matches_word v = true).
  { unfold GymData.ensureIdentifier. destruct value as [v'|].
    2: { split; [discriminate | intros [? _]; discriminate]. }
    destruct (decide (v' = "")) as [->|Hne].
    - split; [discriminate|]. intros [[= <-] Hm]. by vm_compute in Hm.
    - destruct (Collector.matches_word v') eqn:Hm.
      + split; [by intros [= ->] | by intros [[= ->] _]].
      + split; [discriminate | intros [[= ->] Hm']; congruence]. }
  assert (Hcoll : Collector.ensureIdentifier value name = Ok v
                  <-> value = Some v /\ Collector.matches_word v = true).
  { unfold Collector.ensureIdentifier, Collector.ensure. destruct value as [v'|].
    2: { split; [discriminate | intros [? _]; discriminate]. }
    destruct (decide (v' = "")) as [->|Hne].
    - split; [discriminate|]. intros [[= <-] Hm]. by vm_compute in Hm.
    - destruct (Collector.matches_word v') eqn:Hm.
      + split; [by intros [= ->] | by intros [[= ->] _]].
      + split; [discriminate | intros [[= ->] Hm']; congruence]. }
  split; [by rewrite Hdash, Hcoll|].
  rewrite Hdash, matches_word_spec. tauto.
Qed.

(** * Further properties of the history response *)

(** Every call of [fetchGymHistory] answers, with the empty response or with
    the response built from the four reads. *)
Lemma fetchGymHistory_cases (rt : Runtime) (env : Env) (period : string) (w : World) :
  let key := GymData.resolve_key period in
  exists response w',
    GymData.fetchGymHistory rt env period w = (Ok response, w')
    /\ (response = GymData.empty_history key
        \/ exists geofenceId,
             let duration := PeriodConfig.duration (GymData.PERIOD_CONFIG key) in
             let bucket := PeriodConfig.bucket (GymData.PERIOD_CONFIG key) in
             let latest := head (GymData.select_latest_sample (committed w)) in
             let contestedRows :=
               GymData.select_contested rt duration geofenceId (committed w) in
             let gymIds := ContestedRow.gym_id <$> contestedRows in
             let recentChangeMap :=
               if (0 <? length gymIds)%nat
               then GymData.mapRecentChanges
                      (GymData.select_recent gymIds (committed w))
               else ∅ in
             response
             = GymHistoryResponse.mk (GymData.period_name key)
                 (GymData.buildChartData
                    (GymData.select_history_buckets rt duration bucket (committed w)))
                 (GymData.contested_gym recentChangeMap <$> contestedRows)
                 (GymData.current_counts latest)
                 (GymData.last_updated latest)).
Proof.
  cbn zeta. unfold GymData.fetchGymHistory.
  destruct (GymData.ensureIdentifier (env "DB_NAME") "DB_NAME")
    as [dbName|e1] eqn:E1;
  [destruct (GymData.ensureIdentifier (env "GEOFENCE_DB_NAME") "GEOFENCE_DB_NAME")
     as [geofenceDbName|e2] eqn:E2;
   [destruct (GymData.ensureIdentifier (env "GEOFENCE_ID") "GEOFENCE_ID")
      as [geofenceId|e3] eqn:E3|]|];
  try (eexists _, _; split; [reflexivity|]; by left).
  unfold try_catch.
  destruct (faulty rt HistoryBuckets) eqn:F1;
    [rewrite bind_pool_execute_fail by done;
     eexists _, _; split; [reflexivity|]; by left|].
  rewrite bind_pool_execute_ok by done.
  destruct (faulty rt HistoryLatest) eqn:F2;
    [rewrite bind_pool_execute_fail by done;
     eexists _, _; split; [reflexivity|]; by left|].
  rewrite bind_pool_execute_ok by done.
  destruct (faulty rt HistoryContested) eqn:F3;
    [rewrite bind_pool_execute_fail by done;
     eexists _, _; split; [reflexivity|]; by left|].
  rewrite bind_pool_execute_ok by done.
  destruct (0 <? _)%nat eqn:Hlen.
  - unfold bind at 1. destruct (faulty rt HistoryRecent) eqn:F4.
    + rewrite bind_pool_execute_fail by done.
      eexists _, _; split; [reflexivity|]; by left.
    + rewrite bind_pool_execute_ok by done.
      eexists _, _; split; [reflexivity|]. right. exists geofenceId.
      by rewrite Hlen.
  - eexists _, _; split; [reflexivity|]. right. exists geofenceId.
    by rewrite Hlen.
Qed.

(** ** The period of the response *)

Lemma resolve_key_name (period : string) :
  GymData.period_name (GymData.resolve_key period)
  = if bool_decide (period ∈ ["6h"; "12h"; "24h"; "48h"; "7d"]) then period
    else "24h".
Proof.
  unfold GymData.resolve_key.
  destruct (decide (period ∈ ["6h"; "12h"; "24h"; "48h"; "7d"])) as [Hin|Hin].
  - rewrite (bool_decide_eq_true_2 _ Hin).
    repeat (apply elem_of_cons in Hin as [->|Hin]; [reflexivity|]). inversion Hin.
  - rewrite (bool_decide_eq_false_2 _ Hin). cbn [List.find].
    repeat (rewrite bool_decide_eq_false_2;
            [|intros Heq; apply Hin; rewrite <- Heq; cbn; set_solver]).
    reflexivity.
Qed.

(** X7.  The period of a history request.  The handler always answers with
    status 200 and a history body.  The [period] of the body is the requested
    one when that is one of 6h, 12h, 24h, 48h and 7d, and 24h when the
    parameter is absent or anything else. *)
Theorem X7_period_fallback (rt : Runtime) (env : Env) (period : option string)
    (w : World) :
  let periods := ["6h"; "12h"; "24h"; "48h"; "7d"] in
  exists data w',
    GymHistoryRoute.GET rt env period w = (Http.mk 200 (Http.HistoryBody data), w')
    /\ GymHistoryResponse.period data ∈ periods
    /\ (forall p, period = Some p -> p ∈ periods ->
                  GymHistoryResponse.period data = p)
    /\ ((period = None \/ exists p, period = Some p /\ p ∉ periods) ->
        GymHistoryResponse.period data = "24h").
Proof.
  cbn zeta. unfold GymHistoryRoute.GET.
  destruct (fetchGymHistory_cases rt env (default "24h" period) w)
    as (response & w' & -> & Hcases).
  exists response, w'. split; [done|].
  assert (Hp : GymHistoryResponse.period response
               = GymData.period_name (GymData.resolve_key (default "24h" period))).
  { destruct Hcases as [->|[g ->]]; reflexivity. }
  rewrite Hp, resolve_key_name. split; [|split].
  - case_bool_decide; [done | do 2 right; left].
  - intros p -> Hin. cbn [default]. by rewrite bool_decide_eq_true_2.
  - intros [->|(p & -> & Hnot)]; [reflexivity|].
    cbn [default]. by rewrite bool_decide_eq_false_2.
Qed.

(** ** Totals *)

(** X8.  Totals.  In the history response of any call, the total of each
    chart point and of [currentCounts] is at least the sum of the three
    faction values.  Hence the [uncontrolled] value the chart derives for each
    point is not negative and the four values of a point add up to its total,
    and the four summary cards add up to the current total. *)
Theorem X8_totals_cover_factions (rt : Runtime) (env : Env) (period : string)
    (w : World) :
  exists response w',
    GymData.fetchGymHistory rt env period w = (Ok response, w')
    /\ (forall p, p ∈ GymHistoryResponse.chartData response ->
          ChartDataPoint.mystic p + ChartDataPoint.valor p + ChartDataPoint.instinct p
          <= ChartDataPoint.total p)
    /\ (let c := GymHistoryResponse.currentCounts response in
        CurrentCounts.mystic c + CurrentCounts.valor c + CurrentCounts.instinct c
        <= CurrentCounts.total c)
    /\ (forall p, p ∈ GymHistoryChart.chartData (Some response) ->
          0 <= ChartDisplayPoint.uncontrolled p
          /\ ChartDisplayPoint.mystic p + ChartDisplayPoint.valor p
             + ChartDisplayPoint.instinct p + ChartDisplayPoint.uncontrolled p
             = ChartDisplayPoint.total p)
    /\ foldr Z.add 0 (GymHistoryChart.summaryCards response).*2
       = CurrentCounts.total (GymHistoryResponse.currentCounts response).
Proof.
  destruct (fetchGymHistory_cases rt env period w) as (response & w' & Hrun & Hcases).
  exists response, w'. split; [done|].
  assert (Hchart : forall p, p ∈ GymHistoryResponse.chartData response ->
            ChartDataPoint.mystic p + ChartDataPoint.valor p
            + ChartDataPoint.instinct p <= ChartDataPoint.total p).
  { intros p Hp. destruct Hcases as [->|[g ->]]; [inversion Hp|].
    cbn [GymHistoryResponse.chartData] in Hp. unfold GymData.buildChartData in Hp.
    apply list_elem_of_fmap in Hp as (row & -> & _). cbn. lia. }
  assert (Hcur :
    let c := GymHistoryResponse.currentCounts response in
    CurrentCounts.mystic c + CurrentCounts.valor c + CurrentCounts.instinct c
    <= CurrentCounts.total c).
  { destruct Hcases as [->|[g ->]]; [cbn; lia|].
    cbn [GymHistoryResponse.currentCounts]. unfold GymData.current_counts.
    destruct (head _); cbn; lia. }
  split; [done|]. split; [done|]. split.
  - intros p Hp. unfold GymHistoryChart.chartData in Hp.
    apply list_elem_of_fmap in Hp as (q & -> & Hq). apply Hchart in Hq.
    cbn. lia.
  - cbn zeta in Hcur. unfold GymHistoryChart.summaryCards,
      GymHistoryChart.currentUncontrolled. cbn. lia.
Qed.

(** ** Recent changes *)

Lemma mapRecentChanges_fold (f : string)
    (step : gmap string (list ContestedGymChange.t) -> TeamChange
            -> gmap string (list ContestedGymChange.t)) :
  (forall grouped row,
     step grouped row
     = if decide (GymData.normalizeTeamId (old_team_id row)
                  = GymData.normalizeTeamId (new_team_id row)) then grouped
       else
         let entries := default [] (grouped !! gym_id row) in
         <[gym_id row :=
             if (List.length entries <? 5)%nat
             then entries ++ [reported_change row]
             else entries]> grouped) ->
  forall rows grouped,
    fold_left step rows grouped !! f
    = let added :=
        reported_change
          <$> List.filter (fun c => changes_owner c && bool_decide (gym_id c = f)) rows in
      match grouped !! f with
      | Some entries =>
          Some (take (Nat.max 5 (length entries)) (entries ++ added))
      | None => if decide (added = []) then None else Some (take 5 added)
      end.
Proof.
  intros Hstep. induction rows as [|row rows IH]; intros grouped.
  { cbn. destruct (grouped !! f) as [entries|]; [|done].
    f_equal. rewrite app_nil_r. symmetry. apply take_ge. lia. }
  cbn [fold_left]. rewrite IH, Hstep. cbn zeta. cbn [List.filter].
  destruct (decide (GymData.normalizeTeamId (old_team_id row)
                    = GymData.normalizeTeamId (new_team_id row))) as [Heq|Hne].
  { assert (changes_owner row = false) as ->
      by (unfold changes_owner; by rewrite bool_decide_eq_true_2).
    reflexivity. }
  assert (changes_owner row = true) as ->
    by (unfold changes_owner; by rewrite bool_decide_eq_false_2).
  cbn [andb].
  case_bool_decide as Hf.
  - subst f. rewrite lookup_insert_eq, fmap_cons.
    destruct (grouped !! gym_id row) as [entries|]; cbn [default from_option];
      unfold id.
    + destruct (length entries <? 5)%nat eqn:Hlen.
      * apply Nat.ltb_lt in Hlen. rewrite length_app, <- app_assoc. cbn [length app].
        f_equal. f_equal. lia.
      * apply Nat.ltb_ge in Hlen. f_equal.
        rewrite !take_app_le by lia. done.
    + cbn. rewrite decide_False by done. done.
  - by rewrite lookup_insert_ne.
Qed.

Lemma mapRecentChanges_lookup (rows : list TeamChange) (f : string) :
  GymData.mapRecentChanges rows !! f
  = if decide (recent_of f rows = []) then None else Some (recent_of f rows).
Proof.
  unfold GymData.mapRecentChanges.
  rewrite (mapRecentChanges_fold f) by reflexivity.
  rewrite lookup_empty. cbn zeta. unfold recent_of.
  destruct (reported_change <$> _) as [|x l]; [done|].
  rewrite decide_False by done. done.
Qed.

(** X9.  [mapRecentChanges].  A gym has an entry exactly when [rows] hold an
    owner change of it, that is a row whose two owners differ once team 0 and
    NULL are identified; the entry lists the first five owner changes of the
    gym in the order of [rows], each from-owner and to-owner normalised and
    the time in milliseconds. *)
Theorem X9_recent_changes_map (rows : list TeamChange) (f : string) :
  let owner_changes :=
    List.filter (fun c => changes_owner c && bool_decide (gym_id c = f)) rows in
  match GymData.mapRecentChanges rows !! f with
  | Some entries =>
      owner_changes <> [] /\ entries = reported_change <$> take 5 owner_changes
  | None => owner_changes = []
  end.
Proof.
  cbn zeta. rewrite mapRecentChanges_lookup. unfold recent_of.
  destruct (List.filter _ rows) as [|c l]; [done|].
  rewrite decide_False by done. split; [done|]. by rewrite fmap_take.
Qed.

Global Instance changed_at_desc_total : Total GymData.changed_at_desc.
Proof. intros a b. unfold GymData.changed_at_desc. lia. Qed.

Global Instance changed_at_desc_trans : Transitive GymData.changed_at_desc.
Proof. intros a b c. unfold GymData.changed_at_desc. lia. Qed.

Lemma List_filter_Permutation {A} (P : A -> bool) (l l' : list A) :
  l ≡ₚ l' -> List.filter P l ≡ₚ List.filter P l'.
Proof.
  induction 1 as [|x l l' _ IH|x y l|l l' l'' _ IH1 _ IH2]; cbn [List.filter].
  - done.
  - destruct (P x); [by constructor | done].
  - destruct (P x), (P y); try done. constructor.
  - by etransitivity.
Qed.

Lemma StronglySorted_List_filter {A} (R : relation A) (P : A -> bool) (l : list A) :
  StronglySorted R l -> StronglySorted R (List.filter P l).
Proof.
  induction 1 as [|x l _ IH Hall]; cbn [List.filter]; [constructor|].
  destruct (P x); [|done]. constructor; [done|].
  rewrite Forall_forall in Hall |- *. intros y Hy. apply Hall.
  by apply elem_of_List_filter in Hy as [Hy _].
Qed.

Lemma StronglySorted_fmap_mono {A B} (R : relation A) (R' : relation B) (f : A -> B)
    (l : list A) :
  (forall a b, R a b -> R' (f a) (f b)) ->
  StronglySorted R l -> StronglySorted R' (f <$> l).
Proof.
  intros Hmono. induction 1 as [|x l _ IH Hall]; [constructor|].
  rewrite fmap_cons. constructor; [done|].
  rewrite Forall_forall in Hall. rewrite Forall_forall. intros y Hy.
  apply list_elem_of_fmap in Hy as (z & -> & Hz). by apply Hmono, Hall.
Qed.

(** The owner changes of gym [f] that the recent-changes query returns: all
    of them, most recent first. *)
Lemma select_recent_owner_changes (gymIds : list string) (s : Store) (f : string) :
  f ∈ gymIds ->
  let owner_changes (rows : list TeamChange) :=
    List.filter (fun c => changes_owner c && bool_decide (gym_id c = f)) rows in
  owner_changes (GymData.select_recent gymIds s) ≡ₚ owner_changes (gym_team_changes s)
  /\ StronglySorted GymData.changed_at_desc
       (owner_changes (GymData.select_recent gymIds s)).
Proof.
  intros Hf. cbn zeta. unfold GymData.select_recent. split.
  - rewrite (List_filter_Permutation _ _ _ (merge_sort_Permutation _ _)).
    rewrite List_filter_filter.
    erewrite List.filter_ext; [reflexivity|]. intros c. cbn beta.
    destruct (decide (gym_id c = f)) as [Hc|Hc].
    + rewrite (bool_decide_eq_true_2 (gym_id c ∈ gymIds)) by (by rewrite Hc).
      reflexivity.
    + rewrite (bool_decide_eq_false_2 (gym_id c = f)) by done.
      by rewrite !andb_false_r.
  - apply StronglySorted_List_filter.
    apply (StronglySorted_merge_sort GymData.changed_at_desc).
Qed.

(** X10.  The [recent_changes] of every contested gym of every history
    response: the five most recent owner changes of that gym in the whole
    [gym_team_changes] table (all of them when there are fewer; the period
    does not restrict them), most recent first.  Each of them has two
    different owners, neither of which is team 0. *)
Theorem X10_recent_changes (rt : Runtime) (env : Env) (period : string) (w : World) :
  exists response w',
    GymData.fetchGymHistory rt env period w = (Ok response, w')
    /\ forall g, g ∈ GymHistoryResponse.contestedGyms response ->
         let owner_changes :=
           List.filter
             (fun c => changes_owner c
                       && bool_decide (gym_id c = ContestedGym.gym_id g))
             (gym_team_changes (committed w)) in
         let recent := ContestedGym.recent_changes g in
         length recent = Nat.min 5 (length owner_changes)
         /\ StronglySorted
              (fun a b => ContestedGymChange.timestamp b <= ContestedGymChange.timestamp a)
              recent
         /\ forall change, change ∈ recent ->
              ContestedGymChange.from change <> ContestedGymChange.to change
              /\ ContestedGymChange.from change <> Some 0
              /\ ContestedGymChange.to change <> Some 0
              /\ exists c, c ∈ owner_changes /\ change = reported_change c.
Proof.
  destruct (fetchGymHistory_cases rt env period w) as (response & w' & Hrun & Hcases).
  exists response, w'. split; [done|]. intros g Hg.
  destruct Hcases as [->|[geofenceId Hresp]]; [inversion Hg|].
  cbn zeta in Hresp. subst response. cbn [GymHistoryResponse.contestedGyms] in Hg.
  apply list_elem_of_fmap in Hg as (row & -> & Hrow).
  cbn [GymData.contested_gym ContestedGym.gym_id ContestedGym.recent_changes].
  cbn zeta.
  set (gymIds := ContestedRow.gym_id <$> GymData.select_contested rt _ geofenceId _).
  assert (Hin : ContestedRow.gym_id row ∈ gymIds).
  { apply list_elem_of_fmap. by exists row. }
  assert (Hlen : (0 <? length gymIds)%nat = true).
  { apply Nat.ltb_lt. destruct gymIds; [inversion Hin | cbn; lia]. }
  rewrite Hlen, mapRecentChanges_lookup.
  assert (Hdefault :
    default [] (if decide (recent_of (ContestedRow.gym_id row)
                             (GymData.select_recent gymIds (committed w)) = [])
                then None
                else Some (recent_of (ContestedRow.gym_id row)
                             (GymData.select_recent gymIds (committed w))))
    = recent_of (ContestedRow.gym_id row)
        (GymData.select_recent gymIds (committed w))).
  { destruct (decide _) as [->|]; done. }
  rewrite Hdefault. clear Hdefault. unfold recent_of.
  destruct (select_recent_owner_changes gymIds (committed w) _ Hin)
    as [Hperm Hsorted].
  cbn zeta in Hperm, Hsorted.
  split; [|split].
  - rewrite length_take, length_fmap, Hperm. done.
  - apply StronglySorted_take.
    eapply StronglySorted_fmap_mono; [|exact Hsorted].
    intros a b Hab. unfold GymData.changed_at_desc in Hab. cbn. lia.
  - intros change Hchange. apply subseteq_take in Hchange.
    apply list_elem_of_fmap in Hchange as (c & -> & Hc).
    rewrite Hperm in Hc. pose proof Hc as Hc'.
    apply elem_of_List_filter in Hc' as [_ Hcond].
    apply andb_true_iff in Hcond as [Hown _].
    unfold changes_owner in Hown. apply negb_true_iff, bool_decide_eq_false in Hown.
    cbn [reported_change ContestedGymChange.from ContestedGymChange.to].
    split; [done|]. split; [|split; [|by exists c]].
    + unfold GymData.normalizeTeamId. destruct (old_team_id c) as [t|]; [|done].
      destruct (decide (t = 0)); [done|congruence].
    + unfold GymData.normalizeTeamId. destruct (new_team_id c) as [t|]; [|done].
      destruct (decide (t = 0)); [done|congruence].
Qed.

(** * Further properties of the snapshot *)

Global Instance updated_desc_total : Total GymData.updated_desc.
Proof. intros a b. unfold GymData.updated_desc. lia. Qed.

Global Instance updated_desc_trans : Transitive GymData.updated_desc.
Proof. intros a b c. unfold GymData.updated_desc. lia. Qed.

Lemma snapshot_defenders_value (rt : Runtime) (gymRow : GymRow.t) (w : World) :
  exists w',
    GymData.snapshot_defenders rt gymRow w = (Ok (parsed_defenders rt gymRow), w').
Proof.
  unfold GymData.snapshot_defenders, parsed_defenders.
  destruct (GymRow.defenders gymRow) as [text|]; [|by eexists].
  destruct (decide (text = "")); [by eexists|].
  destruct (JSON_parse rt text); by eexists.
Qed.

Lemma snapshot_push_lists (g : Gym.t) (result : GymApiResult.t) :
  let pushed := GymData.snapshot_push g result in
  let on team := if bool_decide (Gym.team_id g = Some team) then [g] else [] in
  GymApiResult.mystic pushed = GymApiResult.mystic result ++ on 1
  /\ GymApiResult.valor pushed = GymApiResult.valor result ++ on 2
  /\ GymApiResult.instinct pushed = GymApiResult.instinct result ++ on 3.
Proof.
  cbn zeta. unfold GymData.snapshot_push.
  destruct (decide (Gym.team_id g = Some 1)) as [E1|N1];
    [|destruct (decide (Gym.team_id g = Some 2)) as [E2|N2];
      [|destruct (decide (Gym.team_id g = Some 3)) as [E3|N3]]];
    repeat case_bool_decide; try congruence; cbn; by rewrite ?app_nil_r.
Qed.

Lemma snapshot_loop_lists (rt : Runtime) (gymRows : list GymRow.t) :
  forall result w,
  exists result' w',
    GymData.snapshot_loop rt gymRows result w = (Ok result', w')
    /\ let of_team team :=
         snapshot_gym rt
           <$> List.filter (fun g => bool_decide (GymRow.team_id g = Some team))
                 gymRows in
       GymApiResult.mystic result' = GymApiResult.mystic result ++ of_team 1
       /\ GymApiResult.valor result' = GymApiResult.valor result ++ of_team 2
       /\ GymApiResult.instinct result' = GymApiResult.instinct result ++ of_team 3.
Proof.
  induction gymRows as [|gymRow rest IH]; intros result w.
  { eexists _, _. split; [reflexivity|]. cbn. by rewrite !app_nil_r. }
  cbn [GymData.snapshot_loop]. unfold bind.
  destruct (snapshot_defenders_value rt gymRow w) as (w1 & ->).
  fold (snapshot_gym rt gymRow).
  destruct (IH (GymData.snapshot_push (snapshot_gym rt gymRow) result) w1)
    as (result' & w' & -> & Hm & Hv & Hi).
  exists result', w'. split; [done|].
  destruct (snapshot_push_lists (snapshot_gym rt gymRow) result) as (Pm & Pv & Pi).
  cbn zeta in *. rewrite Hm, Hv, Hi, Pm, Pv, Pi. cbn [List.filter].
  change (Gym.team_id (snapshot_gym rt gymRow)) with (GymRow.team_id gymRow).
  clear. split; [|split];
    (destruct (bool_decide (GymRow.team_id gymRow = Some _));
     rewrite ?app_nil_r, <- ?app_assoc; done).
Qed.

(** X11.  The arrays of the snapshot.  When the configuration is complete
    and the query succeeds, each of [mystic], [valor] and [instinct] holds
    exactly the gyms of the table that are enabled, inside the geofence,
    updated after [now - timeWindow] and held by team 1, 2 and 3
    respectively, each of them once, in descending order of [updated]; every
    listed gym is the one built from its row. *)
Theorem X11_snapshot_lists (rt : Runtime) (env : Env) (w : World) :
  configured env ->
  faulty rt SnapshotSelect = false ->
  exists geofenceId result w',
    env "GEOFENCE_ID" = Some geofenceId
    /\ GymData.fetchGymSnapshot rt env w = (Ok result, w')
    /\ let timeWindow := parseInt rt (default "3600" (env "GYM_TIME_WINDOW")) in
       let selected team :=
         List.filter (fun g => bool_decide (GymRow.team_id g = Some team))
           (List.filter (snapshot_cond rt timeWindow geofenceId) (gym (committed w))) in
       forall team gyms,
         (team, gyms) ∈ [(1, GymApiResult.mystic result);
                         (2, GymApiResult.valor result);
                         (3, GymApiResult.instinct result)] ->
         Gym.row <$> gyms ≡ₚ selected team
         /\ StronglySorted GymData.updated_desc (Gym.row <$> gyms)
         /\ forall g, g ∈ gyms -> g = snapshot_gym rt (Gym.row g).
Proof.
  intros (dbName & geofenceDbName & geofenceId & E1 & E2 & E3) F.
  exists geofenceId. unfold GymData.fetchGymSnapshot. rewrite E1, E2, E3.
  unfold try_catch, bind at 1, pool_execute. rewrite F.
  match goal with
  | |- context [GymData.snapshot_loop rt ?rows ?res w] =>
      destruct (snapshot_loop_lists rt rows res w)
        as (result & w' & -> & Hm & Hv & Hi)
  end.
  exists result, w'. split.
  { unfold GymData.ensureIdentifier in E3.
    destruct (env "GEOFENCE_ID") as [v|]; [|done].
    destruct (decide (v = "")); [done|].
    destruct (Collector.matches_word v); [|done]. by injection E3 as ->. }
  split; [done|]. cbn zeta in *. cbn [GymApiResult.mystic GymApiResult.valor
    GymApiResult.instinct app] in Hm, Hv, Hi.
  assert (Hlist : forall team,
    let l := snapshot_gym rt
               <$> List.filter (fun g => bool_decide (GymRow.team_id g = Some team))
                     (GymData.select_snapshot rt
                        (parseInt rt (default "3600" (env "GYM_TIME_WINDOW")))
                        geofenceId (committed w)) in
    Gym.row <$> l
      ≡ₚ List.filter (fun g => bool_decide (GymRow.team_id g = Some team))
           (List.filter
              (snapshot_cond rt (parseInt rt (default "3600" (env "GYM_TIME_WINDOW")))
                 geofenceId)
              (gym (committed w)))
    /\ StronglySorted GymData.updated_desc (Gym.row <$> l)
    /\ forall g, g ∈ l -> g = snapshot_gym rt (Gym.row g)).
  { intros team. cbn zeta.
    assert (Hrow : forall l : list GymRow.t, Gym.row <$> (snapshot_gym rt <$> l) = l).
    { intros l. rewrite <- list_fmap_compose. apply list_fmap_id. }
    rewrite Hrow. split; [|split].
    - apply List_filter_Permutation. unfold GymData.select_snapshot.
      apply merge_sort_Permutation.
    - apply StronglySorted_List_filter.
      apply (StronglySorted_merge_sort GymData.updated_desc).
    - intros g Hg. apply list_elem_of_fmap in Hg as (row & -> & _). done. }
  intros team gyms Hin.
  repeat (apply elem_of_cons in Hin as [[= -> ->]|Hin];
          [rewrite ?Hm, ?Hv, ?Hi; apply Hlist|]).
  inversion Hin.
Qed.

Lemma X11_snapshot_lists_witness :
  let rt := Sample.runtime 1000 in
  let w := Sample.idle Sample.payloads in
  exists geofenceId result w',
    Sample.env "GEOFENCE_ID" = Some geofenceId
    /\ GymData.fetchGymSnapshot rt Sample.env w = (Ok result, w')
    /\ let timeWindow := parseInt rt (default "3600" (Sample.env "GYM_TIME_WINDOW")) in
       let selected team :=
         List.filter (fun g => bool_decide (GymRow.team_id g = Some team))
           (List.filter (snapshot_cond rt timeWindow geofenceId) (gym (committed w))) in
       forall team gyms,
         (team, gyms) ∈ [(1, GymApiResult.mystic result);
                         (2, GymApiResult.valor result);
                         (3, GymApiResult.instinct result)] ->
         Gym.row <$> gyms ≡ₚ selected team
         /\ StronglySorted GymData.updated_desc (Gym.row <$> gyms)
         /\ forall g, g ∈ gyms -> g = snapshot_gym rt (Gym.row g).
Proof.
  apply (X11_snapshot_lists (Sample.runtime 1000) Sample.env
           (Sample.idle Sample.payloads)).
  - exact Sample_configured.
  - reflexivity.
Defined.

(** * Further properties of the defender statistics *)

(** ** Counting one defender *)

Lemma with_key_app (key : string) (l1 l2 : list Defender) :
  with_key key (l1 ++ l2) = with_key key l1 ++ with_key key l2.
Proof. apply List.filter_app. Qed.

Lemma cp_sum_snoc (rt : Runtime) (start : Num.t) (l : list Defender)
    (d : Defender) :
  cp_sum rt start (l ++ [d]) = Num.add (cp_sum rt start l) (defender_cp rt d).
Proof. unfold cp_sum. by rewrite fmap_app, fold_left_app. Qed.

Lemma with_key_absent (key : string) (l : list Defender) :
  key ∉ defender_key <$> l -> with_key key l = [].
Proof.
  intros Hk. apply List_filter_nil. intros d Hd. apply bool_decide_eq_false.
  intros Heq. apply Hk. apply list_elem_of_fmap. by exists d.
Qed.

Lemma entry_of_other (rt : Runtime) (ds : list Defender) (d : Defender)
    (key : string) (entry : DefenderStats.t) :
  defender_key d <> key -> entry_of rt ds key entry ->
  entry_of rt (ds ++ [d]) key entry.
Proof.
  intros Hne Hentry.
  assert (Hw : with_key key (ds ++ [d]) = with_key key ds).
  { rewrite with_key_app. unfold with_key at 2. cbn [List.filter].
    rewrite bool_decide_eq_false_2 by done. apply app_nil_r. }
  unfold entry_of, occurrences in *. by rewrite Hw.
Qed.

Lemma add_defender_skip (rt : Runtime) (d : Defender) (team : TeamAggregation.t) :
  counted d = false -> GymData.add_defender rt d team = team.
Proof.
  unfold counted, GymData.add_defender. destruct (pokemon_id d) as [pid|]; [|done].
  intros Hc. apply negb_false_iff, bool_decide_eq_true in Hc.
  by rewrite decide_True.
Qed.

Lemma add_defender_aggregates (rt : Runtime) (ds : list Defender) (d : Defender)
    (team : TeamAggregation.t) :
  counted d = true -> aggregates rt ds team ->
  aggregates rt (ds ++ [d]) (GymData.add_defender rt d team).
Proof.
  unfold counted. intros Hc (Htotal & Hcp & Hnd & Hkeys & Hentries).
  unfold GymData.add_defender.
  destruct (pokemon_id d) as [pid|] eqn:Hpid; [|done].
  apply negb_true_iff, bool_decide_eq_false in Hc. rewrite decide_False by done.
  assert (Hkey : pretty pid +:+ "_" +:+ pretty (default 0 (form d)) +:+ "_"
                 +:+ pretty (default 0 (costume d)) = defender_key d).
  { unfold defender_key. by rewrite Hpid. }
  rewrite Hkey. fold (defender_cp rt d).
  set (key := defender_key d). set (cp := defender_cp rt d).
  set (entries := TeamAggregation.defenders team) in *.
  assert (Hself : with_key key (ds ++ [d]) = with_key key ds ++ [d]).
  { rewrite with_key_app. unfold with_key at 2. cbn [List.filter].
    by rewrite bool_decide_eq_true_2. }
  cbn zeta. unfold aggregates.
  cbn [TeamAggregation.totalDefenders TeamAggregation.totalCp
       TeamAggregation.defenders].
  split; [rewrite length_app; cbn [length]; lia|].
  split; [by rewrite cp_sum_snoc, Hcp|].
  case_bool_decide as Hin.
  - set (update := fun entry : string * DefenderStats.t =>
                     if decide (entry.1 = key) then _ else entry).
    assert (Hfst : (update <$> entries).*1 = entries.*1).
    { rewrite <- list_fmap_compose. apply list_fmap_ext. intros i [k e] _.
      subst update. cbn. by destruct (decide (k = key)) as [->|]. }
    rewrite Hfst. split; [done|]. split.
    + intros k. rewrite Hkeys, fmap_app, elem_of_app. cbn.
      rewrite list_elem_of_singleton. split; [by left|].
      intros [?| ->]; [done|]. by apply Hkeys.
    + intros k e Hke. apply list_elem_of_fmap in Hke as ([k0 e0] & Heq & Hin0).
      subst update. cbn [fst snd] in Heq.
      destruct (decide (k0 = key)) as [->|Hne]; injection Heq as -> ->.
      * destruct (Hentries _ _ Hin0)
          as (Hc0 & Hn0 & d0 & others & Hw0 & Hp0 & Hf0 & Ht0 & Ha0).
        unfold entry_of, occurrences in *. rewrite Hself, length_app, Hw0.
        cbn [DefenderStats.count DefenderStats.total_cp DefenderStats.avg_cp
             DefenderStats.name DefenderStats.pokemon_id DefenderStats.form length].
        rewrite Hw0 in Hc0. cbn [length] in Hc0.
        split; [lia|]. split; [done|].
        exists d0, (others ++ [d]). split; [done|]. split; [done|].
        split; [done|]. split; [by rewrite cp_sum_snoc, Ht0|].
        rewrite decide_False by (by destruct others).
        by rewrite Z.max_l by lia.
      * apply entry_of_other; [|by apply Hentries]. by intros Heq.
  - rewrite fmap_app. cbn [fmap list_fmap fst]. split.
    + apply NoDup_app. split; [done|]. split; [|apply NoDup_singleton].
      intros k Hk Hk'. apply list_elem_of_singleton in Hk'. by subst k.
    + split.
      * intros k. rewrite fmap_app, !elem_of_app, Hkeys. cbn.
        by rewrite !list_elem_of_singleton.
      * intros k e [Hke|Hke]%elem_of_app.
        -- apply entry_of_other; [|by apply Hentries].
           intros Heq. apply Hin. unfold key. rewrite Heq.
           apply list_elem_of_fmap. by exists (k, e).
        -- apply list_elem_of_singleton in Hke. injection Hke as -> ->.
           assert (Hnone : with_key key ds = []).
           { apply with_key_absent. by rewrite <- Hkeys. }
           unfold entry_of, occurrences. rewrite Hself, Hnone.
           cbn [app length DefenderStats.count DefenderStats.total_cp
                DefenderStats.avg_cp DefenderStats.name DefenderStats.pokemon_id
                DefenderStats.form].
           split; [done|]. split; [done|]. exists d, []. done.
Qed.

(** ** The defenders of one gym *)

Lemma stats_defenders_ok (rt : Runtime) (items : list (option Defender)) :
  None ∉ items ->
  forall ds team,
    aggregates rt ds team ->
    exists team',
      GymData.stats_defenders rt items team = Ok team'
      /\ aggregates rt (ds ++ List.filter counted (omap id items)) team'.
Proof.
  induction items as [|[d|] items IH]; intros Hnull ds team Hagg.
  - exists team. split; [done|]. by rewrite app_nil_r.
  - apply not_elem_of_cons in Hnull as [_ Hnull].
    cbn [GymData.stats_defenders].
    change (omap id (Some d :: items)) with (d :: omap id items).
    cbn [List.filter].
    destruct (counted d) eqn:Hc.
    + destruct (IH Hnull (ds ++ [d]) (GymData.add_defender rt d team))
        as (team' & -> & Hagg'); [by apply add_defender_aggregates|].
      exists team'. split; [done|]. by rewrite <- app_assoc in Hagg'.
    + rewrite add_defender_skip by done. by apply IH.
  - exfalso. apply Hnull. left.
Qed.

Lemma stats_defenders_total (rt : Runtime) (items : list (option Defender)) :
  None ∉ items ->
  forall team, exists team', GymData.stats_defenders rt items team = Ok team'.
Proof.
  induction items as [|[d|] items IH]; intros Hnull team.
  - by eexists.
  - apply not_elem_of_cons in Hnull as [_ Hnull]. by apply IH.
  - exfalso. apply Hnull. left.
Qed.

Lemma stats_defenders_null (rt : Runtime) (items : list (option Defender)) :
  None ∈ items ->
  forall team, exists e, GymData.stats_defenders rt items team = Throw e.
Proof.
  induction items as [|[d|] items IH]; intros Hnull team.
  - inversion Hnull.
  - apply elem_of_cons in Hnull as [?|Hnull]; [done|]. by apply IH.
  - by eexists.
Qed.

(** ** The loop over the rows *)

(** One iteration of the loop: the defenders of an array payload are counted
    for the team of the row when it is one of the three; every other row is
    passed over. *)
Lemma stats_loop_step (rt : Runtime) (row : option Z * option string)
    (rest : list (option Z * option string))
    (teamStats : gmap Z TeamAggregation.t) (w : World) :
  exists w1,
    GymData.stats_loop rt (row :: rest) teamStats w
    = match row.1 ≫= fun teamId => (fun team => (teamId, team)) <$> teamStats !! teamId with
      | Some (teamId, team) =>
          match GymData.stats_defenders rt (payload_array rt row.2) team with
          | Ok team' => GymData.stats_loop rt rest (<[teamId := team']> teamStats) w1
          | Throw e => (Throw e, w1)
          end
      | None => GymData.stats_loop rt rest teamStats w1
      end.
Proof.
  cbn [GymData.stats_loop]. unfold payload_array.
  assert (Hskip : forall w1,
    GymData.stats_loop rt rest teamStats w1
    = match row.1 ≫= fun teamId => (fun team => (teamId, team)) <$> teamStats !! teamId with
      | Some (teamId, team) =>
          match GymData.stats_defenders rt [] team with
          | Ok team' => GymData.stats_loop rt rest (<[teamId := team']> teamStats) w1
          | Throw e => (Throw e, w1)
          end
      | None => GymData.stats_loop rt rest teamStats w1
      end).
  { intros w1. destruct (row.1) as [teamId|]; [|done]. cbn.
    destruct (teamStats !! teamId) as [team|] eqn:El; [|done]. cbn.
    by rewrite insert_id. }
  destruct (row.2) as [text|]; [|by exists w].
  destruct (decide (text = "")); [by exists w|].
  destruct (JSON_parse rt text) as [[items|v]|].
  - exists w. destruct (row.1) as [teamId|]; [|done]. cbn.
    destruct (teamStats !! teamId) as [team|]; [|done]. cbn.
    unfold bind, lift. by destruct (GymData.stats_defenders rt items team).
  - eexists. unfold bind, emit. apply Hskip.
  - eexists. unfold bind, emit. apply Hskip.
Qed.

Lemma team_defenders_cons (rt : Runtime) (team : Z) (row : option Z * option string)
    (rows : list (option Z * option string)) :
  team_defenders rt team (row :: rows)
  = (if bool_decide (row.1 = Some team)
     then List.filter counted (omap id (payload_array rt row.2)) else [])
    ++ team_defenders rt team rows.
Proof.
  unfold team_defenders. cbn [List.filter]. case_bool_decide; [|done].
  rewrite bind_cons. rewrite omap_app. apply List.filter_app.
Qed.

Lemma stats_loop_ok (rt : Runtime) (rows : list (option Z * option string)) :
  (forall row, row ∈ rows -> None ∉ payload_array rt row.2) ->
  forall teamStats w,
  exists teamStats' w',
    GymData.stats_loop rt rows teamStats w = (Ok teamStats', w')
    /\ forall teamId team ds,
         teamStats !! teamId = Some team -> aggregates rt ds team ->
         exists team',
           teamStats' !! teamId = Some team'
           /\ aggregates rt (ds ++ team_defenders rt teamId rows) team'.
Proof.
  induction rows as [|row rows IH]; intros Hnull teamStats w.
  { exists teamStats, w. split; [done|]. intros teamId team ds Hl Hagg.
    exists team. split; [done|]. by rewrite app_nil_r. }
  assert (Hrest : forall r, r ∈ rows -> None ∉ payload_array rt r.2).
  { intros r Hr. apply Hnull. by right. }
  assert (Hrow : None ∉ payload_array rt row.2) by (apply Hnull; left).
  destruct (stats_loop_step rt row rows teamStats w) as [w1 ->].
  assert (Hpass : forall teamId, row.1 <> Some teamId ->
            team_defenders rt teamId (row :: rows) = team_defenders rt teamId rows).
  { intros teamId Hne. rewrite team_defenders_cons.
    by rewrite bool_decide_eq_false_2. }
  destruct (row.1) as [rowTeam|] eqn:Hteam; cbn [mbind option_bind].
  2: { destruct (IH Hrest teamStats w1) as (teamStats' & w' & -> & Hinv).
       exists teamStats', w'. split; [done|]. intros teamId team ds Hl Hagg.
       rewrite Hpass by done. by apply (Hinv _ team). }
  destruct (teamStats !! rowTeam) as [rowAgg|] eqn:El; cbn [fmap option_fmap option_map].
  2: { destruct (IH Hrest teamStats w1) as (teamStats' & w' & -> & Hinv).
       exists teamStats', w'. split; [done|]. intros teamId team ds Hl Hagg.
       destruct (decide (teamId = rowTeam)) as [->|Hne]; [congruence|].
       rewrite Hpass by congruence. by apply (Hinv _ team). }
  assert (Hstep : forall ds, aggregates rt ds rowAgg ->
            exists team',
              GymData.stats_defenders rt (payload_array rt row.2) rowAgg = Ok team'
              /\ aggregates rt
                   (ds ++ List.filter counted (omap id (payload_array rt row.2)))
                   team').
  { intros ds. by apply stats_defenders_ok. }
  destruct (stats_defenders_total rt _ Hrow rowAgg) as [rowAgg' Hd]. rewrite Hd.
  destruct (IH Hrest (<[rowTeam := rowAgg']> teamStats) w1)
    as (teamStats' & w' & -> & Hinv).
  exists teamStats', w'. split; [done|]. intros teamId team ds Hl Hagg.
  destruct (decide (teamId = rowTeam)) as [->|Hne].
  - assert (team = rowAgg) as -> by congruence.
    destruct (Hstep ds Hagg) as (team' & Hteam' & Hagg').
    assert (team' = rowAgg') as -> by congruence.
    destruct (Hinv rowTeam rowAgg' _ (lookup_insert_eq _ _ _) Hagg')
      as (final & Hfinal & Haggf).
    exists final. split; [done|].
    rewrite team_defenders_cons, bool_decide_eq_true_2 by done.
    by rewrite app_assoc.
  - rewrite Hpass by congruence. apply (Hinv _ team); [|done].
    by rewrite lookup_insert_ne.
Qed.

Lemma stats_loop_null (rt : Runtime) (rows : list (option Z * option string)) :
  forall teamStats w,
    (forall row, row ∈ rows ->
       exists teamId, row.1 = Some teamId /\ is_Some (teamStats !! teamId)) ->
    (exists row, row ∈ rows /\ None ∈ payload_array rt row.2) ->
    exists e w', GymData.stats_loop rt rows teamStats w = (Throw e, w').
Proof.
  induction rows as [|row rows IH]; intros teamStats w Hteams (bad & Hbad & Hnull).
  { inversion Hbad. }
  destruct (stats_loop_step rt row rows teamStats w) as [w1 ->].
  destruct (Hteams row) as (teamId & Ht & [team Hl]); [left|].
  rewrite Ht. cbn [mbind option_bind]. rewrite Hl.
  cbn [fmap option_fmap option_map].
  destruct (GymData.stats_defenders rt (payload_array rt row.2) team)
    as [team'|e] eqn:Hd; [|by eexists _, _].
  apply IH.
  - intros r Hr. destruct (Hteams r) as (t & Hrt & Hsome); [by right|].
    exists t. split; [done|]. destruct (decide (t = teamId)) as [->|Hne].
    + rewrite lookup_insert_eq. by eexists.
    + by rewrite lookup_insert_ne.
  - apply elem_of_cons in Hbad as [->|Hbad]; [|by exists bad].
    destruct (stats_defenders_null rt _ Hnull team) as [e He]. congruence.
Qed.

(** ** Ordering by count *)

Lemma insert_by_count_Permutation (x : DefenderStats.t)
    (l : list DefenderStats.t) :
  GymData.insert_by_count x l ≡ₚ x :: l.
Proof.
  induction l as [|y l IH]; [done|]. cbn [GymData.insert_by_count].
  destruct (_ <=? _); [done|]. rewrite IH. apply Permutation_swap.
Qed.

Lemma sort_by_count_Permutation (l : list DefenderStats.t) :
  GymData.sort_by_count l ≡ₚ l.
Proof.
  unfold GymData.sort_by_count. induction l as [|x l IH]; [done|].
  cbn [foldr]. rewrite insert_by_count_Permutation. by rewrite IH.
Qed.

Lemma insert_by_count_sorted (x : DefenderStats.t)
    (l : list DefenderStats.t) :
  StronglySorted count_desc l ->
  StronglySorted count_desc (GymData.insert_by_count x l).
Proof.
  induction 1 as [|y l Hs IH Hall]; [repeat constructor|].
  cbn [GymData.insert_by_count]. destruct (_ <=? _) eqn:Hle.
  - apply Z.leb_le in Hle. constructor; [by constructor|].
    constructor; [exact Hle|]. rewrite Forall_forall in Hall.
    rewrite Forall_forall. intros z Hz. specialize (Hall z Hz).
    unfold count_desc in *. lia.
  - apply Z.leb_gt in Hle. constructor; [done|].
    rewrite Forall_forall in Hall. rewrite Forall_forall. intros z Hz.
    rewrite insert_by_count_Permutation in Hz.
    apply elem_of_cons in Hz as [->|Hz]; [unfold count_desc; lia|by apply Hall].
Qed.

Lemma sort_by_count_sorted (l : list DefenderStats.t) :
  StronglySorted count_desc (GymData.sort_by_count l).
Proof.
  unfold GymData.sort_by_count. induction l as [|x l IH]; [constructor|].
  cbn [foldr]. by apply insert_by_count_sorted.
Qed.

(** ** The statistics of a team *)

Lemma aggregates_empty (rt : Runtime) :
  aggregates rt [] (TeamAggregation.mk [] 0 (Num.of_Z 0)).
Proof.
  repeat split; try done; try constructor; cbn; intros; by apply elem_of_nil in H.
Qed.

Lemma team_stats_shape (rt : Runtime) (teamStats : gmap Z TeamAggregation.t)
    (teamId : Z) :
  let stats := GymData.team_stats rt teamStats teamId in
  TeamStats.team_id stats = teamId
  /\ (length (TeamStats.top_defenders stats) <= 10)%nat
  /\ Z.of_nat (length (TeamStats.top_defenders stats))
     = Z.min 10 (TeamStats.unique_species stats)
  /\ StronglySorted count_desc (TeamStats.top_defenders stats).
Proof.
  cbn zeta. unfold GymData.team_stats.
  cbn [TeamStats.team_id TeamStats.top_defenders TeamStats.unique_species].
  split; [done|]. rewrite length_take. split; [lia|]. split; [lia|].
  apply StronglySorted_take, sort_by_count_sorted.
Qed.

Lemma team_stats_aggregates (rt : Runtime) (teamStats : gmap Z TeamAggregation.t)
    (teamId : Z) (team : TeamAggregation.t) (ds : list Defender) :
  teamStats !! teamId = Some team ->
  aggregates rt ds team ->
  let stats := GymData.team_stats rt teamStats teamId in
  TeamStats.total_defenders stats = Z.of_nat (length ds)
  /\ TeamStats.total_cp stats = cp_sum rt (Num.of_Z 0) ds
  /\ TeamStats.unique_species stats
     = Z.of_nat (length (remove_dups (defender_key <$> ds)))
  /\ TeamStats.avg_cp_per_defender stats
     = (if decide (ds = []) then Num.of_Z 0
        else Num.round (Num.div (cp_sum rt (Num.of_Z 0) ds)
                          (Num.of_Z (Z.of_nat (length ds)))))
  /\ forall d, d ∈ TeamStats.top_defenders stats -> exists key, entry_of rt ds key d.
Proof.
  intros Hl (Htotal & Hcp & Hnd & Hkeys & Hentries). cbn zeta.
  unfold GymData.team_stats. rewrite Hl. cbn [default from_option]. unfold id.
  cbn [TeamStats.total_defenders TeamStats.total_cp TeamStats.unique_species
       TeamStats.avg_cp_per_defender TeamStats.top_defenders].
  split; [done|]. split; [done|]. split; [|split].
  - f_equal. rewrite (Permutation_length (sort_by_count_Permutation _)).
    rewrite length_fmap, <- (length_fmap fst). apply Permutation_length.
    apply NoDup_Permutation; [done | apply NoDup_remove_dups |].
    intros k. by rewrite Hkeys, elem_of_remove_dups.
  - rewrite Htotal, Hcp. destruct ds as [|d ds]; [done|].
    rewrite decide_False by (cbn [length]; lia). by rewrite decide_False.
  - intros d Hd. apply subseteq_take in Hd.
    rewrite sort_by_count_Permutation in Hd.
    apply list_elem_of_fmap in Hd as ([k e] & -> & Hin). exists k.
    by apply Hentries.
Qed.

Lemma fetchDefenderStats_cases (rt : Runtime) (env : Env) (w : World) :
  exists stats w',
    GymData.fetchDefenderStats rt env w = (Ok stats, w')
    /\ (stats = GymData.DEFAULT_STATS rt
        \/ exists teamStats,
             let teams := GymData.team_stats rt teamStats <$> [1; 2; 3] in
             stats
             = StatsData.mk teams
                 (foldl (fun sum team => sum + TeamStats.total_defenders team) 0 teams)
                 (Date_now rt)).
Proof.
  unfold GymData.fetchDefenderStats.
  destruct (GymData.ensureIdentifier (env "GEOFENCE_ID") "GEOFENCE_ID")
    as [geofenceId|e1] eqn:E1;
  [destruct (GymData.ensureIdentifier (env "GEOFENCE_DB_NAME") "GEOFENCE_DB_NAME")
     as [geofenceDbName|e2] eqn:E2;
   [destruct (GymData.ensureIdentifier (env "DB_NAME") "DB_NAME")
      as [dbName|e3] eqn:E3|]|];
  try (eexists _, _; split; [reflexivity|]; by left).
  unfold try_catch, bind at 1, pool_execute.
  destruct (faulty rt StatsSelect) eqn:F;
    [eexists _, _; split; [reflexivity|]; by left|].
  unfold bind.
  destruct (GymData.stats_loop rt _ _ w) as [[teamStats|e] w1];
    (eexists _, _; split; [reflexivity|]); [right; by exists teamStats | by left].
Qed.

Lemma stats_loop_committed (rt : Runtime) (rows : list (option Z * option string)) :
  forall teamStats w, committed (GymData.stats_loop rt rows teamStats w).2 = committed w.
Proof.
  induction rows as [|row rows IH]; intros teamStats w; [done|].
  cbn [GymData.stats_loop].
  destruct (row.2) as [text|]; [|apply IH].
  destruct (decide (text = "")); [apply IH|].
  destruct (JSON_parse rt text) as [[items|v]|].
  - destruct (row.1) as [teamId|]; [|apply IH].
    destruct (teamStats !! teamId) as [team|]; [|apply IH].
    unfold bind, lift. destruct (GymData.stats_defenders rt items team); [apply IH|done].
  - unfold bind, emit. by rewrite IH.
  - unfold bind, emit. by rewrite IH.
Qed.

Lemma fetchDefenderStats_committed (rt : Runtime) (env : Env) (w : World) :
  exists stats w',
    GymData.fetchDefenderStats rt env w = (Ok stats, w')
    /\ committed w' = committed w.
Proof.
  unfold GymData.fetchDefenderStats.
  destruct (GymData.ensureIdentifier (env "GEOFENCE_ID") "GEOFENCE_ID")
    as [geofenceId|e1] eqn:E1;
  [destruct (GymData.ensureIdentifier (env "GEOFENCE_DB_NAME") "GEOFENCE_DB_NAME")
     as [geofenceDbName|e2] eqn:E2;
   [destruct (GymData.ensureIdentifier (env "DB_NAME") "DB_NAME")
      as [dbName|e3] eqn:E3|]|];
  try (eexists _, _; split; [reflexivity|]; done).
  unfold try_catch, bind at 1, pool_execute.
  destruct (faulty rt StatsSelect) eqn:F;
    [eexists _, _; split; [reflexivity|]; done|].
  unfold bind.
  match goal with
  | |- context [GymData.stats_loop rt ?rows ?ts w] =>
      pose proof (stats_loop_committed rt rows ts w) as Hc;
      destruct (GymData.stats_loop rt rows ts w) as [[teamStats|e] w1]
  end; (eexists _, _; split; [reflexivity|]; exact Hc).
Qed.

(** X12.  The shape of the statistics, for any call: either no team at all
    or the teams 1, 2, 3 in this order; [total_defenders_all_teams] is the sum
    of [total_defenders] over the teams; each team lists at most ten
    defenders, exactly min(10, [unique_species]) of them, ordered by [count]
    descending. *)
Theorem X12_stats_shape (rt : Runtime) (env : Env) (w : World) :
  exists stats w',
    GymData.fetchDefenderStats rt env w = (Ok stats, w')
    /\ (StatsData.teams stats = []
        \/ TeamStats.team_id <$> StatsData.teams stats = [1; 2; 3])
    /\ StatsData.total_defenders_all_teams stats
       = foldr Z.add 0 (TeamStats.total_defenders <$> StatsData.teams stats)
    /\ forall team, team ∈ StatsData.teams stats ->
         (length (TeamStats.top_defenders team) <= 10)%nat
         /\ Z.of_nat (length (TeamStats.top_defenders team))
            = Z.min 10 (TeamStats.unique_species team)
         /\ StronglySorted count_desc (TeamStats.top_defenders team).
Proof.
  destruct (fetchDefenderStats_cases rt env w)
    as (stats & w' & Hrun & [->|[teamStats ->]]);
    eexists _, w'; (split; [exact Hrun|]).
  - split; [by left|]. split; [done|]. intros team Hteam. inversion Hteam.
  - cbn zeta. cbn [StatsData.teams StatsData.total_defenders_all_teams].
    split; [right; reflexivity|]. split; [cbn; lia|].
    intros team Hteam. apply list_elem_of_fmap in Hteam as (teamId & -> & _).
    by destruct (team_stats_shape rt teamStats teamId) as (_ & ? & ? & ?).
Qed.

Lemma initial_teamStats_lookup (teamId : Z) :
  teamId ∈ [1; 2; 3] ->
  GymData.initial_teamStats !! teamId
  = Some (TeamAggregation.mk [] 0 (Num.of_Z 0)).
Proof.
  intros Hin. repeat (apply elem_of_cons in Hin as [->|Hin]; [reflexivity|]).
  inversion Hin.
Qed.

(** X13.  The content of the statistics when the configuration is
    complete, the query succeeds and no array payload holds [null].  Combat
    powers are binary64 numbers and are added in the order of the rows.  For
    each team, [total_defenders] is the number of defenders with a
    [pokemon_id] other than 0 in the array payloads of its gyms, [total_cp]
    their combat powers added one after the other to 0, [unique_species] the
    number of distinct (species, form, costume) keys among them, and
    [avg_cp_per_defender] the rounded quotient of the two (0 without
    defenders).  Each listed defender is made from the first defender counted
    under its key: it carries the number of the defenders under the key, the
    combat powers of the others added to the one of the first, and as its
    average the combat power of the first as it is when there is no other,
    and else the rounded quotient.  The overall total is the sum of the three
    numbers of defenders. *)
Theorem X13_stats_content (rt : Runtime) (env : Env) (w : World)
    (geofenceId : string) :
  configured env ->
  env "GEOFENCE_ID" = Some geofenceId ->
  faulty rt StatsSelect = false ->
  (forall row, row ∈ GymData.select_stats rt geofenceId (committed w) ->
               None ∉ payload_array rt row.2) ->
  exists stats w',
    GymData.fetchDefenderStats rt env w = (Ok stats, w')
    /\ let defenders team :=
         team_defenders rt team (GymData.select_stats rt geofenceId (committed w)) in
       TeamStats.team_id <$> StatsData.teams stats = [1; 2; 3]
       /\ StatsData.total_defenders_all_teams stats
          = Z.of_nat (length (defenders 1) + length (defenders 2)
                      + length (defenders 3))
       /\ forall team, team ∈ StatsData.teams stats ->
            let ds := defenders (TeamStats.team_id team) in
            TeamStats.total_defenders team = Z.of_nat (length ds)
            /\ TeamStats.total_cp team = cp_sum rt (Num.of_Z 0) ds
            /\ TeamStats.unique_species team
               = Z.of_nat (length (remove_dups (defender_key <$> ds)))
            /\ TeamStats.avg_cp_per_defender team
               = (if decide (ds = []) then Num.of_Z 0
                  else Num.round (Num.div (cp_sum rt (Num.of_Z 0) ds)
                                    (Num.of_Z (Z.of_nat (length ds)))))
            /\ forall d, d ∈ TeamStats.top_defenders team ->
                 exists key, entry_of rt ds key d.
Proof.
  intros (dbName & geofenceDbName & g & E1 & E2 & E3) Hg F Hnull.
  assert (g = geofenceId) as ->.
  { unfold GymData.ensureIdentifier in E3. rewrite Hg in E3.
    destruct (decide (geofenceId = "")); [done|].
    destruct (Collector.matches_word geofenceId); [|done]. by injection E3. }
  unfold GymData.fetchDefenderStats. rewrite E1, E2, E3.
  unfold try_catch, bind at 1, pool_execute. rewrite F. unfold bind.
  destruct (stats_loop_ok rt _ Hnull GymData.initial_teamStats w)
    as (teamStats & w' & -> & Hinv).
  eexists _, _. split; [reflexivity|]. cbn zeta.
  cbn [StatsData.teams StatsData.total_defenders_all_teams].
  assert (Hteam : forall teamId, teamId ∈ [1; 2; 3] ->
            exists team,
              teamStats !! teamId = Some team
              /\ aggregates rt
                   (team_defenders rt teamId
                      (GymData.select_stats rt geofenceId (committed w))) team).
  { intros teamId Hin.
    apply (Hinv teamId _ [] (initial_teamStats_lookup teamId Hin)
             (aggregates_empty rt)). }
  split; [reflexivity|]. split.
  - destruct (Hteam 1) as (t1 & L1 & A1); [set_solver|].
    destruct (Hteam 2) as (t2 & L2 & A2); [set_solver|].
    destruct (Hteam 3) as (t3 & L3 & A3); [set_solver|].
    destruct (team_stats_aggregates rt teamStats 1 t1 _ L1 A1) as (H1 & _).
    destruct (team_stats_aggregates rt teamStats 2 t2 _ L2 A2) as (H2 & _).
    destruct (team_stats_aggregates rt teamStats 3 t3 _ L3 A3) as (H3 & _).
    cbn zeta in H1, H2, H3. cbn [fmap list_fmap foldl]. rewrite H1, H2, H3. lia.
  - intros team Hin. apply list_elem_of_fmap in Hin as (teamId & -> & Hin).
    destruct (Hteam teamId Hin) as (agg & Hl & Hagg).
    destruct (team_stats_shape rt teamStats teamId) as (-> & _).
    by apply (team_stats_aggregates rt teamStats teamId agg).
Qed.

Lemma X13_stats_content_witness :
  let rt := Sample2.runtime_fraction 1000 in
  let w := Sample.idle Sample2.fractional in
  exists stats w',
    GymData.fetchDefenderStats rt Sample.env w = (Ok stats, w')
    /\ let defenders team :=
         team_defenders rt team (GymData.select_stats rt "golbat" (committed w)) in
       TeamStats.team_id <$> StatsData.teams stats = [1; 2; 3]
       /\ StatsData.total_defenders_all_teams stats
          = Z.of_nat (length (defenders 1) + length (defenders 2)
                      + length (defenders 3))
       /\ forall team, team ∈ StatsData.teams stats ->
            let ds := defenders (TeamStats.team_id team) in
            TeamStats.total_defenders team = Z.of_nat (length ds)
            /\ TeamStats.total_cp team = cp_sum rt (Num.of_Z 0) ds
            /\ TeamStats.unique_species team
               = Z.of_nat (length (remove_dups (defender_key <$> ds)))
            /\ TeamStats.avg_cp_per_defender team
               = (if decide (ds = []) then Num.of_Z 0
                  else Num.round (Num.div (cp_sum rt (Num.of_Z 0) ds)
                                    (Num.of_Z (Z.of_nat (length ds)))))
            /\ forall d, d ∈ TeamStats.top_defenders team ->
                 exists key, entry_of rt ds key d.
Proof.
  apply (X13_stats_content (Sample2.runtime_fraction 1000) Sample.env
           (Sample.idle Sample2.fractional) "golbat").
  - exact Sample_configured.
  - reflexivity.
  - reflexivity.
  - intros row Hrow. vm_compute in Hrow.
    repeat (apply elem_of_cons in Hrow as [->|Hrow];
            [vm_compute; intros Hnull;
             repeat (apply elem_of_cons in Hnull as [Hnull|Hnull];
                     [discriminate|]);
             inversion Hnull|]).
    inversion Hrow.
Defined.

(** X14.  One [null] inside one array payload empties the statistics: the
    property access on it raises, the outer handler catches the error, and the
    call returns the empty statistics after logging it. *)
Theorem X14_null_defender_aborts (rt : Runtime) (env : Env) (w : World)
    (geofenceId : string) :
  configured env ->
  env "GEOFENCE_ID" = Some geofenceId ->
  faulty rt StatsSelect = false ->
  (exists row, row ∈ GymData.select_stats rt geofenceId (committed w)
               /\ None ∈ payload_array rt row.2) ->
  exists w',
    GymData.fetchDefenderStats rt env w = (Ok (GymData.DEFAULT_STATS rt), w')
    /\ last (console w') = Some (ConsoleError "Error fetching defender stats:").
Proof.
  intros (dbName & geofenceDbName & g & E1 & E2 & E3) Hg F Hnull.
  assert (g = geofenceId) as ->.
  { unfold GymData.ensureIdentifier in E3. rewrite Hg in E3.
    destruct (decide (geofenceId = "")); [done|].
    destruct (Collector.matches_word geofenceId); [|done]. by injection E3. }
  unfold GymData.fetchDefenderStats. rewrite E1, E2, E3.
  unfold try_catch, bind at 1, pool_execute. rewrite F. unfold bind at 1.
  destruct (stats_loop_null rt (GymData.select_stats rt geofenceId (committed w))
              GymData.initial_teamStats w) as (e & w1 & ->); [|done|].
  { intros row Hrow. unfold GymData.select_stats in Hrow.
    apply list_elem_of_fmap in Hrow as (gymRow & -> & Hgym).
    apply elem_of_List_filter in Hgym as [_ Hcond].
    apply andb_true_iff in Hcond as [Hteam _]. apply bool_decide_eq_true in Hteam.
    cbn [fst].
    repeat (apply elem_of_cons in Hteam as [->|Hteam];
            [eexists; split; [reflexivity|]; by eexists|]).
    inversion Hteam. }
  eexists. split; [reflexivity|]. cbn. apply last_snoc.
Qed.

Lemma X14_null_defender_aborts_witness :
  exists w',
    GymData.fetchDefenderStats (Sample2.runtime 1000) Sample.env
      (Sample.idle Sample2.nulled)
    = (Ok (GymData.DEFAULT_STATS (Sample2.runtime 1000)), w')
    /\ last (console w') = Some (ConsoleError "Error fetching defender stats:").
Proof.
  apply (X14_null_defender_aborts (Sample2.runtime 1000) Sample.env
           (Sample.idle Sample2.nulled) "golbat").
  - exact Sample_configured.
  - reflexivity.
  - reflexivity.
  - exists (Some 3, Some "[null]"). split.
    + vm_compute. do 3 right. left.
    + vm_compute. left.
Defined.

(** * The route handlers *)

(** ** Access tokens *)

Lemma cleanupExpiredTokens_lookup (now : Z) (tokenStore : gmap string Z)
    (token : string) (expiresAt : Z) :
  GymsRoute.cleanupExpiredTokens now tokenStore !! token = Some expiresAt
  <-> tokenStore !! token = Some expiresAt /\ now < expiresAt.
Proof.
  unfold GymsRoute.cleanupExpiredTokens. rewrite map_lookup_filter_Some. cbn.
  split; intros [? ?]; (split; [done|lia]).
Qed.

(** When [validateToken] accepts, and that it keeps what it accepts. *)
Lemma validateToken_accepts (cleanupAt checkAt : Z) (token : option string)
    (tokenStore : gmap string Z) :
  let checked := GymsRoute.validateToken cleanupAt checkAt token tokenStore in
  (checked.1 = true
   <-> exists t expiresAt,
         token = Some t /\ t <> "" /\ tokenStore !! t = Some expiresAt
         /\ expiresAt <> 0 /\ cleanupAt < expiresAt /\ checkAt <= expiresAt)
  /\ (checked.1 = true -> forall t, token = Some t -> checked.2 !! t = tokenStore !! t).
Proof.
  cbn zeta. unfold GymsRoute.validateToken.
  destruct token as [t|].
  2: { split; [split; [done | by intros (? & ? & ? & _)]|]. done. }
  destruct (decide (t = "")) as [->|Hne].
  { split; [split; [done | by intros (? & ? & [= <-] & ? & _)]|]. done. }
  destruct (GymsRoute.cleanupExpiredTokens cleanupAt tokenStore !! t)
    as [expiresAt|] eqn:El.
  - pose proof El as El'. apply cleanupExpiredTokens_lookup in El' as [Hl Hlt].
    destruct (decide (expiresAt = 0)) as [->|Hnz].
    + cbn [fst snd]. split; [|done].
      split; [done|]. intros (t' & e & [= <-] & _ & He & Hz & _). congruence.
    + destruct (expiresAt <? checkAt) eqn:Hexp; cbn [fst snd].
      * apply Z.ltb_lt in Hexp. split; [|done].
        split; [done|]. intros (t' & e & [= <-] & _ & He & _ & _ & Hle).
        assert (e = expiresAt) by congruence. lia.
      * apply Z.ltb_ge in Hexp. split.
        { split; [|done]. intros _. by exists t, expiresAt. }
        intros _ t' [= <-]. by rewrite El.
  - cbn [fst snd]. split; [|done].
    split; [done|]. intros (t' & e & [= <-] & _ & He & _ & Hlt & _).
    assert (GymsRoute.cleanupExpiredTokens cleanupAt tokenStore !! t = Some e)
      by (by apply cleanupExpiredTokens_lookup). congruence.
Qed.

(** X15.  [validateToken].  A token is accepted exactly when it is not
    empty and stored with an expiry that is not 0, later than the clock read
    by the clean-up and not earlier than the clock read by the check.
    Validation never adds a token; an accepted token stays stored, so that it
    can be used again; after the validation of a non-empty token no stored
    token has an expiry at or before the clock of the clean-up. *)
Theorem X15_token_validation (cleanupAt checkAt : Z) (token : option string)
    (tokenStore : gmap string Z) :
  let checked := GymsRoute.validateToken cleanupAt checkAt token tokenStore in
  (checked.1 = true
   <-> exists t expiresAt,
         token = Some t /\ t <> "" /\ tokenStore !! t = Some expiresAt
         /\ expiresAt <> 0 /\ cleanupAt < expiresAt /\ checkAt <= expiresAt)
  /\ (forall t expiresAt, checked.2 !! t = Some expiresAt ->
                          tokenStore !! t = Some expiresAt)
  /\ (checked.1 = true -> forall t, token = Some t -> checked.2 !! t = tokenStore !! t)
  /\ (truthy token = true ->
      forall t expiresAt, checked.2 !! t = Some expiresAt -> cleanupAt < expiresAt).
Proof.
  destruct (validateToken_accepts cleanupAt checkAt token tokenStore)
    as [Haccept Hkeep].
  cbn zeta in *. split; [exact Haccept|]. split; [|split; [exact Hkeep|]].
  - clear. intros t' e. unfold GymsRoute.validateToken.
    destruct token as [t|]; [|done].
    destruct (decide (t = "")); [done|].
    destruct (GymsRoute.cleanupExpiredTokens cleanupAt tokenStore !! t)
      as [expiresAt|]; [|by intros [? _]%cleanupExpiredTokens_lookup].
    destruct (decide (expiresAt = 0));
      [by intros [? _]%cleanupExpiredTokens_lookup|].
    destruct (expiresAt <? checkAt); cbn [snd].
    + intros [_ Hl]%lookup_delete_Some.
      by apply cleanupExpiredTokens_lookup in Hl as [? _].
    + by intros [? _]%cleanupExpiredTokens_lookup.
  - clear. unfold GymsRoute.validateToken, truthy.
    destruct token as [t|]; [|done].
    destruct (decide (t = "")) as [->|Hne]; [by rewrite bool_decide_eq_true_2|].
    intros _ t' e.
    destruct (GymsRoute.cleanupExpiredTokens cleanupAt tokenStore !! t)
      as [expiresAt|]; [|by intros [_ ?]%cleanupExpiredTokens_lookup].
    destruct (decide (expiresAt = 0));
      [by intros [_ ?]%cleanupExpiredTokens_lookup|].
    destruct (expiresAt <? checkAt); cbn [snd].
    + intros [_ Hl]%lookup_delete_Some.
      by apply cleanupExpiredTokens_lookup in Hl as [_ ?].
    + by intros [_ ?]%cleanupExpiredTokens_lookup.
Qed.

(** X16.  The lifetime of a token.  A token created at [now] is accepted
    exactly when the clock of the clean-up is before [now + 60000] and the
    clock of the check is not after it; once accepted, it is accepted again by
    every later validation within that time. *)
Theorem X16_token_lifetime (randomHex : string) (now cleanupAt checkAt : Z)
    (tokenStore : gmap string Z) :
  randomHex <> "" ->
  0 <= now ->
  let created := GymsRoute.createToken randomHex now tokenStore in
  let checked :=
    GymsRoute.validateToken cleanupAt checkAt (Some created.1) created.2 in
  (checked.1 = true
   <-> cleanupAt < now + GymsRoute.TOKEN_TTL_MS
       /\ checkAt <= now + GymsRoute.TOKEN_TTL_MS)
  /\ (checked.1 = true ->
      forall cleanupAt' checkAt',
        cleanupAt' < now + GymsRoute.TOKEN_TTL_MS ->
        checkAt' <= now + GymsRoute.TOKEN_TTL_MS ->
        (GymsRoute.validateToken cleanupAt' checkAt' (Some created.1) checked.2).1
        = true).
Proof.
  intros Hne Hnow. cbn zeta. unfold GymsRoute.createToken. cbn [fst snd].
  destruct (validateToken_accepts cleanupAt checkAt (Some randomHex)
              (<[randomHex := now + GymsRoute.TOKEN_TTL_MS]> tokenStore))
    as (Hvalid & Hkeep).
  cbn zeta in Hvalid, Hkeep. split.
  - rewrite Hvalid. split.
    + intros (t & e & [= <-] & _ & Hl & _ & ? & ?).
      rewrite lookup_insert_eq in Hl. injection Hl as <-. done.
    + intros [? ?]. exists randomHex, (now + GymsRoute.TOKEN_TTL_MS).
      rewrite lookup_insert_eq. unfold GymsRoute.TOKEN_TTL_MS in *.
      repeat split; try done; lia.
  - intros Hok cleanupAt' checkAt' Hc Hk.
    apply validateToken_accepts. exists randomHex, (now + GymsRoute.TOKEN_TTL_MS).
    rewrite (Hkeep Hok randomHex eq_refl), lookup_insert_eq.
    unfold GymsRoute.TOKEN_TTL_MS in *. repeat split; try done; lia.
Qed.

Lemma X16_token_lifetime_witness :
  let created := GymsRoute.createToken "c0ffee" 1000 ∅ in
  let checked := GymsRoute.validateToken 2000 2001 (Some created.1) created.2 in
  (checked.1 = true
   <-> 2000 < 1000 + GymsRoute.TOKEN_TTL_MS /\ 2001 <= 1000 + GymsRoute.TOKEN_TTL_MS)
  /\ (checked.1 = true ->
      forall cleanupAt' checkAt',
        cleanupAt' < 1000 + GymsRoute.TOKEN_TTL_MS ->
        checkAt' <= 1000 + GymsRoute.TOKEN_TTL_MS ->
        (GymsRoute.validateToken cleanupAt' checkAt' (Some created.1) checked.2).1
        = true).
Proof.
  apply (X16_token_lifetime "c0ffee" 1000 2000 2001 ∅).
  - discriminate.
  - lia.
Defined.

(** ** The handlers *)

(** X17.  Authorization of GET /api/gyms.  The answer is 401 exactly when a
    secret is configured, the request has no [x-invoke-path] header (or an
    empty one) and its [x-access-token] does not validate; then the body is
    the error and neither the database nor the console is touched.  Every
    other request is answered with status 200 and the snapshot that
    [fetchGymSnapshot] returns.  A request with an [x-invoke-path] header, and
    any request when no secret is configured, is served without a look at the
    token store. *)
Theorem X17_gyms_authorization (rt : Runtime) (env : Env) (headers : Http.Headers)
    (cleanupAt checkAt : Z) (tokenStore : gmap string Z) (w : World) :
  let answer := GymsRoute.GET rt env headers cleanupAt checkAt tokenStore w in
  let response := answer.1.1 in
  let unguarded :=
    truthy (headers "x-invoke-path") || negb (truthy (env "INTERNAL_API_SECRET")) in
  let checked :=
    GymsRoute.validateToken cleanupAt checkAt (headers "x-access-token") tokenStore in
  (Http.status response = 401 <-> unguarded = false /\ checked.1 = false)
  /\ (Http.status response = 401 ->
      Http.body response = Http.ErrorBody "Unauthorized" /\ answer.2 = w)
  /\ (Http.status response <> 401 ->
      Http.status response = 200
      /\ exists snapshot,
           Http.body response = Http.SnapshotBody snapshot
           /\ GymData.fetchGymSnapshot rt env w = (Ok snapshot, answer.2))
  /\ (unguarded = true -> answer.1.2 = tokenStore).
Proof.
  cbn zeta. unfold GymsRoute.GET. cbn zeta.
  destruct (fetchGymSnapshot_total rt env w) as (snapshot & w' & Hrun & _).
  rewrite Hrun.
  destruct (truthy (headers "x-invoke-path")); cbn [negb andb orb].
  { cbn. split; [split; [done | by intros [? _]]|]. split; [done|].
    split; [|done]. intros _. split; [done|]. by exists snapshot. }
  destruct (truthy (env "INTERNAL_API_SECRET")); cbn [negb].
  2: { cbn. split; [split; [done | by intros [? _]]|]. split; [done|].
       split; [|done]. intros _. split; [done|]. by exists snapshot. }
  destruct (GymsRoute.validateToken cleanupAt checkAt (headers "x-access-token")
              tokenStore) as [[] tokenStore'] eqn:Hv; cbn.
  - split; [split; [done | by intros [_ ?]]|]. split; [done|].
    split; [|done]. intros _. split; [done|]. by exists snapshot.
  - split; [done|]. split; [done|]. split; [done|]. done.
Qed.

(** X18.  POST /api/gyms issues a token exactly when a secret is
    configured and the [x-internal-secret] header equals it: the answer is
    then [{token, expiresIn: 60}] and the token is stored with the expiry
    [now + 60000].  Otherwise the store is unchanged and the answer is an
    error, with status 400 when no secret is configured and 401 when one
    is. *)
Theorem X18_token_issue (env : Env) (headers : Http.Headers) (randomHex : string)
    (now : Z) (tokenStore : gmap string Z) :
  let answer := GymsRoute.POST env headers randomHex now tokenStore in
  let secret := env "INTERNAL_API_SECRET" in
  let authorized :=
    truthy secret && bool_decide (headers "x-internal-secret" = secret) in
  (authorized = true ->
   answer
   = (Http.mk 200 (Http.TokenBody randomHex 60),
      <[randomHex := now + 60000]> tokenStore))
  /\ (authorized = false ->
      answer.2 = tokenStore
      /\ Http.status answer.1 = (if truthy secret then 401 else 400)
      /\ exists error, Http.body answer.1 = Http.ErrorBody error).
Proof.
  cbn zeta. unfold GymsRoute.POST. cbn zeta.
  destruct (truthy (env "INTERNAL_API_SECRET")) eqn:Hs; cbn [negb andb].
  2: { split; [done|]. intros _. cbn. eauto. }
  case_bool_decide as Heq; cbn [negb].
  - rewrite Heq, Hs. cbn [negb orb]. split; [|done]. intros _. reflexivity.
  - rewrite orb_true_r. split; [done|]. intros _. cbn. eauto.
Qed.

(** X19.  The round trip of a token.  Issued by a POST with the right
    secret and presented in the [x-access-token] header of a GET without
    [x-invoke-path], the token opens the snapshot (status 200) throughout its
    sixty seconds and is refused (status 401) afterwards. *)
Theorem X19_token_round_trip (rt : Runtime) (env : Env) (secret randomHex : string)
    (now cleanupAt checkAt : Z) (tokenStore : gmap string Z) (w : World)
    (issue fetch : Http.Headers) :
  env "INTERNAL_API_SECRET" = Some secret ->
  secret <> "" ->
  issue "x-internal-secret" = Some secret ->
  randomHex <> "" ->
  0 <= now ->
  fetch "x-invoke-path" = None ->
  fetch "x-access-token" = Some randomHex ->
  let issued := GymsRoute.POST env issue randomHex now tokenStore in
  let answer := GymsRoute.GET rt env fetch cleanupAt checkAt issued.2 w in
  issued.1 = Http.mk 200 (Http.TokenBody randomHex 60)
  /\ (cleanupAt < now + 60000 -> checkAt <= now + 60000 ->
      Http.status answer.1.1 = 200)
  /\ (now + 60000 <= cleanupAt \/ now + 60000 < checkAt ->
      Http.status answer.1.1 = 401).
Proof.
  intros Hsecret Hne Hissue Hhex Hnow Hpath Htoken. cbn zeta.
  assert (Htruthy : truthy (Some secret) = true).
  { cbn. by rewrite bool_decide_eq_false_2. }
  unfold GymsRoute.POST, GymsRoute.GET, GymsRoute.createToken. cbn zeta.
  rewrite Hsecret, Hissue, Hpath, Htoken, Htruthy.
  rewrite bool_decide_eq_true_2 by done. cbn [truthy negb orb andb fst snd].
  split; [done|].
  destruct (fetchGymSnapshot_total rt env w) as (snapshot & w' & -> & _).
  pose proof (validateToken_accepts cleanupAt checkAt (Some randomHex)
                (<[randomHex := now + GymsRoute.TOKEN_TTL_MS]> tokenStore))
    as (Hvalid & _).
  cbn zeta in Hvalid. unfold GymsRoute.TOKEN_TTL_MS in *.
  destruct (GymsRoute.validateToken cleanupAt checkAt (Some randomHex) _).1 eqn:Hv.
  - destruct (proj1 Hvalid eq_refl) as (t & e & [= <-] & _ & Hl & _ & ? & ?).
    rewrite lookup_insert_eq in Hl. injection Hl as <-.
    split; [done|]. intros [?|?]; lia.
  - split; [|done]. intros Hc Hk. exfalso.
    assert (false = true); [|done]. apply Hvalid.
    exists randomHex, (now + 60000). rewrite lookup_insert_eq.
    repeat split; try done; lia.
Qed.

Lemma X19_token_round_trip_witness :
  let issue := Sample2.header "x-internal-secret" "s3cret" in
  let fetch := Sample2.header "x-access-token" "c0ffee" in
  let issued := GymsRoute.POST Sample2.secured issue "c0ffee" 1000 ∅ in
  let answer :=
    GymsRoute.GET (Sample.runtime 2) Sample2.secured fetch 2000 2001 issued.2
      (Sample.idle Sample.payloads) in
  issued.1 = Http.mk 200 (Http.TokenBody "c0ffee" 60)
  /\ (2000 < 1000 + 60000 -> 2001 <= 1000 + 60000 -> Http.status answer.1.1 = 200)
  /\ (1000 + 60000 <= 2000 \/ 1000 + 60000 < 2001 -> Http.status answer.1.1 = 401).
Proof.
  apply (X19_token_round_trip (Sample.runtime 2) Sample2.secured "s3cret" "c0ffee"
           1000 2000 2001 ∅ (Sample.idle Sample.payloads)
           (Sample2.header "x-internal-secret" "s3cret")
           (Sample2.header "x-access-token" "c0ffee")).
  - reflexivity.
  - discriminate.
  - reflexivity.
  - discriminate.
  - lia.
  - reflexivity.
  - reflexivity.
Defined.

(** X20.  No handler answers 500 and none changes the committed store:
    GET /api/gyms answers 200 or 401, GET /api/gym-history and
    GET /api/defender-stats answer 200, for every runtime, configuration,
    store and request. *)
Theorem X20_routes_always_answer (rt : Runtime) (env : Env) (w : World)
    (period : option string) (headers : Http.Headers) (cleanupAt checkAt : Z)
    (tokenStore : gmap string Z) :
  Http.status (GymsRoute.GET rt env headers cleanupAt checkAt tokenStore w).1.1
    ∈ [200; 401]
  /\ Http.status (GymHistoryRoute.GET rt env period w).1 = 200
  /\ Http.status (DefenderStatsRoute.GET rt env w).1 = 200
  /\ committed (GymsRoute.GET rt env headers cleanupAt checkAt tokenStore w).2
     = committed w
  /\ committed (GymHistoryRoute.GET rt env period w).2 = committed w
  /\ committed (DefenderStatsRoute.GET rt env w).2 = committed w.
Proof.
  unfold GymsRoute.GET, GymHistoryRoute.GET, DefenderStatsRoute.GET. cbn zeta.
  destruct (fetchGymSnapshot_total rt env w) as (snapshot & w1 & -> & Hc1 & _).
  destruct (fetchGymHistory_total rt env (default "24h" period) w)
    as (response & w2 & -> & Hc2 & _).
  destruct (fetchDefenderStats_committed rt env w) as (stats & w3 & -> & Hc3).
  cbn [fst snd Http.status].
  match goal with
  | |- context [if ?c then GymsRoute.validateToken _ _ _ _ else _] =>
      destruct (if c then GymsRoute.validateToken cleanupAt checkAt
                            (headers "x-access-token") tokenStore
                else (true, tokenStore)) as [[] tokenStore']
  end; cbn [fst snd Http.status]; repeat split; try done.
  - left.
  - right. left.
Qed.

(** * The ticker *)

(** ** Counting the defenders *)

Lemma count_defender_skip (d : Defender)
    (defenderCounts : list (string * FavoriteDefender.t)) :
  counted d = false -> GymTicker.count_defender d defenderCounts = defenderCounts.
Proof.
  unfold counted, GymTicker.count_defender.
  destruct (pokemon_id d) as [pid|]; [|done].
  intros Hc. apply negb_false_iff, bool_decide_eq_true in Hc.
  by rewrite decide_True.
Qed.

Lemma count_defender_tallies (ds : list Defender) (d : Defender)
    (defenderCounts : list (string * FavoriteDefender.t)) :
  counted d = true -> tallies ds defenderCounts ->
  tallies (ds ++ [d]) (GymTicker.count_defender d defenderCounts).
Proof.
  unfold counted. intros Hc (Hnd & Hkeys & Hentries).
  unfold GymTicker.count_defender.
  destruct (pokemon_id d) as [pid|] eqn:Hpid; [|done].
  apply negb_true_iff, bool_decide_eq_false in Hc. rewrite decide_False by done.
  assert (Hkey : pretty pid +:+ "_" +:+ pretty (default 0 (form d)) +:+ "_"
                 +:+ pretty (default 0 (costume d)) = defender_key d).
  { unfold defender_key. by rewrite Hpid. }
  rewrite Hkey. set (key := defender_key d).
  assert (Hself : with_key key (ds ++ [d]) = with_key key ds ++ [d]).
  { rewrite with_key_app. unfold with_key at 2. cbn [List.filter].
    by rewrite bool_decide_eq_true_2. }
  assert (Hother : forall k entry,
    k <> key ->
    (FavoriteDefender.count entry = occurrences k ds
     /\ exists d0, d0 ∈ ds /\ defender_key d0 = k
                   /\ pokemon_id d0 = Some (FavoriteDefender.pokemon_id entry)) ->
    FavoriteDefender.count entry = occurrences k (ds ++ [d])
    /\ exists d0, d0 ∈ ds ++ [d] /\ defender_key d0 = k
                  /\ pokemon_id d0 = Some (FavoriteDefender.pokemon_id entry)).
  { intros k entry Hne (Hcount & d0 & Hd0 & Hk0 & Hp0).
    unfold occurrences. rewrite with_key_app. unfold with_key at 2.
    cbn [List.filter]. rewrite bool_decide_eq_false_2 by (by intros ?).
    rewrite app_nil_r. split; [done|]. exists d0. split; [|done].
    apply elem_of_app. by left. }
  cbn zeta. unfold tallies. case_bool_decide as Hin.
  - set (update := fun entry : string * FavoriteDefender.t =>
                     if decide (entry.1 = key) then _ else entry).
    assert (Hfst : (update <$> defenderCounts).*1 = defenderCounts.*1).
    { rewrite <- list_fmap_compose. apply list_fmap_ext. intros i [k e] _.
      subst update. cbn. by destruct (decide (k = key)) as [->|]. }
    rewrite Hfst. split; [done|]. split.
    + intros k. rewrite Hkeys, fmap_app, elem_of_app. cbn.
      rewrite list_elem_of_singleton. split; [by left|].
      intros [?| ->]; [done|]. by apply Hkeys.
    + intros k e Hke. apply list_elem_of_fmap in Hke as ([k0 e0] & Heq & Hin0).
      subst update. cbn [fst snd] in Heq.
      destruct (decide (k0 = key)) as [->|Hne]; injection Heq as -> ->.
      * destruct (Hentries _ _ Hin0) as (Hc0 & d0 & Hd0 & Hk0 & Hp0).
        unfold occurrences in *. rewrite Hself, length_app.
        cbn [FavoriteDefender.count FavoriteDefender.pokemon_id length].
        split; [lia|]. exists d0. split; [|done]. apply elem_of_app. by left.
      * apply Hother; [done|]. by apply Hentries.
  - rewrite fmap_app. cbn [fmap list_fmap fst]. split.
    + apply NoDup_app. split; [done|]. split; [|apply NoDup_singleton].
      intros k Hk Hk'. apply list_elem_of_singleton in Hk'. by subst k.
    + split.
      * intros k. rewrite fmap_app, !elem_of_app, Hkeys. cbn.
        by rewrite !list_elem_of_singleton.
      * intros k e [Hke|Hke]%elem_of_app.
        -- apply Hother; [|by apply Hentries].
           intros ->. apply Hin. apply list_elem_of_fmap. by exists (key, e).
        -- apply list_elem_of_singleton in Hke. injection Hke as -> ->.
           assert (Hnone : with_key key ds = []).
           { apply with_key_absent. by rewrite <- Hkeys. }
           unfold occurrences. rewrite Hself, Hnone.
           cbn [app length FavoriteDefender.count FavoriteDefender.pokemon_id].
           split; [done|]. exists d. split; [|done].
           apply elem_of_app. right. by apply list_elem_of_singleton.
Qed.

Lemma count_defenders_ok (items : list (option Defender)) :
  None ∉ items ->
  forall ds defenderCounts,
    tallies ds defenderCounts ->
    exists defenderCounts',
      GymTicker.count_defenders items defenderCounts = Ok defenderCounts'
      /\ tallies (ds ++ List.filter counted (omap id items)) defenderCounts'.
Proof.
  induction items as [|[d|] items IH]; intros Hnull ds defenderCounts Htally.
  - exists defenderCounts. split; [done|]. by rewrite app_nil_r.
  - apply not_elem_of_cons in Hnull as [_ Hnull].
    cbn [GymTicker.count_defenders].
    change (omap id (Some d :: items)) with (d :: omap id items).
    cbn [List.filter].
    destruct (counted d) eqn:Hc.
    + destruct (IH Hnull (ds ++ [d]) (GymTicker.count_defender d defenderCounts))
        as (counts' & -> & Htally'); [by apply count_defender_tallies|].
      exists counts'. split; [done|]. by rewrite <- app_assoc in Htally'.
    + rewrite count_defender_skip by done. by apply IH.
  - exfalso. apply Hnull. left.
Qed.

Lemma count_defenders_null (items : list (option Defender)) :
  forall defenderCounts,
    (exists e, GymTicker.count_defenders items defenderCounts = Throw e)
    <-> None ∈ items.
Proof.
  induction items as [|[d|] items IH]; intros defenderCounts.
  - split; [by intros [e ?]|]. intros H. inversion H.
  - cbn [GymTicker.count_defenders]. rewrite IH. split.
    + intros H. by right.
    + intros [?|?]%elem_of_cons; done.
  - split; [intros _; left|]. intros _. by eexists.
Qed.

Lemma ticker_defenders_cons (gym : Gym.t) (teamGyms : list Gym.t) :
  ticker_defenders (gym :: teamGyms)
  = List.filter counted
      (omap id match Gym.defenders gym with
               | JArray items => items
               | JOther _ => []
               end)
    ++ ticker_defenders teamGyms.
Proof.
  unfold ticker_defenders. rewrite bind_cons, omap_app. apply List.filter_app.
Qed.

Lemma count_gyms_ok (teamGyms : list Gym.t) :
  (forall gym, gym ∈ teamGyms -> ~ breaks_ticker (Gym.defenders gym)) ->
  forall ds defenderCounts,
    tallies ds defenderCounts ->
    exists defenderCounts',
      GymTicker.count_gyms teamGyms defenderCounts = Ok defenderCounts'
      /\ tallies (ds ++ ticker_defenders teamGyms) defenderCounts'.
Proof.
  induction teamGyms as [|gym teamGyms IH]; intros Hsafe ds defenderCounts Htally.
  { exists defenderCounts. split; [done|]. by rewrite app_nil_r. }
  assert (Hrest : forall g, g ∈ teamGyms -> ~ breaks_ticker (Gym.defenders g)).
  { intros g Hg. apply Hsafe. by right. }
  assert (Hgym : ~ breaks_ticker (Gym.defenders gym)) by (apply Hsafe; left).
  cbn [GymTicker.count_gyms]. rewrite ticker_defenders_cons.
  destruct (Gym.defenders gym) as [items|v].
  - destruct (count_defenders_ok items Hgym ds defenderCounts Htally)
      as (counts1 & -> & Htally1).
    destruct (IH Hrest _ counts1 Htally1) as (counts' & -> & Htally').
    exists counts'. split; [done|]. by rewrite app_assoc.
  - destruct v; try (exfalso; apply Hgym; done). cbn [omap list_omap List.filter app].
    by apply IH.
Qed.

Lemma count_gyms_breaks (teamGyms : list Gym.t) :
  forall defenderCounts,
    (exists e, GymTicker.count_gyms teamGyms defenderCounts = Throw e)
    <-> exists gym, gym ∈ teamGyms /\ breaks_ticker (Gym.defenders gym).
Proof.
  induction teamGyms as [|gym teamGyms IH]; intros defenderCounts.
  { split; [by intros [e ?]|]. intros (g & Hg & _). inversion Hg. }
  cbn [GymTicker.count_gyms].
  assert (Hcons : forall P : Prop,
    (P <-> breaks_ticker (Gym.defenders gym)
           \/ exists g, g ∈ teamGyms /\ breaks_ticker (Gym.defenders g)) ->
    (P <-> exists g, g ∈ gym :: teamGyms /\ breaks_ticker (Gym.defenders g))).
  { intros P ->. split.
    - intros [?|(g & ? & ?)]; [exists gym; split; [left|done]|].
      exists g. split; [by right|done].
    - intros (g & [->|?]%elem_of_cons & ?); [by left|]. right. by exists g. }
  apply Hcons. clear Hcons.
  destruct (Gym.defenders gym) as [items|v] eqn:Hd; cbn [breaks_ticker].
  - destruct (GymTicker.count_defenders items defenderCounts) as [counts1|e] eqn:Hc.
    + rewrite IH. split; [by right|]. intros [Hnull|?]; [|done].
      apply (count_defenders_null items defenderCounts) in Hnull as [e He].
      congruence.
    + split; [|by eexists]. intros _. left.
      apply (count_defenders_null items defenderCounts). by eexists.
  - destruct v; try (split; [intros _; by left | intros _; by eexists]).
    rewrite IH. split; [by right|]. by intros [?|?].
Qed.

(** ** The most common defender *)

Lemma most_common_fold (values : list FavoriteDefender.t) :
  forall state : option FavoriteDefender.t * Z,
    let step state defender :=
      if state.2 <? FavoriteDefender.count defender
      then (Some defender, FavoriteDefender.count defender)
      else state in
    let final := fold_left step values state in
    state.2 <= final.2
    /\ (forall v, v ∈ values -> FavoriteDefender.count v <= final.2)
    /\ (final = state
        \/ exists v, v ∈ values /\ final = (Some v, FavoriteDefender.count v)).
Proof.
  induction values as [|x values IH]; intros state; cbn zeta.
  { cbn. split; [lia|]. split; [|by left]. intros v Hv. inversion Hv. }
  cbn [fold_left].
  destruct (state.2 <? FavoriteDefender.count x) eqn:Hlt.
  - apply Z.ltb_lt in Hlt.
    destruct (IH (Some x, FavoriteDefender.count x)) as (Hle & Hall & Hfinal).
    cbn zeta in *. cbn [snd] in Hle. split; [lia|]. split.
    + intros v [->|Hv]%elem_of_cons; [done | by apply Hall].
    + right. destruct Hfinal as [->|(v & Hv & ->)].
      * exists x. split; [left|done].
      * exists v. split; [by right|done].
  - apply Z.ltb_ge in Hlt.
    destruct (IH state) as (Hle & Hall & Hfinal). cbn zeta in *.
    split; [done|]. split.
    + intros v [->|Hv]%elem_of_cons; [lia | by apply Hall].
    + destruct Hfinal as [->|(v & Hv & ->)]; [by left|].
      right. exists v. split; [by right|done].
Qed.

(** X21.  The favourite defender of the ticker.  When the [defenders] of
    every gym is [null] or an array without [null]: the result is [null]
    exactly when no defender with a [pokemon_id] other than 0 is listed;
    otherwise it is the entry of a listed defender, its [count] is the number
    of listed defenders sharing the (species, form, costume) key of that
    defender, and no key occurs more often. *)
Theorem X21_favorite_defender (teamGyms : list Gym.t) :
  (forall gym, gym ∈ teamGyms -> ~ breaks_ticker (Gym.defenders gym)) ->
  exists favorite,
    GymTicker.getFavoriteDefender teamGyms = Ok favorite
    /\ let ds := ticker_defenders teamGyms in
       match favorite with
       | None => ds = []
       | Some favorite =>
           exists d,
             d ∈ ds
             /\ pokemon_id d = Some (FavoriteDefender.pokemon_id favorite)
             /\ FavoriteDefender.count favorite = occurrences (defender_key d) ds
             /\ forall d', d' ∈ ds ->
                  occurrences (defender_key d') ds
                  <= FavoriteDefender.count favorite
       end.
Proof.
  intros Hsafe. unfold GymTicker.getFavoriteDefender.
  destruct (count_gyms_ok teamGyms Hsafe [] [])
    as (counts & -> & Hnd & Hkeys & Hentries).
  { split; [constructor|]. split; [done|]. intros k e H. inversion H. }
  cbn [app] in *. eexists. split; [reflexivity|]. cbn zeta.
  unfold GymTicker.most_common.
  destruct (most_common_fold counts.*2 (None, 0)) as (_ & Hall & Hfinal).
  cbn zeta in Hall, Hfinal.
  assert (Hvalue : forall v, v ∈ counts.*2 ->
            exists d, d ∈ ticker_defenders teamGyms
                      /\ pokemon_id d = Some (FavoriteDefender.pokemon_id v)
                      /\ FavoriteDefender.count v
                         = occurrences (defender_key d) (ticker_defenders teamGyms)).
  { intros v Hv. apply list_elem_of_fmap in Hv as ([k e] & -> & Hin).
    destruct (Hentries k e Hin) as (Hc & d & Hd & Hk & Hp).
    exists d. cbn [snd]. by rewrite Hk. }
  assert (Hmax : forall d', d' ∈ ticker_defenders teamGyms ->
            exists v, v ∈ counts.*2
                      /\ FavoriteDefender.count v
                         = occurrences (defender_key d') (ticker_defenders teamGyms)).
  { intros d' Hd'.
    assert (Hk : defender_key d' ∈ counts.*1).
    { apply Hkeys. apply list_elem_of_fmap. by exists d'. }
    apply list_elem_of_fmap in Hk as ([k e] & Hk & Hin). cbn [fst] in Hk. subst k.
    exists e. split; [apply list_elem_of_fmap; by exists (defender_key d', e)|].
    by destruct (Hentries _ e Hin) as [? _]. }
  destruct Hfinal as [Hf|(v & Hv & Hf)]; rewrite Hf in Hall |- *; cbn [fst snd] in *.
  - destruct (ticker_defenders teamGyms) as [|d0 ds] eqn:Hds; [done|].
    exfalso. destruct (Hmax d0) as (v & Hv & Hc); [left|].
    specialize (Hall v Hv). rewrite Hc in Hall. unfold occurrences, with_key in Hall.
    cbn [List.filter] in Hall. rewrite bool_decide_eq_true_2 in Hall by done.
    cbn [length] in Hall. lia.
  - destruct (Hvalue v Hv) as (d & Hd & Hp & Hc).
    exists d. split; [done|]. split; [done|]. split; [done|].
    intros d' Hd'. destruct (Hmax d' Hd') as (v' & Hv' & <-). by apply Hall.
Qed.

Lemma X21_favorite_defender_witness :
  let teamGyms :=
    snapshot_gym (Sample.runtime 1000) <$> gym Sample2.defended in
  exists favorite,
    GymTicker.getFavoriteDefender teamGyms = Ok favorite
    /\ let ds := ticker_defenders teamGyms in
       match favorite with
       | None => ds = []
       | Some favorite =>
           exists d,
             d ∈ ds
             /\ pokemon_id d = Some (FavoriteDefender.pokemon_id favorite)
             /\ FavoriteDefender.count favorite = occurrences (defender_key d) ds
             /\ forall d', d' ∈ ds ->
                  occurrences (defender_key d') ds
                  <= FavoriteDefender.count favorite
       end.
Proof.
  apply (X21_favorite_defender
           (snapshot_gym (Sample.runtime 1000) <$> gym Sample2.defended)).
  intros g Hg. vm_compute in Hg.
  repeat (apply elem_of_cons in Hg as [->|Hg];
          [vm_compute; intros Hnull;
           repeat (apply elem_of_cons in Hnull as [Hnull|Hnull]; [discriminate|]);
           inversion Hnull|]).
  inversion Hg.
Defined.

(** X22.  [getFavoriteDefender] raises a TypeError exactly when the
    [defenders] of some gym is neither an array nor [null], or is an array
    that holds [null]. *)
Theorem X22_ticker_breaks (teamGyms : list Gym.t) :
  (exists e, GymTicker.getFavoriteDefender teamGyms = Throw e)
  <-> exists gym, gym ∈ teamGyms /\ breaks_ticker (Gym.defenders gym).
Proof.
  rewrite <- (count_gyms_breaks teamGyms []). unfold GymTicker.getFavoriteDefender.
  destruct (GymTicker.count_gyms teamGyms []) as [counts|e].
  - split; intros [e ?]; done.
  - split; intros _; by eexists.
Qed.

(** X23.  A payload that [fetchGymSnapshot] hands on although it is not an
    array breaks the ticker.  When a gym selected by the snapshot query has a
    payload that parses to an object, a number, a string or a boolean (or to
    an array that holds [null]), [getFavoriteDefender] raises on the snapshot
    array of the team of that gym. *)
Theorem X23_snapshot_breaks_ticker (rt : Runtime) (env : Env) (w : World)
    (geofenceId : string) (gymRow : GymRow.t) :
  configured env ->
  env "GEOFENCE_ID" = Some geofenceId ->
  faulty rt SnapshotSelect = false ->
  gymRow ∈ gym (committed w) ->
  snapshot_cond rt (parseInt rt (default "3600" (env "GYM_TIME_WINDOW"))) geofenceId
    gymRow = true ->
  breaks_ticker (parsed_defenders rt gymRow) ->
  exists result w',
    GymData.fetchGymSnapshot rt env w = (Ok result, w')
    /\ forall team gyms,
         (team, gyms) ∈ [(1, GymApiResult.mystic result);
                         (2, GymApiResult.valor result);
                         (3, GymApiResult.instinct result)] ->
         GymRow.team_id gymRow = Some team ->
         exists e, GymTicker.getFavoriteDefender gyms = Throw e.
Proof.
  intros (dbName & geofenceDbName & g & E1 & E2 & E3) Hg F Hrow Hcond Hbreaks.
  assert (g = geofenceId) as ->.
  { unfold GymData.ensureIdentifier in E3. rewrite Hg in E3.
    destruct (decide (geofenceId = "")); [done|].
    destruct (Collector.matches_word geofenceId); [|done]. by injection E3. }
  unfold GymData.fetchGymSnapshot. rewrite E3, E1, E2.
  unfold try_catch, bind at 1, pool_execute. rewrite F.
  match goal with
  | |- context [GymData.snapshot_loop rt ?rows ?res w] =>
      destruct (snapshot_loop_lists rt rows res w)
        as (result & w' & -> & Hm & Hv & Hi)
  end.
  exists result, w'. split; [done|]. cbn zeta in *.
  cbn [GymApiResult.mystic GymApiResult.valor GymApiResult.instinct app] in Hm, Hv, Hi.
  assert (Hsel : gymRow ∈ GymData.select_snapshot rt
                   (parseInt rt (default "3600" (env "GYM_TIME_WINDOW")))
                   geofenceId (committed w)).
  { unfold GymData.select_snapshot. rewrite merge_sort_Permutation.
    apply elem_of_List_filter. by split. }
  assert (Hthrow : forall team,
    GymRow.team_id gymRow = Some team ->
    exists e,
      GymTicker.getFavoriteDefender
        (snapshot_gym rt
           <$> List.filter (fun g => bool_decide (GymRow.team_id g = Some team))
                 (GymData.select_snapshot rt
                    (parseInt rt (default "3600" (env "GYM_TIME_WINDOW")))
                    geofenceId (committed w)))
      = Throw e).
  { intros team Hteam.
    assert (Hex : exists e, GymTicker.count_gyms
              (snapshot_gym rt
                 <$> List.filter (fun g => bool_decide (GymRow.team_id g = Some team))
                       (GymData.select_snapshot rt
                          (parseInt rt (default "3600" (env "GYM_TIME_WINDOW")))
                          geofenceId (committed w))) [] = Throw e).
    { apply count_gyms_breaks. exists (snapshot_gym rt gymRow). split; [|done].
      apply list_elem_of_fmap. exists gymRow. split; [done|].
      apply elem_of_List_filter. split; [done|]. by apply bool_decide_eq_true. }
    destruct Hex as [e He]. exists e. unfold GymTicker.getFavoriteDefender.
    by rewrite He. }
  intros team gyms Hin Hteam.
  repeat (apply elem_of_cons in Hin as [[= -> ->]|Hin];
          [rewrite ?Hm, ?Hv, ?Hi; by apply Hthrow|]).
  inversion Hin.
Qed.

Lemma X23_snapshot_breaks_ticker_witness :
  let rt := Sample.runtime 1000 in
  exists result w',
    GymData.fetchGymSnapshot rt Sample.env (Sample.idle Sample.payloads)
    = (Ok result, w')
    /\ forall team gyms,
         (team, gyms) ∈ [(1, GymApiResult.mystic result);
                         (2, GymApiResult.valor result);
                         (3, GymApiResult.instinct result)] ->
         GymRow.team_id (Sample.gymRow "A" (Some 1) (Some "{}") 903) = Some team ->
         exists e, GymTicker.getFavoriteDefender gyms = Throw e.
Proof.
  apply (X23_snapshot_breaks_ticker (Sample.runtime 1000) Sample.env
           (Sample.idle Sample.payloads) "golbat"
           (Sample.gymRow "A" (Some 1) (Some "{}") 903)).
  - exact Sample_configured.
  - reflexivity.
  - reflexivity.
  - vm_compute. left.
  - vm_compute. reflexivity.
  - vm_compute. discriminate.
Defined.

(** ** Ages *)

(** X24.  The two age labels.  Until the page is hydrated the label of the
    client is [...] for every timestamp.  After that: below a minute the
    client says [just now] where the server gives the seconds; from a minute
    on [getTimeAgo] of the client and [getTimeSinceUpdate] of the server give
    the same text, which names the age in the largest of the units minute,
    hour and day that fits: a number of at least 1, below 60 for minutes and
    below 24 for hours, rounded down. *)
Theorem X24_age_labels (rt : Runtime) (timestamp : Z) :
  let age := Date_now rt `div` 1000 - timestamp in
  GymTicker.getTimeAgo false (Date_now rt) timestamp = "..."
  /\ (age < 60 ->
      GymTicker.getTimeAgo true (Date_now rt) timestamp = "just now"
      /\ GymData.getTimeSinceUpdate rt timestamp = pretty age +:+ "s ago")
  /\ (60 <= age ->
      GymTicker.getTimeAgo true (Date_now rt) timestamp
      = GymData.getTimeSinceUpdate rt timestamp
      /\ exists unit size bound,
           (unit, size, bound) ∈ [("m", 60, Some 60); ("h", 3600, Some 24);
                                  ("d", 86400, None)]
           /\ GymData.getTimeSinceUpdate rt timestamp
              = pretty (age `div` size) +:+ unit +:+ " ago"
           /\ 1 <= age `div` size
           /\ forall b, bound = Some b -> age `div` size < b).
Proof.
  cbn zeta. unfold GymTicker.getTimeAgo, GymData.getTimeSinceUpdate. cbn zeta.
  cbn [negb]. split; [done|].
  set (age := Date_now rt `div` 1000 - timestamp).
  split; intros Hage.
  - apply Z.ltb_lt in Hage. by rewrite Hage.
  - pose proof Hage as Hge. apply Z.ltb_ge in Hage. rewrite Hage. split; [done|].
    destruct (Z.ltb_spec age 3600) as [Hm|Hm];
      [|destruct (Z.ltb_spec age 86400) as [Hh|Hh]].
    + exists "m", 60, (Some 60). split; [set_solver|]. split; [done|].
      split; [apply Z.div_le_lower_bound; lia|].
      intros b [= <-]. apply Z.div_lt_upper_bound; lia.
    + exists "h", 3600, (Some 24). split; [set_solver|]. split; [done|].
      split; [apply Z.div_le_lower_bound; lia|].
      intros b [= <-]. apply Z.div_lt_upper_bound; lia.
    + exists "d", 86400, None. split; [set_solver|]. split; [done|].
      split; [apply Z.div_le_lower_bound; lia|]. done.
Qed.

(** * What the chart shows of the contested gyms *)

(** X25.  The contested list of the chart: the first ten gyms of the
    response, which holds at most twenty, each with all the recent changes the
    response gives for it; the cut to five on the client never drops one. *)
Theorem X25_shown_contested (rt : Runtime) (env : Env) (period : string) (w : World) :
  exists response w',
    GymData.fetchGymHistory rt env period w = (Ok response, w')
    /\ GymHistoryChart.shownContested response
       = (fun gym => (gym, ContestedGym.recent_changes gym))
           <$> take 10 (GymHistoryResponse.contestedGyms response)
    /\ (length (GymHistoryChart.shownContested response) <= 10)%nat
    /\ (length (GymHistoryResponse.contestedGyms response) <= 20)%nat.
Proof.
  destruct (fetchGymHistory_cases rt env period w) as (response & w' & Hrun & Hcases).
  exists response, w'. split; [done|]. unfold GymHistoryChart.shownContested.
  split; [|split].
  - apply list_fmap_ext. intros i gym Hgym. f_equal. apply take_ge.
    apply list_elem_of_lookup_2, subseteq_take in Hgym.
    destruct Hcases as [->|[geofenceId ->]]; [inversion Hgym|].
    cbn zeta in Hgym. cbn [GymHistoryResponse.contestedGyms] in Hgym.
    apply list_elem_of_fmap in Hgym as (row & -> & Hrow).
    cbn [GymData.contested_gym ContestedGym.recent_changes].
    destruct (0 <? _)%nat; [|by rewrite lookup_empty; cbn; lia].
    rewrite mapRecentChanges_lookup. destruct (decide _) as [|_]; [cbn; lia|].
    cbn [default from_option]. unfold id, recent_of. rewrite length_take. lia.
  - rewrite length_fmap, length_take. lia.
  - destruct Hcases as [->|[geofenceId ->]]; [cbn; lia|].
    cbn zeta. cbn [GymHistoryResponse.contestedGyms].
    rewrite length_fmap. unfold GymData.select_contested.
    rewrite length_take. lia.
Qed.

(** * A run keeps what it wrote *)

Lemma retentionSeconds_positive (rt : Runtime) (env : Env) (retention : Z) :
  Collector.retentionSeconds rt env = Some retention -> 1 <= retention.
Proof.
  unfold Collector.retentionSeconds. cbn zeta.
  destruct (Num.mul _ _) as [s|[]| |s m e]; intros [= <-]; lia.
Qed.

Lemma List_filter_all {A} (P : A -> bool) (l : list A) :
  (forall x, x ∈ l -> P x = true) -> List.filter P l = l.
Proof.
  induction l as [|x l IH]; intros H; [done|]. cbn [List.filter].
  rewrite (H x) by left. f_equal. apply IH. intros y Hy. apply H. by right.
Qed.

(** X26.  A run keeps what it wrote.  A retention that is a number of
    seconds is at least one second.  When the clock of the DELETE on
    [gym_history] is at most one second past the clock of the INSERT, the
    sample of the run is the last row of [gym_history] after the run; when the
    clock of the DELETE on [gym_team_changes] is at most one second past the
    JavaScript clock of the diff step, the table after the run is the swept
    table of before followed by all the ChangeEvents of the run. *)
Theorem X26_own_rows_survive (rt : Runtime) (env : Env) (w : World) (retention : Z) :
  working w = None ->
  Collector.retentionSeconds rt env = Some retention ->
  (Collector.collectGymHistory rt env w).1 = Ok tt ->
  let after := committed (Collector.collectGymHistory rt env w).2 in
  1 <= retention
  /\ exists geofenceId,
       env "GEOFENCE_ID" = Some geofenceId
       /\ (UNIX_TIMESTAMP rt CollectorSweepHistory
             <= UNIX_TIMESTAMP rt CollectorInsertHistory + 1 ->
           last (gym_history after)
           = Some (collected_sample rt geofenceId (committed w)))
       /\ (UNIX_TIMESTAMP rt CollectorSweepChanges <= Date_now rt `div` 1000 + 1 ->
           gym_team_changes after
           = List.filter
               (fun c =>
                  negb (changed_at c
                        <? UNIX_TIMESTAMP rt CollectorSweepChanges - retention))
               (gym_team_changes (committed w))
             ++ tracked_changes rt geofenceId (committed w)).
Proof.
  intros Hw Hret Hok. cbn zeta.
  pose proof (retentionSeconds_positive rt env retention Hret) as Hpos.
  split; [done|].
  destruct (Collector.collectGymHistory rt env w) as [r w'] eqn:Erun.
  cbn [fst snd] in Hok |- *. subst r.
  destruct (collectGymHistory_run rt env w _ w' Hw Erun)
    as [_ [[_ [e ?]]|(geofenceId & Hg & Hc & _)]]; [done|].
  exists geofenceId. split; [done|]. rewrite Hc, Hret. split.
  - intros Hclock. rewrite collected_history_list, List.filter_app.
    cbn [List.filter].
    assert (Hkeep : negb (timestamp (collected_sample rt geofenceId (committed w))
                          <? UNIX_TIMESTAMP rt CollectorSweepHistory - retention)
                    = true).
    { apply negb_true_iff, Z.ltb_ge. unfold collected_sample.
      destruct (Collector.select_counts rt geofenceId (committed w))
        as [[[mystic valor] instinct] total]. cbn [timestamp]. lia. }
    rewrite Hkeep. apply last_snoc.
  - intros Hclock.
    change (gym_team_changes
              (collected rt geofenceId (Some retention) (committed w)))
      with (List.filter
              (fun c =>
                 negb (changed_at c
                       <? UNIX_TIMESTAMP rt CollectorSweepChanges - retention))
              (gym_team_changes (committed w)
               ++ tracked_changes rt geofenceId (committed w))).
    rewrite List.filter_app. f_equal. apply List_filter_all.
    intros c Hc'. apply diff_events_shape in Hc' as (Hts & _).
    apply negb_true_iff, Z.ltb_ge. lia.
Qed.

Lemma X26_own_rows_survive_witness :
  let rt := Sample.runtime 2000 in
  let w := Sample.idle Sample.flipped in
  let after := committed (Collector.collectGymHistory rt Sample.env w).2 in
  1 <= 604800
  /\ exists geofenceId,
       Sample.env "GEOFENCE_ID" = Some geofenceId
       /\ (UNIX_TIMESTAMP rt CollectorSweepHistory
             <= UNIX_TIMESTAMP rt CollectorInsertHistory + 1 ->
           last (gym_history after)
           = Some (collected_sample rt geofenceId (committed w)))
       /\ (UNIX_TIMESTAMP rt CollectorSweepChanges <= Date_now rt `div` 1000 + 1 ->
           gym_team_changes after
           = List.filter
               (fun c =>
                  negb (changed_at c
                        <? UNIX_TIMESTAMP rt CollectorSweepChanges - 604800))
               (gym_team_changes (committed w))
             ++ tracked_changes rt geofenceId (committed w)).
Proof.
  apply (X26_own_rows_survive (Sample.runtime 2000) Sample.env
           (Sample.idle Sample.flipped) 604800).
  - reflexivity.
  - vm_compute. reflexivity.
  - vm_compute. reflexivity.
Defined.

(** * The environment files of the collector *)

Lemma is_white_not_key (c : N) :
  EnvFile.is_white c = true -> EnvFile.is_key_char c = false.
Proof.
  unfold EnvFile.is_white, EnvFile.is_line_terminator, EnvFile.is_key_char,
    EnvFile.is_key_start.
  rewrite !orb_true_iff, !andb_true_iff, !N.leb_le, !N.eqb_eq. intros H.
  apply not_true_is_false.
  rewrite !orb_true_iff, !andb_true_iff, !N.leb_le, !N.eqb_eq. lia.
Qed.

Lemma is_key_start_not_white (c : N) :
  EnvFile.is_key_start c = true -> EnvFile.is_white c = false.
Proof.
  intros H. destruct (EnvFile.is_white c) eqn:Hw; [|done].
  apply is_white_not_key in Hw. unfold EnvFile.is_key_char in Hw.
  by rewrite H in Hw.
Qed.

Lemma trimStart_white_app (w s : list N) :
  forallb EnvFile.is_white w = true ->
  EnvFile.trimStart (w ++ s) = EnvFile.trimStart s.
Proof.
  induction w as [|c w IH]; [done|]. cbn. intros [-> H]%andb_true_iff. auto.
Qed.

Lemma trimStart_suffix (s : list N) : EnvFile.trimStart s `suffix_of` s.
Proof.
  induction s as [|c s IH]; [done|]. cbn. destruct (EnvFile.is_white c); [|done].
  by apply suffix_cons_r.
Qed.

Lemma trimStart_elem (c : N) (s : list N) : c ∈ EnvFile.trimStart s -> c ∈ s.
Proof.
  intros H. destruct (trimStart_suffix s) as [k Hk]. rewrite Hk.
  apply elem_of_app. by right.
Qed.

Lemma trim_elem (c : N) (s : list N) : c ∈ EnvFile.trim s -> c ∈ s.
Proof.
  unfold EnvFile.trim, EnvFile.trimEnd. rewrite elem_of_reverse.
  intros H%trimStart_elem. rewrite elem_of_reverse in H. by apply trimStart_elem.
Qed.

Lemma replace_escape_elem (letter replacement c : N) (s : list N) :
  c ∈ EnvFile.replace_escape letter replacement s -> c ∈ s \/ c = replacement.
Proof.
  revert c. induction s as [s IH] using (induction_ltof1 _ length).
  unfold ltof in IH. intros c. destruct s as [|x rest]; [by left|].
  cbn [EnvFile.replace_escape]. destruct (x =? 92)%N.
  - destruct rest as [|d rest'].
    + by left.
    + destruct (d =? letter)%N.
      * intros [->|H]%elem_of_cons; [by right|].
        apply IH in H as [H| ->]; [left|by right|cbn; lia].
        (apply elem_of_cons; right; try (apply elem_of_cons; right); exact H).
      * intros [->|H]%elem_of_cons; [left; apply elem_of_cons; by left|].
        apply IH in H as [H| ->]; [left|by right|cbn; lia].
        (apply elem_of_cons; right; exact H).
  - intros [->|H]%elem_of_cons; [left; apply elem_of_cons; by left|].
    apply IH in H as [H| ->]; [left|by right|cbn; lia].
    (apply elem_of_cons; right; exact H).
Qed.

Lemma replace_escape_id (letter replacement : N) (s : list N) :
  (92%N ∉ s) -> EnvFile.replace_escape letter replacement s = s.
Proof.
  induction s as [|x rest IH]; [done|]. intros H.
  apply not_elem_of_cons in H as [Hx Hrest]. cbn [EnvFile.replace_escape].
  destruct (N.eqb_spec x 92); [congruence|]. by rewrite IH.
Qed.

Lemma before_hash_None (value : list N) :
  (35%N ∉ value) -> EnvFile.before_hash value = None.
Proof.
  induction value as [|c rest IH]; [done|]. intros H.
  apply not_elem_of_cons in H as [Hc Hrest]. cbn.
  destruct (N.eqb_spec c 35); [congruence|]. by rewrite IH.
Qed.

Lemma before_hash_Some (before after : list N) :
  (35%N ∉ before) -> EnvFile.before_hash (before ++ 35%N :: after) = Some before.
Proof.
  induction before as [|c rest IH]; [done|]. intros H.
  apply not_elem_of_cons in H as [Hc Hrest]. cbn.
  destruct (N.eqb_spec c 35); [congruence|]. by rewrite IH.
Qed.

Lemma before_hash_elem (value before : list N) :
  EnvFile.before_hash value = Some before -> 35%N ∉ before.
Proof.
  revert before. induction value as [|c rest IH]; [done|]. intros before. cbn.
  destruct (N.eqb_spec c 35).
  - intros [= <-]. apply not_elem_of_nil.
  - destruct (EnvFile.before_hash rest) as [b|]; [|done]. intros [= <-].
    apply not_elem_of_cons. split; [congruence|]. by apply IH.
Qed.

Lemma unescape_no_hash (value : list N) : (35%N ∉ value) -> 35%N ∉ unescape value.
Proof.
  intros H Hin. unfold unescape in Hin.
  apply replace_escape_elem in Hin as [Hin|?]; [|done].
  apply replace_escape_elem in Hin as [Hin|?]; [|done]. done.
Qed.

(** X27.  The value of an assignment.  A raw value that, trimmed, stands
    between two double quotes or between two single quotes gives the text
    between them with its escapes expanded: a [#] and white space inside the
    quotes are kept.  Any other raw value gives a text without [#]: the
    trimmed raw value when it has no [#], and else what stands before its
    first [#], trimmed; in both cases with the escapes expanded.  Expanding
    the escapes changes nothing in a text without backslash. *)
Theorem X27_value_syntax (raw : list N) :
  (forall q inner,
     q ∈ [34%N; 39%N] -> EnvFile.trim raw = q :: inner ++ [q] ->
     EnvFile.parseValue raw = unescape inner)
  /\ (is_quoted (EnvFile.trim raw) = false ->
      (35%N ∉ EnvFile.parseValue raw)
      /\ ((35%N ∉ raw) -> EnvFile.parseValue raw = unescape (EnvFile.trim raw))
      /\ (forall before after,
            (35%N ∉ before) -> EnvFile.trim raw = before ++ 35%N :: after ->
            EnvFile.parseValue raw = unescape (EnvFile.trim before)))
  /\ (forall value, (92%N ∉ value) -> unescape value = value).
Proof.
  split; [|split].
  - intros q inner Hq Htrim. unfold EnvFile.parseValue. rewrite Htrim.
    assert (Hlast : last (q :: inner ++ [q]) = Some q).
    { change (q :: inner ++ [q]) with ((q :: inner) ++ [q]). apply last_snoc. }
    assert (Hslice : EnvFile.slice_inner (q :: inner ++ [q]) = inner).
    { unfold EnvFile.slice_inner. cbn [tail]. apply removelast_last. }
    unfold EnvFile.startsWith, EnvFile.endsWith. rewrite Hlast, Hslice.
    repeat (apply elem_of_cons in Hq as [->|Hq]; [reflexivity|]). inversion Hq.
  - intros Hquoted. unfold EnvFile.parseValue. unfold is_quoted in Hquoted.
    rewrite Hquoted. fold (unescape (match EnvFile.before_hash (EnvFile.trim raw) with
                                     | Some before => EnvFile.trim before
                                     | None => EnvFile.trim raw
                                     end)).
    split; [|split].
    + apply unescape_no_hash.
      destruct (EnvFile.before_hash (EnvFile.trim raw)) as [before|] eqn:Hb.
      * intros H%trim_elem. by apply before_hash_elem in Hb.
      * clear Hquoted. intros Hin. induction (EnvFile.trim raw) as [|c rest IH];
          [by inversion Hin|]. cbn in Hb. destruct (N.eqb_spec c 35); [done|].
        destruct (EnvFile.before_hash rest); [done|].
        apply elem_of_cons in Hin as [?|Hin]; [congruence|]. by apply IH.
    + intros Hraw. rewrite before_hash_None; [done|]. intros H%trim_elem. done.
    + intros before after Hbefore ->. by rewrite before_hash_Some.
  - intros value H. unfold unescape.
    rewrite (replace_escape_id 110 10 value H). by apply replace_escape_id.
Qed.

Lemma span_spec (p : N -> bool) (s : list N) :
  s = (EnvFile.span p s).1 ++ (EnvFile.span p s).2
  /\ forallb p (EnvFile.span p s).1 = true
  /\ match (EnvFile.span p s).2 with
     | c :: _ => p c = false
     | [] => True
     end.
Proof.
  induction s as [|c s (IH1 & IH2 & IH3)]; [done|]. cbn.
  destruct (p c) eqn:Hc; [|done].
  destruct (EnvFile.span p s) as [taken others]. cbn in *.
  rewrite Hc, IH2. split; [by f_equal|done].
Qed.

Lemma span_app (p : N -> bool) (taken others : list N) :
  forallb p taken = true ->
  match others with
  | c :: _ => p c = false
  | [] => True
  end ->
  EnvFile.span p (taken ++ others) = (taken, others).
Proof.
  intros Ht Ho. induction taken as [|c taken IH]; cbn.
  - destruct others as [|c others]; [done|]. cbn. by rewrite Ho.
  - cbn in Ht. apply andb_true_iff in Ht as [-> Ht]. by rewrite IH.
Qed.

Lemma trimStart_spec (s : list N) :
  exists w,
    s = w ++ EnvFile.trimStart s
    /\ forallb EnvFile.is_white w = true
    /\ match EnvFile.trimStart s with
       | c :: _ => EnvFile.is_white c = false
       | [] => True
       end.
Proof.
  induction s as [|c s (w & IH1 & IH2 & IH3)]; [by exists []|]. cbn.
  destruct (EnvFile.is_white c) eqn:Hc.
  - exists (c :: w). cbn. rewrite Hc, IH2. split; [by f_equal|done].
  - by exists [].
Qed.

Lemma trimStart_fixed (s : list N) :
  match s with
  | c :: _ => EnvFile.is_white c = false
  | [] => True
  end ->
  EnvFile.trimStart s = s.
Proof. destruct s as [|c s]; [done|]. cbn. by intros ->. Qed.

Lemma no_terminator_suffix (s t : list N) :
  t `suffix_of` s ->
  forallb (fun c => negb (EnvFile.is_line_terminator c)) s = true ->
  forallb (fun c => negb (EnvFile.is_line_terminator c)) t = true.
Proof.
  intros [k ->]. rewrite forallb_app. by intros [_ ?]%andb_true_iff.
Qed.

Lemma match_assignment_shape (key w1 w2 value : list N) :
  is_key key = true ->
  forallb EnvFile.is_white w1 = true ->
  forallb EnvFile.is_white w2 = true ->
  forallb (fun c => negb (EnvFile.is_line_terminator c)) value = true ->
  EnvFile.match_assignment (key ++ w1 ++ 61%N :: w2 ++ value)
  = Some (key, EnvFile.trimStart value).
Proof.
  intros Hkey Hw1 Hw2 Hvalue. destruct key as [|c more]; [done|].
  cbn in Hkey. apply andb_true_iff in Hkey as [Hc Hmore].
  cbn [app EnvFile.match_assignment]. rewrite Hc.
  rewrite (span_app EnvFile.is_key_char more (w1 ++ 61%N :: w2 ++ value) Hmore).
  - rewrite trimStart_white_app by done. cbn [EnvFile.trimStart].
    change (EnvFile.is_white 61) with false. cbn [N.eqb Pos.eqb].
    rewrite trimStart_white_app by done.
    by rewrite (no_terminator_suffix value _ (trimStart_suffix value) Hvalue).
  - destruct w1 as [|x w1]; [done|]. cbn in Hw1.
    apply andb_true_iff in Hw1 as [Hx _]. by apply is_white_not_key.
Qed.

Lemma match_assignment_inv (s key raw : list N) :
  EnvFile.match_assignment s = Some (key, raw) ->
  is_key key = true
  /\ forallb (fun c => negb (EnvFile.is_line_terminator c)) raw = true
  /\ EnvFile.trimStart raw = raw
  /\ exists w1 w2,
       forallb EnvFile.is_white w1 = true
       /\ forallb EnvFile.is_white w2 = true
       /\ s = key ++ w1 ++ 61%N :: w2 ++ raw.
Proof.
  destruct s as [|c rest]; [done|]. cbn [EnvFile.match_assignment].
  destruct (EnvFile.is_key_start c) eqn:Hc; [|done].
  destruct (span_spec EnvFile.is_key_char rest) as (Hrest & Hmore & _).
  destruct (EnvFile.span EnvFile.is_key_char rest) as [more others].
  cbn [fst snd] in *.
  destruct (trimStart_spec others) as (w1 & Hothers & Hw1 & _).
  destruct (EnvFile.trimStart others) as [|e after]; [done|].
  destruct (N.eqb_spec e 61) as [->|]; [|done].
  destruct (trimStart_spec after) as (w2 & Hafter & Hw2 & Hhead).
  destruct (forallb _ (EnvFile.trimStart after)) eqn:Hvalue; [|done].
  intros [= <- <-]. split; [cbn; by rewrite Hc, Hmore|].
  split; [done|]. split; [by apply trimStart_fixed|].
  exists w1, w2. split; [done|]. split; [done|].
  cbn [app]. by rewrite <- Hafter, <- Hothers, <- Hrest.
Qed.

Lemma strip_prefix_Some (prefix s rest : list N) :
  EnvFile.strip_prefix prefix s = Some rest -> s = prefix ++ rest.
Proof.
  revert s. induction prefix as [|p prefix IH]; intros s; cbn.
  - destruct s; by intros [= ->].
  - destruct s as [|c s]; [done|]. destruct (N.eqb_spec c p) as [->|]; [|done].
    intros H. by rewrite (IH _ H).
Qed.

Lemma strip_prefix_app (prefix rest : list N) :
  EnvFile.strip_prefix prefix (prefix ++ rest) = Some rest.
Proof.
  induction prefix as [|p prefix IH]; cbn; [by destruct rest|].
  by rewrite N.eqb_refl.
Qed.

Lemma strip_export_Some (s rest : list N) :
  EnvFile.strip_export s = Some rest ->
  exists c others,
    EnvFile.is_white c = true
    /\ s = EnvFile.js "export" ++ c :: others
    /\ rest = EnvFile.trimStart others.
Proof.
  unfold EnvFile.strip_export.
  destruct (EnvFile.strip_prefix (EnvFile.js "export") s) as [[|c others]|] eqn:Hs;
    [done| |done].
  apply strip_prefix_Some in Hs. destruct (EnvFile.is_white c) eqn:Hc; [|done].
  intros [= <-]. by exists c, others.
Qed.

Lemma match_line_of_assignment (s : list N) (found : list N * list N) :
  EnvFile.match_assignment s = Some found -> EnvFile.match_line s = Some found.
Proof.
  intros Hs. unfold EnvFile.match_line.
  destruct (EnvFile.strip_export s) as [rest|] eqn:Hexport; [|done].
  apply strip_export_Some in Hexport as (c & others & Hc & -> & ->).
  assert (EnvFile.match_assignment (EnvFile.trimStart others) = None) as ->; [|done].
  revert Hs. change (EnvFile.js "export" ++ c :: others)
    with (101%N :: [120%N; 112%N; 111%N; 114%N; 116%N] ++ c :: others).
  cbn [EnvFile.match_assignment]. change (EnvFile.is_key_start 101) with true.
  cbn match.
  rewrite (span_app EnvFile.is_key_char [120%N; 112%N; 111%N; 114%N; 116%N]
             (c :: others) eq_refl (is_white_not_key c Hc)).
  cbn [EnvFile.trimStart]. rewrite Hc.
  destruct (EnvFile.trimStart others) as [|e after]; [done|].
  destruct (N.eqb_spec e 61) as [->|]; [|done]. done.
Qed.

(** X28.  The lines that assign.  A key, white space, [=], white space and
    a value without line terminator is matched as this key with the value
    without its leading white space, also after [export] and white space.
    Nothing else is matched: from any match the line is again of this form,
    the key starts with a letter or [_] and goes on with letters, digits, [_]
    and dots, and the raw value has no line terminator and no leading white
    space. *)
Theorem X28_line_syntax (key w0 w1 w2 value : list N) :
  is_key key = true ->
  forallb EnvFile.is_white (w0 ++ w1 ++ w2) = true ->
  forallb (fun c => negb (EnvFile.is_line_terminator c)) value = true ->
  EnvFile.match_line (key ++ w1 ++ 61%N :: w2 ++ value)
  = Some (key, EnvFile.trimStart value)
  /\ (w0 <> [] ->
      EnvFile.match_line
        (EnvFile.js "export" ++ w0 ++ key ++ w1 ++ 61%N :: w2 ++ value)
      = Some (key, EnvFile.trimStart value))
  /\ forall s key' raw,
       EnvFile.match_line s = Some (key', raw) ->
       is_key key' = true
       /\ forallb (fun c => negb (EnvFile.is_line_terminator c)) raw = true
       /\ EnvFile.trimStart raw = raw
       /\ exists before v0 v1 v2,
            forallb EnvFile.is_white (v0 ++ v1 ++ v2) = true
            /\ (before = [] \/ before = EnvFile.js "export" ++ v0 /\ v0 <> [])
            /\ s = before ++ key' ++ v1 ++ 61%N :: v2 ++ raw.
Proof.
  rewrite !forallb_app, !andb_true_iff. intros Hkey (Hw0 & Hw1 & Hw2) Hvalue.
  pose proof (match_assignment_shape key w1 w2 value Hkey Hw1 Hw2 Hvalue) as Hshape.
  split; [by apply match_line_of_assignment|]. split.
  - intros Hne. unfold EnvFile.match_line, EnvFile.strip_export.
    rewrite strip_prefix_app. destruct w0 as [|c w0]; [done|].
    cbn in Hw0. apply andb_true_iff in Hw0 as [Hc Hw0]. cbn [app]. rewrite Hc.
    rewrite trimStart_white_app by done.
    rewrite trimStart_fixed; [by rewrite Hshape|].
    destruct key as [|k more]; [done|]. cbn in Hkey.
    apply andb_true_iff in Hkey as [Hk _]. by apply is_key_start_not_white.
  - clear. intros s key raw. unfold EnvFile.match_line.
    assert (Hplain : EnvFile.match_assignment s = Some (key, raw) ->
      is_key key = true
      /\ forallb (fun c => negb (EnvFile.is_line_terminator c)) raw = true
      /\ EnvFile.trimStart raw = raw
      /\ exists before v0 v1 v2,
           forallb EnvFile.is_white (v0 ++ v1 ++ v2) = true
           /\ (before = [] \/ before = EnvFile.js "export" ++ v0 /\ v0 <> [])
           /\ s = before ++ key ++ v1 ++ 61%N :: v2 ++ raw).
    { intros (Hkey & Hraw & Htrim & v1 & v2 & Hv1 & Hv2 & ->)%match_assignment_inv.
      split; [done|]. split; [done|]. split; [done|].
      exists [], [], v1, v2. cbn [app forallb]. rewrite forallb_app, Hv1, Hv2.
      split; [done|]. split; [by left|done]. }
    destruct (EnvFile.strip_export s) as [rest|] eqn:Hexport; [|done].
    destruct (EnvFile.match_assignment rest) as [found|] eqn:Hrest; [|done].
    intros [= ->].
    apply strip_export_Some in Hexport as (c & others & Hc & -> & ->).
    apply match_assignment_inv in Hrest
      as (Hkey & Hraw & Htrim & v1 & v2 & Hv1 & Hv2 & Hrest).
    destruct (trimStart_spec others) as (w & Hothers & Hw & _).
    split; [done|]. split; [done|]. split; [done|].
    exists (EnvFile.js "export" ++ c :: w), (c :: w), v1, v2.
    cbn [app forallb]. rewrite !forallb_app, Hc, Hw, Hv1, Hv2.
    split; [done|]. split; [by right|].
    rewrite <- app_assoc. cbn [app]. rewrite <- Hrest. by rewrite <- Hothers.
Qed.

Lemma X28_line_syntax_witness :
  let key := EnvFile.js "DB_HOST" in
  let value := EnvFile.js "local host" in
  EnvFile.match_line (key ++ [32%N] ++ 61%N :: [9%N] ++ value)
  = Some (key, EnvFile.trimStart value)
  /\ ([32%N; 32%N] <> [] ->
      EnvFile.match_line
        (EnvFile.js "export" ++ [32%N; 32%N] ++ key ++ [32%N] ++ 61%N :: [9%N] ++ value)
      = Some (key, EnvFile.trimStart value))
  /\ forall s key' raw,
       EnvFile.match_line s = Some (key', raw) ->
       is_key key' = true
       /\ forallb (fun c => negb (EnvFile.is_line_terminator c)) raw = true
       /\ EnvFile.trimStart raw = raw
       /\ exists before v0 v1 v2,
            forallb EnvFile.is_white (v0 ++ v1 ++ v2) = true
            /\ (before = [] \/ before = EnvFile.js "export" ++ v0 /\ v0 <> [])
            /\ s = before ++ key' ++ v1 ++ 61%N :: v2 ++ raw.
Proof.
  apply (X28_line_syntax (EnvFile.js "DB_HOST") [32%N; 32%N] [32%N] [9%N]
           (EnvFile.js "local host")); reflexivity.
Defined.

Lemma loadLine_assignment (override : bool) (env : gmap (list N) (list N))
    (line : list N) :
  EnvFile.loadLine override env line
  = match line_assignment line with
    | Some (key, value) =>
        if negb override && bool_decide (is_Some (env !! key)) then env
        else <[key := value]> env
    | None => env
    end.
Proof.
  unfold EnvFile.loadLine, line_assignment.
  destruct (bool_decide (EnvFile.trim line = []) || _); [done|].
  destruct (EnvFile.match_line (EnvFile.trim line)) as [[key rawValue]|]; done.
Qed.

Lemma loadEnvFile_base (lines : list (list N)) (env : gmap (list N) (list N))
    (key : list N) :
  fold_left (EnvFile.loadLine false) lines env !! key
  = or_else (env !! key) (first_value key (omap line_assignment lines)).
Proof.
  revert env. induction lines as [|line lines IH]; intros env.
  { cbn. by destruct (env !! key). }
  cbn [fold_left omap list_omap]. rewrite IH, loadLine_assignment.
  destruct (line_assignment line) as [[k v]|]; [|done].
  unfold first_value. cbn [List.filter fst negb andb].
  destruct (decide (k = key)) as [->|Hk].
  - rewrite (bool_decide_eq_true_2 (key = key)) by done.
    cbn [head fmap option_fmap option_map snd].
    destruct (env !! key) as [x|] eqn:Hx.
    + rewrite bool_decide_eq_true_2 by done. by rewrite Hx.
    + rewrite bool_decide_eq_false_2 by (by intros [? [=]]).
      by rewrite lookup_insert_eq.
  - rewrite (bool_decide_eq_false_2 (k = key)) by done.
    destruct (bool_decide (is_Some (env !! k))); [done|].
    by rewrite lookup_insert_ne.
Qed.

Lemma loadEnvFile_override (lines : list (list N)) (env : gmap (list N) (list N))
    (key : list N) :
  fold_left (EnvFile.loadLine true) lines env !! key
  = or_else (last_value key (omap line_assignment lines)) (env !! key).
Proof.
  revert env. induction lines as [|line lines IH]; intros env; [done|].
  cbn [fold_left omap list_omap]. rewrite IH, loadLine_assignment.
  destruct (line_assignment line) as [[k v]|]; [|done].
  unfold last_value. cbn [List.filter fst negb andb].
  destruct (decide (k = key)) as [->|Hk].
  - rewrite (bool_decide_eq_true_2 (key = key)) by done.
    rewrite last_cons, lookup_insert_eq.
    by destruct (last _).
  - rewrite (bool_decide_eq_false_2 (k = key)) by done.
    by rewrite lookup_insert_ne.
Qed.

Lemma loadFile_lookup (files : list N -> EnvFile.File) (override : bool)
    (env : gmap (list N) (list N)) (file : list N) :
  files file <> EnvFile.Unreadable ->
  exists env',
    EnvFile.loadFile files override (Some env) file = Some env'
    /\ forall key,
         env' !! key
         = if override
           then or_else (last_value key (assignments (files file))) (env !! key)
           else or_else (env !! key) (first_value key (assignments (files file))).
Proof.
  intros Hfile. unfold EnvFile.loadFile.
  destruct (files file) as [| |text]; [|done|].
  - exists env. split; [done|]. intros key. cbn.
    destruct override; [done|]. by destruct (env !! key).
  - eexists. split; [done|]. intros key. unfold EnvFile.loadEnvFile.
    destruct override; [apply loadEnvFile_override|apply loadEnvFile_base].
Qed.

(** X29.  The precedence of the environment files.  [loadEnv] ends without
    an exception exactly when none of the four files [.env], [.env.<mode>],
    [.env.local] and [.env.<mode>.local] is there without being readable,
    where the mode is NODE_ENV as the process started with it, or
    [development].  The value of a variable is then the first that is there
    of: the last assignment to it in [.env.<mode>.local], the last one in
    [.env.local], its value in the environment the process started with, the
    first assignment to it in [.env], the first one in [.env.<mode>]. *)
Theorem X29_precedence (files : list N -> EnvFile.File)
    (env : gmap (list N) (list N)) :
  let mode := EnvFile.mode env in
  let base := assignments (files (EnvFile.js ".env")) in
  let base_mode := assignments (files (EnvFile.js ".env." ++ mode)) in
  let local := assignments (files (EnvFile.js ".env.local")) in
  let local_mode :=
    assignments (files (EnvFile.js ".env." ++ mode ++ EnvFile.js ".local")) in
  (is_Some (EnvFile.loadEnv files env)
   <-> forall file,
         file ∈ [EnvFile.js ".env"; EnvFile.js ".env." ++ mode;
                 EnvFile.js ".env.local";
                 EnvFile.js ".env." ++ mode ++ EnvFile.js ".local"] ->
         files file <> EnvFile.Unreadable)
  /\ forall env' key,
       EnvFile.loadEnv files env = Some env' ->
       env' !! key
       = or_else (last_value key local_mode)
           (or_else (last_value key local)
              (or_else (env !! key)
                 (or_else (first_value key base) (first_value key base_mode)))).
Proof.
  cbn zeta. unfold EnvFile.loadEnv. cbn [fold_left].
  set (f1 := EnvFile.js ".env").
  set (f2 := EnvFile.js ".env." ++ EnvFile.mode env).
  set (f3 := EnvFile.js ".env.local").
  set (f4 := EnvFile.js ".env." ++ EnvFile.mode env ++ EnvFile.js ".local").
  assert (Hfail : (exists file, file ∈ [f1; f2; f3; f4]
                                /\ files file = EnvFile.Unreadable) ->
    EnvFile.loadFile files true
      (EnvFile.loadFile files true
         (EnvFile.loadFile files false
            (EnvFile.loadFile files false (Some env) f1) f2) f3) f4 = None).
  { intros (file & Hin & Hfile).
    assert (Hnone : forall override e,
      EnvFile.loadFile files override e file = None).
    { intros override [e|]; [|done]. cbn. by rewrite Hfile. }
    assert (Hkeep : forall override name,
      EnvFile.loadFile files override None name = None) by done.
    repeat (apply elem_of_cons in Hin as [->|Hin];
            [by rewrite Hnone, ?Hkeep|]).
    inversion Hin. }
  assert (Hok : (forall file, file ∈ [f1; f2; f3; f4] ->
                              files file <> EnvFile.Unreadable) ->
    exists env',
      EnvFile.loadFile files true
        (EnvFile.loadFile files true
           (EnvFile.loadFile files false
              (EnvFile.loadFile files false (Some env) f1) f2) f3) f4 = Some env'
      /\ forall key,
           env' !! key
           = or_else (last_value key (assignments (files f4)))
               (or_else (last_value key (assignments (files f3)))
                  (or_else (env !! key)
                     (or_else (first_value key (assignments (files f1)))
                        (first_value key (assignments (files f2))))))).
  { intros Hall.
    destruct (loadFile_lookup files false env f1) as (e1 & -> & H1);
      [apply Hall; set_solver|].
    destruct (loadFile_lookup files false e1 f2) as (e2 & -> & H2);
      [apply Hall; set_solver|].
    destruct (loadFile_lookup files true e2 f3) as (e3 & -> & H3);
      [apply Hall; set_solver|].
    destruct (loadFile_lookup files true e3 f4) as (e4 & -> & H4);
      [apply Hall; set_solver|].
    exists e4. split; [done|]. intros key. rewrite H4, H3, H2, H1.
    by destruct (env !! key). }
  split.
  - split.
    + intros [env' Henv'] file Hin Hfile.
      rewrite Hfail in Henv' by (by exists file). done.
    + intros Hall. destruct (Hok Hall) as (env' & -> & _). done.
  - intros env' key Henv'.
    destruct (Hok) as (env'' & Heq & Hlookup).
    { intros file Hin Hfile. rewrite Hfail in Henv' by (by exists file). done. }
    rewrite Henv' in Heq. injection Heq as <-. apply Hlookup.
Qed.
